(** * Hamilton labware definition parser: a shallow embedding.

    The development follows [pylabrobot/resources/hamilton_parse.py]:
    the classifier [get_resource_type], the plate, tip-rack and carrier
    parsers ([create_*_for_writing]) and the public entry points
    ([create_plate], ...).

    Conventions.
    - A Python [str] decoded as ISO-8859-1 is a [string] (one [ascii] per
      code point below 256).
    - A Python [int] is a [Z]; a Python [float] is a primitive [float]
      (IEEE-754 binary64, the representation CPython uses).
    - A call that may raise returns a [result]; exceptions are values of
      [exn] and propagate through [bind].
    - The file system is a partial map from paths to file contents.
    - The field extractors [find_int], [find_float], [find_string] live in
      [pylabrobot.utils.file_parsing], outside this module; they are
      parameters of the embedding, as are the two float builtins whose
      decimal behaviour is not reproduced here ([round] and [str]). *)

From Stdlib Require Import ZArith List String Ascii Bool Lia.
From Stdlib Require Import Floats DecimalString Permutation Sorted.
Import ListNotations.

Local Open Scope string_scope.
Local Open Scope Z_scope.

(** ** Python strings *)

Module PyStr.

(** [s.startswith(p)] *)
Definition startswith (s p : string) : bool := prefix p s.

(** [s.endswith(p)] *)
Definition endswith (s p : string) : bool :=
  (String.length p <=? String.length s)%nat
  && String.eqb (substring (String.length s - String.length p)
                           (String.length p) s) p.

(** [s.replace(old, new)] for a non-empty [old]: every non-overlapping
    occurrence, leftmost first.  [skip] counts the characters of the
    occurrence just replaced that are still to be passed over. *)
Fixpoint replace_from (old new : string) (skip : nat) (s : string) : string :=
  match s with
  | EmptyString => EmptyString
  | String a s' =>
      match skip with
      | S k => replace_from old new k s'
      | O =>
          if prefix old s
          then new ++ replace_from old new (String.length old - 1) s'
          else String a (replace_from old new O s')
      end
  end.

Definition replace (old new s : string) : string := replace_from old new O s.

(** [s.split(sep)] for a non-empty [sep]: the first piece and the pieces
    after it. *)
Fixpoint split_from (sep : string) (skip : nat) (s : string)
  : string * list string :=
  match s with
  | EmptyString => (EmptyString, [])
  | String a s' =>
      match skip with
      | S k => split_from sep k s'
      | O =>
          if prefix sep s
          then (EmptyString,
                let (p, ps) := split_from sep (String.length sep - 1) s' in
                p :: ps)
          else let (p, ps) := split_from sep O s' in (String a p, ps)
      end
  end.

Definition split (sep s : string) : list string :=
  let (p, ps) := split_from sep O s in p :: ps.

Fixpoint has_slash (s : string) : bool :=
  match s with
  | EmptyString => false
  | String a s' => Ascii.eqb a "/" || has_slash s'
  end.

(** [os.path.basename(p)] (POSIX): what follows the last slash. *)
Fixpoint basename (p : string) : string :=
  match p with
  | EmptyString => EmptyString
  | String a p' =>
      if has_slash p' then basename p'
      else if Ascii.eqb a "/" then p' else p
  end.

(** [str(i)] of an [int], as an f-string field renders it. *)
Definition str_int (i : Z) : string := NilZero.string_of_int (Z.to_int i).

Definition is_digit (a : ascii) : bool :=
  let n := nat_of_ascii a in ((48 <=? n) && (n <=? 57))%nat.

(** Whitespace that [int()] strips, among the code points below 256. *)
Definition is_space (a : ascii) : bool :=
  let n := nat_of_ascii a in
  (((9 <=? n) && (n <=? 13)) || ((28 <=? n) && (n <=? 32))
   || (n =? 133) || (n =? 160))%nat.

Fixpoint lstrip (s : string) : string :=
  match s with
  | String a s' => if is_space a then lstrip s' else s
  | EmptyString => EmptyString
  end.

Fixpoint rev_onto (s acc : string) : string :=
  match s with
  | EmptyString => acc
  | String a s' => rev_onto s' (String a acc)
  end.

Definition strip (s : string) : string :=
  rev_onto (lstrip (rev_onto (lstrip s) EmptyString)) EmptyString.

(** Digits of a decimal literal; one underscore may sit between two digits.
    [prev] tells whether the previous character was a digit. *)
Fixpoint digits_value (prev : bool) (acc : Z) (s : string) : option Z :=
  match s with
  | EmptyString => if prev then Some acc else None
  | String a s' =>
      if is_digit a
      then digits_value true (10 * acc + Z.of_nat (nat_of_ascii a - 48)) s'
      else if Ascii.eqb a "_" && prev then digits_value false acc s'
      else None
  end.

(** [int(s)] in base ten; [None] is the [ValueError]. *)
Definition int_of_str (s : string) : option Z :=
  match strip s with
  | String "-" d => option_map Z.opp (digits_value false 0 d)
  | String "+" d => digits_value false 0 d
  | d => digits_value false 0 d
  end.

(** [s[0]] and [s[1:]] *)
Definition head_char (s : string) : option ascii :=
  match s with String a _ => Some a | EmptyString => None end.

Definition tail (s : string) : string :=
  match s with String _ s' => s' | EmptyString => EmptyString end.

End PyStr.
Import PyStr.

(** ** Exceptions and results *)

Inductive exn : Type :=
| ValueError (msg : string)
| KeyError (key : string)
| IndexError (msg : string)
| UnboundLocalError (var : string)
| FileNotFoundError (path : string).

Inductive result (A : Type) : Type :=
| Ok (a : A)
| Raise (e : exn).

Arguments Ok {A} a.
Arguments Raise {A} e.

Definition bind {A B : Type} (c : result A) (k : A -> result B) : result B :=
  match c with
  | Ok a => k a
  | Raise e => Raise e
  end.

Declare Scope py_scope.
Delimit Scope py_scope with py.
Notation "x <- c ;; k" := (bind c (fun x => k))
  (at level 61, c at next level, right associativity) : py_scope.
Notation "' pat <- c ;; k" := (bind c (fun v => let pat := v in k))
  (at level 61, pat pattern, c at next level, right associativity) : py_scope.
Local Open Scope py_scope.

(** A [for] loop whose body may raise: the state is threaded from one
    iteration to the next and the first exception ends the loop. *)
Fixpoint for_each {A S : Type} (xs : list A) (st : S)
                  (body : S -> A -> result S) : result S :=
  match xs with
  | [] => Ok st
  | x :: xs' => st' <- body st x ;; for_each xs' st' body
  end.

(** What a field extractor gives back: the value, or the [ValueError] it
    raises when the key is absent or the value does not convert. *)
Inductive lookup (A : Type) : Type :=
| Found (a : A)
| Missing (msg : string).

Arguments Found {A} a.
Arguments Missing {A} msg.

Definition field {A : Type} (l : lookup A) : result A :=
  match l with
  | Found a => Ok a
  | Missing msg => Raise (ValueError msg)
  end.

(** Files: [os.path.exists] and [open(...).read()]. *)
Definition filesystem : Type := string -> option string.

Definition exists_ (fs : filesystem) (path : string) : bool :=
  match fs path with Some _ => true | None => false end.

Definition read_file (fs : filesystem) (path : string) : result string :=
  match fs path with
  | Some c => Ok c
  | None => Raise (FileNotFoundError path)
  end.

(** ** Numbers *)

(** A Python number that is an [int] on one path and a [float] on another. *)
Inductive num : Type :=
| Int (z : Z)
| Float (f : float).

(** [float(z)], exact below 2^53; the only [int] converted here is the
    literal [0]. *)
Definition float_of_int (z : Z) : float :=
  if z <? 0 then PrimFloat.opp (PrimFloat.of_uint63 (Uint63.of_Z (- z)))
  else PrimFloat.of_uint63 (Uint63.of_Z z).

(** [n + f] with [f] a float: the result is a float. *)
Definition num_add (n : num) (f : float) : float :=
  match n with
  | Int z => PrimFloat.add (float_of_int z) f
  | Float g => PrimFloat.add g f
  end.

(** [range(n, 0, -1)] and [range(1, n + 1)] *)
Fixpoint count_down (n : nat) : list Z :=
  match n with
  | O => []
  | S k => Z.of_nat (S k) :: count_down k
  end.

Definition range_down (n : Z) : list Z := count_down (Z.to_nat n).

Definition range_up (n : Z) : list Z := map Z.of_nat (seq 1 (Z.to_nat n)).

(** [v in range(lo, hi)] *)
Definition in_range (v lo hi : Z) : bool := (lo <=? v) && (v <? hi).

(** ** Descriptors *)

Inductive WellBottomType : Type := FLAT | V | U | UNKNOWN.

Inductive CrossSectionType : Type := CIRCLE | RECTANGLE.

(** The nine tip constructors of [pylabrobot.resources.ml_star.tip_creators]. *)
Inductive tip_creator : Type :=
| low_volume_tip_no_filter
| low_volume_tip_with_filter
| standard_volume_tip_no_filter
| standard_volume_tip_with_filter
| high_volume_tip_no_filter
| high_volume_tip_with_filter
| four_ml_tip_with_filter
| five_ml_tip
| five_ml_tip_with_filter.

Record Coordinate : Type := mkCoordinate { x : float; y : float; z : float }.

(** Modelled from the spec: [create_equally_spaced_2d], [Well] and [Plate]
    belong to [pylabrobot.resources], which is not part of this module
    (external data sinks with known constructors).  The grid of wells is kept
    as the keyword arguments of the call that builds it. *)
Record WellGrid : Type := mkWellGrid {
  wells_num_items_x : Z;
  wells_num_items_y : Z;
  wells_dx : float;
  wells_dy : float;
  wells_dz : num;
  wells_item_dx : float;
  wells_item_dy : float;
  wells_size_x : float;
  wells_size_y : float;
  wells_size_z : float;
  wells_bottom_type : WellBottomType;
  wells_cross_section_type : CrossSectionType
}.

Record Plate : Type := mkPlate {
  plate_name : string;
  plate_size_x : float;
  plate_size_y : float;
  plate_size_z : float;
  plate_num_items_x : Z;
  plate_num_items_y : Z;
  plate_items : WellGrid;
  plate_lid_height : Z;
  plate_model : string
}.

(** Modelled from the spec: [create_equally_spaced_2d] called for [TipSpot]
    items, and the [TipRack] constructor; same treatment as for plates. *)
Record TipSpotGrid : Type := mkTipSpotGrid {
  spots_num_items_x : Z;
  spots_num_items_y : Z;
  spots_dx : float;
  spots_dy : float;
  spots_dz : float;
  spots_item_dx : float;
  spots_item_dy : float;
  spots_size_x : float;
  spots_size_y : float;
  spots_size_z : float;
  spots_make_tip : tip_creator
}.

Record TipRack : Type := mkTipRack {
  rack_name : string;
  rack_size_x : float;
  rack_size_y : float;
  rack_size_z : float;
  rack_items : TipSpotGrid;
  rack_model : string
}.

Record CarrierSite : Type := mkCarrierSite {
  site_location : Coordinate;
  site_size_x : float;
  site_size_y : float
}.

(** Modelled from the spec: [create_homogeneous_carrier_sites] is defined in
    [pylabrobot.resources]; it builds one [CarrierSite] per location, all of
    the one width and height it is given, in the order of the locations. *)
Definition create_homogeneous_carrier_sites
    (locations : list Coordinate) (site_size_x site_size_y : float)
  : list CarrierSite :=
  map (fun l => mkCarrierSite l site_size_x site_size_y) locations.

Inductive carrier_class : Type := PlateCarrier | TipCarrier | MFXCarrier.

(** Modelled from the spec: the constructors [PlateCarrier], [TipCarrier]
    and [MFXCarrier] take the same keyword arguments; [carrier_klass] tells
    which one was called. *)
Record Carrier : Type := mkCarrier {
  carrier_klass : carrier_class;
  carrier_name : string;
  carrier_size_x : float;
  carrier_size_y : float;
  carrier_size_z : float;
  carrier_sites : list CarrierSite;
  carrier_model : string
}.

(** Attribute assignment [resource.name = name]. *)
Definition plate_set_name (p : Plate) (name : string) : Plate :=
  mkPlate name (plate_size_x p) (plate_size_y p) (plate_size_z p)
          (plate_num_items_x p) (plate_num_items_y p) (plate_items p)
          (plate_lid_height p) (plate_model p).

Definition rack_set_name (r : TipRack) (name : string) : TipRack :=
  mkTipRack name (rack_size_x r) (rack_size_y r) (rack_size_z r)
            (rack_items r) (rack_model r).

Definition carrier_set_name (c : Carrier) (name : string) : Carrier :=
  mkCarrier (carrier_klass c) name (carrier_size_x c) (carrier_size_y c)
            (carrier_size_z c) (carrier_sites c) (carrier_model c).

(** ** Small pieces of the parsers *)

Definition nl : string := String (ascii_of_nat 10) EmptyString.
Definition dquote : string := String (ascii_of_nat 34) EmptyString.
Definition SOH : string := String (ascii_of_nat 1) EmptyString.
Definition STX : string := String (ascii_of_nat 2) EmptyString.
Definition BS : string := String (ascii_of_nat 8) EmptyString.

(** [os.path.basename(filepath).split(".")[0]] *)
Definition stem (filepath : string) : string :=
  hd EmptyString (split "." (basename filepath)).

(** [sorted(sites, key=lambda c: c.y)]: a stable sort on the keys compared
    with [<].  Insertion from the right keeps equal keys in their original
    order; on keys that [<] orders totally (no nan) this is the list
    Python's sort returns. *)
Fixpoint insert_by_y (s : Coordinate) (l : list Coordinate) : list Coordinate :=
  match l with
  | [] => [s]
  | t :: l' =>
      if PrimFloat.ltb (y t) (y s) then t :: insert_by_y s l'
      else s :: t :: l'
  end.

Fixpoint sorted_by_y (l : list Coordinate) : list Coordinate :=
  match l with
  | [] => []
  | s :: l' => insert_by_y s (sorted_by_y l')
  end.

(** The dictionary literals of [create_plate_for_writing], read with
    [.get(code, default)]. *)
Definition well_bottom_type_of (code : Z) : WellBottomType :=
  if code =? 0 then FLAT
  else if code =? 1 then FLAT
  else if code =? 3 then V
  else if code =? 4 then U
  else if code =? 5 then V
  else UNKNOWN.

Definition cross_section_type_of (code : Z) : CrossSectionType :=
  if code =? 0 then CIRCLE
  else if code =? 1 then RECTANGLE
  else CIRCLE.

(** [tip_table] of [create_tip_rack_for_writing]; [None] is the [KeyError]
    of [tip_table[tip_type]]. *)
Definition tip_table (tip_type : string) : option tip_creator :=
  if String.eqb tip_type "MlStar4mlTipWithFilter" then Some four_ml_tip_with_filter
  else if String.eqb tip_type "MlStar5mlTipWithFilter" then Some five_ml_tip_with_filter
  else if String.eqb tip_type "MlStar10ulLowVolumeTip" then Some low_volume_tip_no_filter
  else if String.eqb tip_type "MlStar10ulLowVolumeTipWithFilter" then Some low_volume_tip_with_filter
  else if String.eqb tip_type "MlStar1000ulHighVolumeTipWithFilter" then Some high_volume_tip_with_filter
  else if String.eqb tip_type "MlStar1000ulHighVolumeTip" then Some high_volume_tip_no_filter
  else if String.eqb tip_type "MlStar5mlTip" then Some five_ml_tip
  else if String.eqb tip_type "MlStar300ulStandardVolumeTipWithFilter" then Some standard_volume_tip_with_filter
  else if String.eqb tip_type "MlStar300ulStandardVolumeTip" then Some standard_volume_tip_no_filter
  else None.

(** [.rck] to [.ctr] file path. *)
Definition rck2ctr (fn : string) : string :=
  replace "ProtCryst" "Post"
    (replace ".rck" ".ctr"
       (replace "_L.rck" ".ctr"
          (replace "_P.rck" ".ctr" fn))).

(** [int(c.split(marker)[1].split("\x08")[0])] *)
Definition site_count_of (marker c : string) : result Z :=
  match nth_error (split marker c) 1 with
  | None => Raise (IndexError "list index out of range")
  | Some after =>
      match int_of_str (hd EmptyString (split BS after)) with
      | Some n => Ok n
      | None => Raise (ValueError "invalid literal for int() with base 10")
      end
  end.

(** ** The parsers *)

Section Embedding.

(** [find_int(key, c)], [find_float(key, c)], [find_string(key, c)] of
    [pylabrobot.utils.file_parsing]. *)
Variable find_int : string -> string -> lookup Z.
Variable find_float : string -> string -> lookup float.
Variable find_string : string -> string -> lookup string.

(** The builtins [round(x, ndigits)] and [str(x)] on floats. *)
Variable round : float -> Z -> float.
Variable str_float : float -> string.

Definition str_num (n : num) : string :=
  match n with
  | Int i => str_int i
  | Float f => str_float f
  end.

(** The orientation suffixes are taken off the path before it is looked up. *)
Definition canonical_path (filepath : string) : string :=
  let filename := basename filepath in
  let filepath :=
    if endswith filepath "_L.rck" then replace "_L.rck" ".rck" filepath
    else filepath in
  if endswith filename "_P.rck" then replace "_P.rck" ".rck" filepath
  else filepath.

(** Get the resource type from the filename or the file contents. *)
Definition get_resource_type (fs : filesystem) (filepath : string)
  : result string :=
  let filename := basename filepath in
  if startswith filename "PLT_CAR_" then Ok "PlateCarrier"
  else if startswith filename "TIP_CAR_" then Ok "TipCarrier"
  else if startswith filename "MFX_CAR_" then Ok "MFXCarrier"
  else if startswith filename "SMP_CAR_"
  then Raise (ValueError "SMP_CAR_ not supported yet")
  else
    let filepath := canonical_path filepath in
    if negb (exists_ fs filepath) then Ok "TipRack"
    else
      c <- read_file fs filepath ;;
      let by_sidecar :=
        match find_string "Cntr.1.file" c with
        | Found _ => Ok "Plate"
        | Missing _ =>
            Raise (ValueError ("Unknown resource type for file " ++ filename))
        end in
      match find_int "Category.0.Id" c with
      | Found category0id =>
          if in_range category0id 170 180 then Ok "TipRack"
          else if in_range category0id 1000 1100 then Ok "Plate"
          else by_sidecar
      | Missing _ => by_sidecar
      end.

(** One turn of the loop over the segments of a well, bottom segment first;
    the state is [(vol_eqn_func, height_so_far)]. *)
Definition segment_step (c2 : string) (num_segments : Z)
    (st : string * num) (i : Z) : result (string * num) :=
  let '(vol_eqn_func, height_so_far) := st in
  vol_eqn <- field (find_string (str_int i ++ ".EqnOfVol") c2) ;;
  section_max_height <- field (find_float (str_int i ++ ".Max") c2) ;;
  let vol_eqn_func :=
    if i =? num_segments
    then
      let vol_eqn :=
        replace "h" ("min(h, " ++ str_float section_max_height ++ ")") vol_eqn in
      vol_eqn_func ++ ("volume = " ++ vol_eqn ++ nl)
    else
      let vol_eqn :=
        replace "h" ("(h-" ++ str_num height_so_far ++ ")") vol_eqn in
      let vol_eqn_func :=
        vol_eqn_func ++ ("if h <= " ++ str_float section_max_height ++ ":" ++ nl) in
      vol_eqn_func ++ ("  volume += " ++ vol_eqn ++ nl) in
  Ok (vol_eqn_func, Float (num_add height_so_far section_max_height)).

(** The volume function text written from the [.ctr] contents [c2]. *)
Definition volume_function (c2 cname : string) (num_segments : Z)
  : result string :=
  '(vol_eqn_func, height_so_far) <-
     for_each (range_down num_segments) (EmptyString, Int 0)
              (segment_step c2 num_segments) ;;
  let vol_eqn_func :=
    vol_eqn_func ++ ("if h > " ++ str_num height_so_far ++ ":" ++ nl) in
  let vol_eqn_func :=
    vol_eqn_func
    ++ ("  raise ValueError(f" ++ dquote ++ "Height {h} is too large for "
        ++ cname ++ dquote ++ ")" ++ nl) in
  Ok (vol_eqn_func ++ "return volume").

(** Create a plate from the given file.  Returns the plate, a description
    and the volume equation. *)
Definition create_plate_for_writing (fs : filesystem) (filepath : string)
    (ctr_filepath : option string) : result (Plate * string * string) :=
  c <- read_file fs filepath ;;
  size_x <- field (find_float "Dim.Dx" c) ;;
  size_y <- field (find_float "Dim.Dy" c) ;;
  size_z <- field (find_float "Dim.Dz" c) ;;
  num_items_x <- field (find_int "Columns" c) ;;
  num_items_y <- field (find_int "Rows" c) ;;
  well_dx <- field (find_float "Dx" c) ;;
  well_dy <- field (find_float "Dy" c) ;;
  bndry_x <- field (find_float "BndryX" c) ;;
  let dx := round (bndry_x - well_dx / 2)%float 4 in
  bndry_y <- field (find_float "BndryY" c) ;;
  let dy := round (bndry_y - well_dy / 2)%float 4 in
  let cname := stem filepath in
  let description := cname in
  let well_dy :=
    if String.eqb cname "Cos_96_ProtCryst" && PrimFloat.eqb well_dy 4.5%float
    then 9.0%float else well_dy in
  let ctr_filepath :=
    match ctr_filepath with
    | Some (String a p) => String a p
    | Some EmptyString | None => rck2ctr filepath
    end in
  c2 <- read_file fs ctr_filepath ;;
  num_segments <- field (find_int "Segments" c2) ;;
  vol_eqn_func <- volume_function c2 cname num_segments ;;
  well_size_x <- field (find_float "Dim.Dx" c2) ;;
  well_size_y <- field (find_float "Dim.Dy" c2) ;;
  well_bottom_type_code <-
    field (find_int (str_int num_segments ++ ".Shape") c2) ;;
  let well_bottom_type := well_bottom_type_of well_bottom_type_code in
  cross_section_type_code <- field (find_int "1.Shape" c2) ;;
  let cross_section_type := cross_section_type_of cross_section_type_code in
  well_size_z <- field (find_float "Depth" c2) ;;
  let dz :=
    match find_float "BaseMM" c2 with
    | Found v => Float v
    | Missing _ => Int 0
    end in
  let plate :=
    mkPlate cname size_x size_y size_z num_items_x num_items_y
      (mkWellGrid num_items_x num_items_y
         (dx + (well_dx - well_size_x) / 2)%float
         (dy + (well_dy - well_size_y) / 2)%float
         dz well_dx well_dy well_size_x well_size_y well_size_z
         well_bottom_type cross_section_type)
      10 cname in
  Ok (plate, description, vol_eqn_func).

(** The tip type: [PropertyValue.6], and [PropertyValue.4] when the first
    lookup raises [ValueError]. *)
Definition read_tip_type (c : string) : result string :=
  match find_string "PropertyValue.6" c with
  | Found tip_type => Ok tip_type
  | Missing _ => field (find_string "PropertyValue.4" c)
  end.

(** Create a tip rack from the given file.  Returns the tip rack and a
    description. *)
Definition create_tip_rack_for_writing (fs : filesystem) (filepath : string)
  : result (TipRack * string) :=
  c <- read_file fs filepath ;;
  size_x <- field (find_float "Dim.Dx" c) ;;
  size_y <- field (find_float "Dim.Dy" c) ;;
  size_z <- field (find_float "Dim.Dz" c) ;;
  tip_type <- read_tip_type c ;;
  tip_creator <-
    match tip_table tip_type with
    | Some t => Ok t
    | None => Raise (KeyError tip_type)
    end ;;
  tip_size_x <- field (find_float "Dx" c) ;;
  tip_size_y <- field (find_float "Dy" c) ;;
  bndry_x <- field (find_float "BndryX" c) ;;
  let dx := round (bndry_x - tip_size_x / 2)%float 4 in
  bndry_y <- field (find_float "BndryY" c) ;;
  let dy := round (bndry_y - tip_size_y / 2)%float 4 in
  dz <- field (find_float "Cntr.1.base" c) ;;
  num_items_x <- field (find_int "Columns" c) ;;
  num_items_y <- field (find_int "Rows" c) ;;
  let cname := stem filepath in
  cname <-
    match head_char cname with
    | None => Raise (IndexError "string index out of range")
    | Some a =>
        if Ascii.eqb a "4" then Ok ("Four" ++ tail cname)
        else if Ascii.eqb a "5" then Ok ("Five" ++ tail cname)
        else Ok cname
    end ;;
  description <- field (find_string "Description" c) ;;
  let tip_rack :=
    mkTipRack cname size_x size_y size_z
      (mkTipSpotGrid num_items_x num_items_y dx dy dz tip_size_x tip_size_y
         tip_size_x tip_size_y size_z tip_creator)
      cname in
  Ok (tip_rack, description).

(** The state of the loop over the sites of a carrier: the coordinates read
    so far, and [site_width] and [site_height], unbound before the first
    turn. *)
Record site_loop : Type := mkSiteLoop {
  loop_sites : list Coordinate;
  loop_site_width : option float;
  loop_site_height : option float
}.

Definition site_step (c : string) (st : site_loop) (i : Z) : result site_loop :=
  x <- field (find_float ("Site." ++ str_int i ++ ".X") c) ;;
  y <- field (find_float ("Site." ++ str_int i ++ ".Y") c) ;;
  z <- field (find_float ("Site." ++ str_int i ++ ".Z") c) ;;
  site_width <- field (find_float ("Site." ++ str_int i ++ ".Dx") c) ;;
  site_height <- field (find_float ("Site." ++ str_int i ++ ".Dy") c) ;;
  Ok (mkSiteLoop (loop_sites st ++ [mkCoordinate x y z])
                 (Some site_width) (Some site_height)).

Definition read_sites (c : string) (site_count : Z) : result site_loop :=
  for_each (range_up site_count) (mkSiteLoop [] None None) (site_step c).

(** Reading a local variable that no assignment has bound yet. *)
Definition local (var : string) (v : option float) : result float :=
  match v with
  | Some f => Ok f
  | None => Raise (UnboundLocalError var)
  end.

(** What the three carrier parsers share after their sites are settled. *)
Definition assemble_carrier (klass : carrier_class) (c filepath : string)
    (sites : list Coordinate) (st : site_loop) : result (Carrier * string) :=
  size_x <- field (find_float "Dim.Dx" c) ;;
  size_y <- field (find_float "Dim.Dy" c) ;;
  size_z <- field (find_float "Dim.Dz" c) ;;
  description <- field (find_string "Description" c) ;;
  let cname := stem filepath in
  site_width <- local "site_width" (loop_site_width st) ;;
  site_height <- local "site_height" (loop_site_height st) ;;
  let carrier :=
    mkCarrier klass cname size_x size_y size_z
      (create_homogeneous_carrier_sites sites site_width site_height)
      cname in
  Ok (carrier, description).

(** Create a plate carrier from the given file. *)
Definition create_plate_carrier_for_writing (fs : filesystem)
    (filepath : string) : result (Carrier * string) :=
  c <- read_file fs filepath ;;
  site_count <- site_count_of ("Site.Cnt" ++ SOH) c ;;
  st <- read_sites c site_count ;;
  let sites := sorted_by_y (loop_sites st) in
  assemble_carrier PlateCarrier c filepath sites st.

(** Create a tip carrier from the given file. *)
Definition create_tip_carrier_for_writing (fs : filesystem)
    (filepath : string) : result (Carrier * string) :=
  c <- read_file fs filepath ;;
  site_count <- site_count_of ("Site.Cnt" ++ SOH) c ;;
  st <- read_sites c site_count ;;
  let sites := sorted_by_y (loop_sites st) in
  assemble_carrier TipCarrier c filepath sites st.

(** [[s for i, s in enumerate(sites) if find_int(f"Site.{i}.Visible", c) == 1]],
    with [i] the index [enumerate] has reached. *)
Fixpoint visible_sites (c : string) (i : Z) (sites : list Coordinate)
  : result (list Coordinate) :=
  match sites with
  | [] => Ok []
  | s :: sites' =>
      visible <- field (find_int ("Site." ++ str_int i ++ ".Visible") c) ;;
      rest <- visible_sites c (i + 1) sites' ;;
      Ok (if visible =? 1 then s :: rest else rest)
  end.

(** Create a multiflex carrier from the given file. *)
Definition create_flex_carrier_for_writing (fs : filesystem)
    (filepath : string) : result (Carrier * string) :=
  c <- read_file fs filepath ;;
  site_count <- site_count_of ("Site.Cnt" ++ STX) c ;;
  st <- read_sites c site_count ;;
  let sites := sorted_by_y (loop_sites st) in
  sites <- visible_sites c 0 sites ;;
  assemble_carrier MFXCarrier c filepath sites st.

(** The public entry points. *)
Definition create_plate (fs : filesystem) (filepath name : string)
    (ctr_filepath : option string) : result Plate :=
  '(plate, _, _) <- create_plate_for_writing fs filepath ctr_filepath ;;
  Ok (plate_set_name plate name).

Definition create_tip_rack (fs : filesystem) (filepath name : string)
  : result TipRack :=
  '(tip_rack, _) <- create_tip_rack_for_writing fs filepath ;;
  Ok (rack_set_name tip_rack name).

Definition create_plate_carrier (fs : filesystem) (filepath name : string)
  : result Carrier :=
  '(plate_carrier, _) <- create_plate_carrier_for_writing fs filepath ;;
  Ok (carrier_set_name plate_carrier name).

Definition create_tip_carrier (fs : filesystem) (filepath name : string)
  : result Carrier :=
  '(tip_carrier, _) <- create_tip_carrier_for_writing fs filepath ;;
  Ok (carrier_set_name tip_carrier name).

Definition create_flex_carrier (fs : filesystem) (filepath name : string)
  : result Carrier :=
  '(flex_carrier, _) <- create_flex_carrier_for_writing fs filepath ;;
  Ok (carrier_set_name flex_carrier name).

End Embedding.

(** ** The catalog of tip racks

    [pylabrobot/liquid_handling/resources/ml_star/tip_racks.py]: sixteen
    functions, each building one rack under the name it is given. *)

Module TipRacks.

#[local] Set Warnings "-inexact-float".

(** The tip constructors the catalog imports from [.tips]. *)
Inductive tip : Type :=
| low_volume_tip_no_filter
| low_volume_tip_with_filter
| standard_volume_tip_no_filter
| standard_volume_tip_with_filter
| high_volume_tip_no_filter
| high_volume_tip_with_filter
| four_ml_tip_with_filter
| five_ml_tip.

(** Modelled from the spec: [create_equally_spaced] and [TipRack] are
    constructors of [pylabrobot.liquid_handling.resources.abstract], outside
    this module; a call is kept as the record of its keyword arguments. *)
Record Spots : Type := mkSpots {
  num_items_x : Z;
  num_items_y : Z;
  dx : float;
  dy : float;
  dz : float;
  item_size_x : float;
  item_size_y : float
}.

Record Rack : Type := mkRack {
  name : string;
  size_x : float;
  size_y : float;
  size_z : float;
  tip_type : tip;
  items : Spots
}.

(** Rack with 96 300ul Standard Volume Tip with filter (portrait) *)
Definition STF_P (name : string) : Rack :=
  mkRack name 82.6 122.4 20.0 standard_volume_tip_with_filter
    (mkSpots 8 12 9.8 11.7 (-50.5) 9.0 9.0).

(** Tip Rack 24x 4ml Tip with Filter landscape oriented *)
Definition FourmlTF_L (name : string) : Rack :=
  mkRack name 122.4 82.6 7.0 four_ml_tip_with_filter
    (mkSpots 6 4 16.3 14.2 (-93.2) 18.0 18.0).

(** Rack with 96 300ul Standard Volume Tip (portrait) *)
Definition ST_P (name : string) : Rack :=
  mkRack name 82.6 122.4 20.0 standard_volume_tip_no_filter
    (mkSpots 8 12 9.8 11.7 (-50.5) 9.0 9.0).

(** Rack with 96 10ul Low Volume Tip *)
Definition LT_L (name : string) : Rack :=
  mkRack name 122.4 82.6 20.0 low_volume_tip_no_filter
    (mkSpots 12 8 11.7 9.8 (-22.5) 9.0 9.0).

(** Rack with 96 10ul Low Volume Tip with filter (portrait) *)
Definition LTF_P (name : string) : Rack :=
  mkRack name 82.6 122.4 20.0 low_volume_tip_with_filter
    (mkSpots 8 12 9.8 11.7 (-22.5) 9.0 9.0).

(** Rack with 96 1000ul High Volume Tip with filter *)
Definition HTF_L (name : string) : Rack :=
  mkRack name 122.4 82.6 20.0 high_volume_tip_with_filter
    (mkSpots 12 8 11.7 9.8 (-83.5) 9.0 9.0).

(** Rack with 96 1000ul High Volume Tip *)
Definition HT_L (name : string) : Rack :=
  mkRack name 122.4 82.6 20.0 high_volume_tip_no_filter
    (mkSpots 12 8 11.7 9.8 (-83.5) 9.0 9.0).

(** Tip Rack 24x 5ml Tip portrait oriented *)
Definition FivemlT_P (name : string) : Rack :=
  mkRack name 82.6 122.4 7.0 five_ml_tip
    (mkSpots 4 6 14.2 16.3 (-93.2) 18.0 18.0).

(** Rack with 96 1000ul High Volume Tip (portrait) *)
Definition HT_P (name : string) : Rack :=
  mkRack name 82.6 122.4 20.0 high_volume_tip_no_filter
    (mkSpots 8 12 9.8 11.7 (-83.5) 9.0 9.0).

(** Rack with 96 1000ul High Volume Tip with filter (portrait) *)
Definition HTF_P (name : string) : Rack :=
  mkRack name 82.6 122.4 20.0 high_volume_tip_with_filter
    (mkSpots 8 12 9.8 11.7 (-83.5) 9.0 9.0).

(** Rack with 96 10ul Low Volume Tip with filter *)
Definition LTF_L (name : string) : Rack :=
  mkRack name 122.4 82.6 20.0 low_volume_tip_with_filter
    (mkSpots 12 8 11.7 9.8 (-22.5) 9.0 9.0).

(** Tip Rack 24x 5ml Tip landscape oriented *)
Definition FivemlT_L (name : string) : Rack :=
  mkRack name 122.4 82.6 7.0 five_ml_tip
    (mkSpots 6 4 16.3 14.2 (-93.2) 18.0 18.0).

(** Rack with 96 300ul Standard Volume Tip with filter *)
Definition STF_L (name : string) : Rack :=
  mkRack name 122.4 82.6 20.0 standard_volume_tip_with_filter
    (mkSpots 12 8 11.7 9.8 (-50.5) 9.0 9.0).

(** Rack with 96 10ul Low Volume Tip (portrait) *)
Definition LT_P (name : string) : Rack :=
  mkRack name 82.6 122.4 20.0 low_volume_tip_no_filter
    (mkSpots 8 12 9.8 11.7 (-22.5) 9.0 9.0).

(** Rack with 96 300ul Standard Volume Tip *)
Definition ST_L (name : string) : Rack :=
  mkRack name 122.4 82.6 20.0 standard_volume_tip_no_filter
    (mkSpots 12 8 11.7 9.8 (-50.5) 9.0 9.0).

(** Tip Rack 24x 4ml Tip with Filter portrait oriented *)
Definition FourmlTF_P (name : string) : Rack :=
  mkRack name 82.6 122.4 7.0 four_ml_tip_with_filter
    (mkSpots 4 6 14.2 16.3 (-93.2) 18.0 18.0).

End TipRacks.

(** ** A reference instance of the parameters

    Used to run the parsers on concrete files.  A file is a sequence of
    records [BS key SOH value]; a key is matched exactly and its first
    record wins.  Floats are read from plain decimals of at most fifteen
    digits, rounded and printed exactly; on those values the instance
    agrees with Python's [float], [round] and [str]. *)

Module Ex.

Definition fld (key value : string) : string := BS ++ key ++ SOH ++ value.

Definition text_of (key c : string) : option string :=
  match nth_error (split (BS ++ key ++ SOH) (BS ++ c)) 1 with
  | Some after => Some (hd EmptyString (split BS after))
  | None => None
  end.

Definition not_found (key : string) : string := "Could not find " ++ key.

Definition find_string (key c : string) : lookup string :=
  match text_of key c with
  | Some v => Found v
  | None => Missing (not_found key)
  end.

Definition find_int (key c : string) : lookup Z :=
  match text_of key c with
  | Some v =>
      match int_of_str v with
      | Some n => Found n
      | None => Missing ("not an int: " ++ v)
      end
  | None => Missing (not_found key)
  end.

Fixpoint all_digits (s : string) : bool :=
  match s with
  | EmptyString => true
  | String a s' => is_digit a && all_digits s'
  end.

(** [float(v)] for [v] of the shape [-]digits[.digits] with at most
    fifteen digits: numerator and power of ten are exact floats, so the
    quotient is the correctly rounded value. *)
Definition float_of_str (v : string) : option float :=
  let (neg, body) :=
    match v with
    | String "-" b => (true, b)
    | _ => (false, v)
    end in
  let (ip, fp) :=
    match split "." body with
    | [i] => (i, EmptyString)
    | [i; f] => (i, f)
    | _ => (EmptyString, EmptyString)
    end in
  let ds := ip ++ fp in
  if all_digits ds && (1 <=? String.length ip)%nat
     && (String.length ds <=? 15)%nat
  then
    match digits_value false 0 ds with
    | Some n =>
        let r := (float_of_int n
                  / float_of_int (10 ^ Z.of_nat (String.length fp)))%float in
        Some (if neg then (- r)%float else r)
    | None => None
    end
  else None.

Definition find_float (key c : string) : lookup float :=
  match text_of key c with
  | Some v =>
      match float_of_str v with
      | Some f => Found f
      | None => Missing ("not a float: " ++ v)
      end
  | None => Missing (not_found key)
  end.

(** Nearest integer to [p / q], ties to even ([0 <= p], [0 < q]). *)
Definition div_half_even (p q : Z) : Z :=
  let d := p / q in
  let r := 2 * (p mod q) in
  if r <? q then d
  else if q <? r then d + 1
  else if Z.even d then d else d + 1.

(** [round(x, ndigits)] for [0 <= ndigits] while the scaled value stays
    below 2^53; larger values are returned as they are. *)
Definition round (v : float) (ndigits : Z) : float :=
  match Prim2SF v with
  | S754_finite s m e =>
      let p := Z.pos m * 10 ^ ndigits in
      let n := if 0 <=? e then p * 2 ^ e else div_half_even p (2 ^ (- e)) in
      if n <? 2 ^ 53
      then
        let r := (float_of_int n / float_of_int (10 ^ ndigits))%float in
        if s then (- r)%float else r
      else v
  | _ => v
  end.

Fixpoint strip_zeros (rev_digits : string) : string :=
  match rev_digits with
  | String "0" s' => strip_zeros s'
  | _ => rev_digits
  end.

Fixpoint zeros (n : nat) : string :=
  match n with
  | O => EmptyString
  | S k => String "0" (zeros k)
  end.

(** [str(x)] where the exact decimal expansion of [x] has at most fifteen
    digits (it is then the shortest text that reads back as [x]) and [x] is
    not below 1e-4 in magnitude, so that no exponent is printed; the empty
    text elsewhere. *)
Definition str_float (v : float) : string :=
  match Prim2SF v with
  | S754_zero s => if s then "-0.0" else "0.0"
  | S754_infinity s => if s then "-inf" else "inf"
  | S754_nan => "nan"
  | S754_finite s m e =>
      let k := Z.to_nat (- e) in
      let n := if 0 <=? e then Z.pos m * 2 ^ e else Z.pos m * 5 ^ (- e) in
      let ip := n / 10 ^ Z.of_nat k in
      let fp := str_int (n mod 10 ^ Z.of_nat k) in
      let fp := zeros (k - String.length fp) ++ fp in
      let fp := rev_onto (strip_zeros (rev_onto fp EmptyString)) EmptyString in
      let fp := if (k =? 0)%nat then EmptyString else fp in
      let body :=
        str_int ip ++ "." ++ (if String.eqb fp EmptyString then "0" else fp) in
      if (String.length body <=? 16)%nat && (10 ^ Z.of_nat k <=? n * 10 ^ 4)
      then (if s then "-" else EmptyString) ++ body
      else EmptyString
  end.

End Ex.

(** ** Files to run the parsers on *)

Module Demo.

Import Ex.

Fixpoint file_in (files : list (string * string)) (path : string)
  : option string :=
  match files with
  | [] => None
  | (p, c) :: files' => if String.eqb p path then Some c else file_in files' path
  end.

(** A plate of 96 wells and its well definition, with two segments
    (top first): [(3.14*h*h, 10.0)] and [(2*h, 5.0)]. *)
Definition plate_rck : string :=
  fld "Dim.Dx" "127.0" ++ fld "Dim.Dy" "86.0" ++ fld "Dim.Dz" "14.0"
  ++ fld "Columns" "12" ++ fld "Rows" "8"
  ++ fld "Dx" "9.0" ++ fld "Dy" "9.0"
  ++ fld "BndryX" "14.0" ++ fld "BndryY" "11.0"
  ++ fld "Category.0.Id" "1005".

Definition plate_ctr : string :=
  fld "Segments" "2"
  ++ fld "1.EqnOfVol" "3.14*h*h" ++ fld "1.Max" "10.0" ++ fld "1.Shape" "0"
  ++ fld "2.EqnOfVol" "2*h" ++ fld "2.Max" "5.0" ++ fld "2.Shape" "3"
  ++ fld "Dim.Dx" "7.0" ++ fld "Dim.Dy" "7.0"
  ++ fld "Depth" "15.0" ++ fld "BaseMM" "1.0".

(** The plate model whose row pitch is written as 4.5. *)
Definition protcryst_rck : string :=
  fld "Dim.Dx" "127.0" ++ fld "Dim.Dy" "86.0" ++ fld "Dim.Dz" "14.0"
  ++ fld "Columns" "12" ++ fld "Rows" "8"
  ++ fld "Dx" "9.0" ++ fld "Dy" "4.5"
  ++ fld "BndryX" "14.0" ++ fld "BndryY" "11.0".

(** A rack of 4 ml tips; the tip type is under [PropertyValue.4]. *)
Definition tips_rck : string :=
  fld "Dim.Dx" "122.5" ++ fld "Dim.Dy" "82.5" ++ fld "Dim.Dz" "7.0"
  ++ fld "PropertyValue.4" "MlStar4mlTipWithFilter"
  ++ fld "Dx" "18.0" ++ fld "Dy" "18.0"
  ++ fld "BndryX" "25.0" ++ fld "BndryY" "23.0"
  ++ fld "Cntr.1.base" "1.5"
  ++ fld "Columns" "6" ++ fld "Rows" "4"
  ++ fld "Description" "tips".

(** The same rack with a tip type the catalog does not list. *)
Definition odd_tips_rck : string :=
  fld "Dim.Dx" "122.5" ++ fld "Dim.Dy" "82.5" ++ fld "Dim.Dz" "7.0"
  ++ fld "PropertyValue.6" "MlStar50ulTip".

(** A carrier with two sites, at heights [y1] and [y2]; the site of index 1
    is [width1] wide and not visible, the site of index 2 is visible;
    [more] is appended to the site records. *)
Definition carrier_rck (count_byte y1 y2 width1 more : string) : string :=
  "Site.Cnt" ++ count_byte ++ "2"
  ++ fld "Site.1.X" "4.0" ++ fld "Site.1.Y" y1 ++ fld "Site.1.Z" "1.0"
  ++ fld "Site.1.Dx" width1 ++ fld "Site.1.Dy" "50.0"
  ++ fld "Site.1.Visible" "0"
  ++ fld "Site.2.X" "4.0" ++ fld "Site.2.Y" y2 ++ fld "Site.2.Z" "1.0"
  ++ fld "Site.2.Dx" "127.0" ++ fld "Site.2.Dy" "86.0"
  ++ fld "Site.2.Visible" "1"
  ++ more
  ++ fld "Dim.Dx" "135.0" ++ fld "Dim.Dy" "497.0" ++ fld "Dim.Dz" "130.0"
  ++ fld "Description" "carrier".

(** Plate and tip carriers list the upper site first; the multiflex
    carriers list their sites bottom-up.  The first multiflex file also
    carries a visibility record numbered 0. *)
Definition plt_car : string := carrier_rck SOH "60.0" "10.0" "100.0" EmptyString.
Definition mfx_car : string :=
  carrier_rck STX "10.0" "60.0" "100.0" (fld "Site.0.Visible" "1").
Definition mfx_car_plain : string :=
  carrier_rck STX "10.0" "60.0" "100.0" EmptyString.

Definition files : filesystem :=
  file_in
    [ ("labware/Demo_96.rck", plate_rck);
      ("labware/Demo_96.ctr", plate_ctr);
      ("labware/Cos_96_ProtCryst.rck", protcryst_rck);
      ("labware/Cos_96_Post.ctr", plate_ctr);
      ("labware/4mlTF.rck", tips_rck);
      ("labware/OddTips.rck", odd_tips_rck);
      ("labware/PLT_CAR_L5AC_A00.rck", plt_car);
      ("labware/TIP_CAR_480_A00.rck", plt_car);
      ("labware/MFX_CAR_L5_base.rck", mfx_car);
      ("labware/MFX_CAR_L4_base.rck", mfx_car_plain);
      ("labware/x_L.rck", plate_rck) ].

(** The carriers again, the site of index 1 being 55.0 wide. *)
Definition plt_car' : string := carrier_rck SOH "60.0" "10.0" "55.0" EmptyString.
Definition mfx_car' : string :=
  carrier_rck STX "10.0" "60.0" "55.0" (fld "Site.0.Visible" "1").

Definition files' : filesystem :=
  file_in
    [ ("labware/PLT_CAR_L5AC_A00.rck", plt_car');
      ("labware/TIP_CAR_480_A00.rck", plt_car');
      ("labware/MFX_CAR_L5_base.rck", mfx_car') ].

End Demo.

(** The parsers with the reference instance of their parameters. *)

Module Run.

Definition get_resource_type := get_resource_type Ex.find_int Ex.find_string.
Definition create_plate_for_writing :=
  create_plate_for_writing Ex.find_int Ex.find_float Ex.find_string
                           Ex.round Ex.str_float.
Definition create_tip_rack_for_writing :=
  create_tip_rack_for_writing Ex.find_int Ex.find_float Ex.find_string Ex.round.
Definition create_plate_carrier_for_writing :=
  create_plate_carrier_for_writing Ex.find_float Ex.find_string.
Definition create_tip_carrier_for_writing :=
  create_tip_carrier_for_writing Ex.find_float Ex.find_string.
Definition create_flex_carrier_for_writing :=
  create_flex_carrier_for_writing Ex.find_int Ex.find_float Ex.find_string.

End Run.

(** ** Notions the statements use *)

(** The file name starts with one of the four carrier prefixes. *)
Definition carrier_prefixed (filename : string) : bool :=
  startswith filename "PLT_CAR_" || startswith filename "TIP_CAR_"
  || startswith filename "MFX_CAR_" || startswith filename "SMP_CAR_".

(** The path of the [.ctr] file that is read. *)
Definition ctr_path (filepath : string) (ctr_filepath : option string) : string :=
  match ctr_filepath with
  | Some (String a p) => String a p
  | _ => rck2ctr filepath
  end.

(** The row pitch after the correction for one plate model. *)
Definition placement_pitch_y (cname : string) (well_dy : float) : float :=
  if String.eqb cname "Cos_96_ProtCryst" && PrimFloat.eqb well_dy 4.5%float
  then 9.0%float else well_dy.

(** The corner coordinate as the specification words it: the boundary
    less half the item size, rounded to four places, plus half of what the
    cell pitch exceeds the item size by. *)
Definition corner_by_item_size (round : float -> Z -> float)
    (boundary cell_pitch item_size : float) : float :=
  (round (boundary - item_size / 2) 4%Z + (cell_pitch - item_size) / 2)%float.

(** The corner coordinate with half the cell pitch taken off the boundary;
    [placement_pitch] is the pitch the items are laid out with. *)
Definition corner_by_cell_pitch (round : float -> Z -> float)
    (boundary cell_pitch placement_pitch item_size : float) : float :=
  (round (boundary - cell_pitch / 2) 4%Z
   + (placement_pitch - item_size) / 2)%float.

(** The nine tip-type identifiers of the catalog. *)
Definition tip_type_names : list string :=
  [ "MlStar4mlTipWithFilter"; "MlStar5mlTipWithFilter";
    "MlStar10ulLowVolumeTip"; "MlStar10ulLowVolumeTipWithFilter";
    "MlStar1000ulHighVolumeTipWithFilter"; "MlStar1000ulHighVolumeTip";
    "MlStar5mlTip"; "MlStar300ulStandardVolumeTipWithFilter";
    "MlStar300ulStandardVolumeTip" ].

(** [p'] is [p] with the name replaced by [name] and nothing else changed. *)
Definition plate_renamed (p p' : Plate) (name : string) : Prop :=
  plate_name p' = name
  /\ plate_size_x p' = plate_size_x p
  /\ plate_size_y p' = plate_size_y p
  /\ plate_size_z p' = plate_size_z p
  /\ plate_num_items_x p' = plate_num_items_x p
  /\ plate_num_items_y p' = plate_num_items_y p
  /\ plate_items p' = plate_items p
  /\ plate_lid_height p' = plate_lid_height p
  /\ plate_model p' = plate_model p.

Definition rack_renamed (r r' : TipRack) (name : string) : Prop :=
  rack_name r' = name
  /\ rack_size_x r' = rack_size_x r
  /\ rack_size_y r' = rack_size_y r
  /\ rack_size_z r' = rack_size_z r
  /\ rack_items r' = rack_items r
  /\ rack_model r' = rack_model r.

Definition carrier_renamed (k k' : Carrier) (name : string) : Prop :=
  carrier_name k' = name
  /\ carrier_klass k' = carrier_klass k
  /\ carrier_size_x k' = carrier_size_x k
  /\ carrier_size_y k' = carrier_size_y k
  /\ carrier_size_z k' = carrier_size_z k
  /\ carrier_sites k' = carrier_sites k
  /\ carrier_model k' = carrier_model k.

(** *** The volume function as the specification describes it *)

(** A segment of a well: its volume equation in [h] and its maximum height. *)
Definition segment : Type := (string * float)%type.

(** Segment [i] of the [.ctr] contents [c2]. *)
Definition segment_at (find_float : string -> string -> lookup float)
    (find_string : string -> string -> lookup string)
    (c2 : string) (i : Z) (seg : segment) : Prop :=
  find_string (str_int i ++ ".EqnOfVol") c2 = Found (fst seg)
  /\ find_float (str_int i ++ ".Max") c2 = Found (snd seg).

(** The sum of the maximum heights of some segments, added up from the
    bottom one; a sum of no height is the integer [0]. *)
Definition heights_sum (maxes : list float) : num :=
  fold_left (fun acc mx => Float (num_add acc mx)) maxes (Int 0).

Section VolumeText.

Variable str_float : float -> string.

(** The term of one segment, given the segments below it: the base term,
    with [h] clamped to the segment's height, for the bottom segment; for a
    higher one a conditional addition in which [h] is measured from the top
    of the segments below. *)
Definition term_text (below : list segment) (seg : segment) : string :=
  let (eqn, mx) := seg in
  match below with
  | [] =>
      "volume = " ++ replace "h" ("min(h, " ++ str_float mx ++ ")") eqn ++ nl
  | _ :: _ =>
      "if h <= " ++ str_float mx ++ ":" ++ nl
      ++ "  volume += "
      ++ replace "h"
           ("(h-" ++ str_num str_float (heights_sum (map snd below)) ++ ")")
           eqn
      ++ nl
  end.

(** The terms of the segments [rest], bottom one first, that lie on top of
    the segments [below]. *)
Fixpoint terms_text (below rest : list segment) : string :=
  match rest with
  | [] => EmptyString
  | seg :: rest' => term_text below seg ++ terms_text (below ++ [seg]) rest'
  end.

(** The guard after the last segment: heights above the total are refused
    with an error that names the resource and the height. *)
Definition guard_text (total : num) (cname : string) : string :=
  "if h > " ++ str_num str_float total ++ ":" ++ nl
  ++ "  raise ValueError(f" ++ dquote ++ "Height {h} is too large for "
  ++ cname ++ dquote ++ ")" ++ nl.

(** The whole text, for the segments listed from the bottom one (index N)
    to the top one (index 1). *)
Definition volume_text (segs : list segment) (cname : string) : string :=
  terms_text [] segs
  ++ guard_text (heights_sum (map snd segs)) cname
  ++ "return volume".

End VolumeText.

(** *** Carrier files that differ in the sizes of the lower sites only *)

Section SameButLowerSiteSizes.

Variable find_int : string -> string -> lookup Z.
Variable find_float : string -> string -> lookup float.
Variable find_string : string -> string -> lookup string.

(** The coordinates of the sites [1..n] read the same in [c1] and [c2]. *)
Definition same_site_coordinates (c1 c2 : string) (n : Z) : Prop :=
  forall i, 1 <= i <= n ->
    find_float ("Site." ++ str_int i ++ ".X") c1
    = find_float ("Site." ++ str_int i ++ ".X") c2
    /\ find_float ("Site." ++ str_int i ++ ".Y") c1
       = find_float ("Site." ++ str_int i ++ ".Y") c2
    /\ find_float ("Site." ++ str_int i ++ ".Z") c1
       = find_float ("Site." ++ str_int i ++ ".Z") c2.

(** The width and height of every site below [n] can be read in [c]. *)
Definition lower_site_sizes_readable (c : string) (n : Z) : Prop :=
  forall i, 1 <= i < n ->
    (exists w, find_float ("Site." ++ str_int i ++ ".Dx") c = Found w)
    /\ (exists h, find_float ("Site." ++ str_int i ++ ".Dy") c = Found h).

(** [c1] and [c2] read the same in every field a carrier parser looks up,
    except that the width and height of the sites below [n] are only known
    to be readable in both. *)
Definition same_but_lower_site_sizes (c1 c2 : string) (n : Z) : Prop :=
  same_site_coordinates c1 c2 n
  /\ lower_site_sizes_readable c1 n
  /\ lower_site_sizes_readable c2 n
  /\ find_float ("Site." ++ str_int n ++ ".Dx") c1
     = find_float ("Site." ++ str_int n ++ ".Dx") c2
  /\ find_float ("Site." ++ str_int n ++ ".Dy") c1
     = find_float ("Site." ++ str_int n ++ ".Dy") c2
  /\ (forall i, 0 <= i < n ->
                find_int ("Site." ++ str_int i ++ ".Visible") c1
                = find_int ("Site." ++ str_int i ++ ".Visible") c2)
  /\ find_float "Dim.Dx" c1 = find_float "Dim.Dx" c2
  /\ find_float "Dim.Dy" c1 = find_float "Dim.Dy" c2
  /\ find_float "Dim.Dz" c1 = find_float "Dim.Dz" c2
  /\ find_string "Description" c1 = find_string "Description" c2.

End SameButLowerSiteSizes.

(** Every site has the width [w] and the height [h]. *)
Definition all_sites_sized (w h : float) (sites : list CarrierSite) : Prop :=
  Forall (fun s => site_size_x s = w /\ site_size_y s = h) sites.

(** Two runs of the loop over the sites end alike: with the same exception,
    or with the same coordinates read. *)
Definition same_sites_read (r1 r2 : result site_loop) : Prop :=
  match r1, r2 with
  | Ok st1, Ok st2 => loop_sites st1 = loop_sites st2
  | Raise e1, Raise e2 => e1 = e2
  | _, _ => False
  end.

Section CarrierSiteSizes.

Variable find_int : string -> string -> lookup Z.
Variable find_float : string -> string -> lookup float.
Variable find_string : string -> string -> lookup string.

(** The site count of a carrier file is found after [marker]; [parse] is
    one of the three carrier parsers. *)
Variable marker : string.
Variable parse : filesystem -> string -> result (Carrier * string).

(** Every site of a parsed carrier has the width and the height read for
    the site of the highest index. *)
Definition sized_by_last_site : Prop :=
  forall fs filepath carrier desc,
    parse fs filepath = Ok (carrier, desc) ->
    exists c n w h,
      fs filepath = Some c
      /\ site_count_of marker c = Ok n
      /\ 1 <= n
      /\ find_float ("Site." ++ str_int n ++ ".Dx") c = Found w
      /\ find_float ("Site." ++ str_int n ++ ".Dy") c = Found h
      /\ (exists locations,
            carrier_sites carrier
            = create_homogeneous_carrier_sites locations w h)
      /\ all_sites_sized w h (carrier_sites carrier).

(** The widths and heights of the sites below the highest index do not
    change what the parser returns. *)
Definition blind_to_lower_site_sizes : Prop :=
  forall fs1 fs2 filepath c1 c2 n,
    fs1 filepath = Some c1 ->
    fs2 filepath = Some c2 ->
    site_count_of marker c1 = Ok n ->
    site_count_of marker c2 = Ok n ->
    1 <= n ->
    same_but_lower_site_sizes find_int find_float find_string c1 c2 n ->
    parse fs1 filepath = parse fs2 filepath.

End CarrierSiteSizes.

(** *** Orientation suffixes *)

(** The path still ends in an orientation suffix the classifier takes off. *)
Definition orientation_suffixed (filepath : string) : bool :=
  endswith filepath "_L.rck" || endswith (basename filepath) "_P.rck".

(** The name with its orientation suffix stripped, as the specification
    words the normalisation: a trailing [_L.rck] or [_P.rck] becomes
    [.rck]. *)
Definition strip_orientation (filepath : string) : string :=
  if endswith filepath "_L.rck" || endswith filepath "_P.rck"
  then substring 0 (String.length filepath - 6) filepath ++ ".rck"
  else filepath.

(** The text [old] occurs in [s] at its end only. *)
Definition occurs_only_at_end (old s : string) : Prop :=
  forall u v, s = u ++ old ++ v -> v = EmptyString.

(** The outcome of a classification: the kind, or none when it fails. *)
Definition classification (r : result string) : option string :=
  match r with
  | Ok kind => Some kind
  | Raise _ => None
  end.

Fixpoint has_char (d : ascii) (s : string) : bool :=
  match s with
  | EmptyString => false
  | String a s' => Ascii.eqb a d || has_char d s'
  end.

(** *** The order of the sites *)

(** The coordinates of site [i] of the carrier contents [c]. *)
Definition coordinate_at (find_float : string -> string -> lookup float)
    (c : string) (i : Z) (l : Coordinate) : Prop :=
  find_float ("Site." ++ str_int i ++ ".X") c = Found (x l)
  /\ find_float ("Site." ++ str_int i ++ ".Y") c = Found (y l)
  /\ find_float ("Site." ++ str_int i ++ ".Z") c = Found (z l).

(** [s] is not above [t]: the y-coordinates compare with [<=]. *)
Definition not_above (s t : Coordinate) : Prop :=
  PrimFloat.leb (y s) (y t) = true.

(** No y-coordinate is a nan. *)
Definition no_nan_y (l : list Coordinate) : Prop :=
  Forall (fun s => PrimFloat.is_nan (y s) = false) l.

(** *** Notions for the further properties *)

(** The text [old] does not occur in [s]. *)
Definition no_occurrence (old s : string) : Prop :=
  forall u v, s <> u ++ old ++ v.

(** The five kinds the classifier answers with. *)
Definition resource_kinds : list string :=
  [ "PlateCarrier"; "TipCarrier"; "MFXCarrier"; "TipRack"; "Plate" ].

(** The three carrier kinds. *)
Definition carrier_kinds : list string :=
  [ "PlateCarrier"; "TipCarrier"; "MFXCarrier" ].

(** The three carrier parsers, each with the class it builds and the
    marker that precedes the number of sites in its files. *)
Definition carrier_parsers
    (find_int : string -> string -> lookup Z)
    (find_float : string -> string -> lookup float)
    (find_string : string -> string -> lookup string)
  : list (carrier_class * string
          * (filesystem -> string -> result (Carrier * string))) :=
  [ (PlateCarrier, "Site.Cnt" ++ SOH,
     create_plate_carrier_for_writing find_float find_string);
    (TipCarrier, "Site.Cnt" ++ SOH,
     create_tip_carrier_for_writing find_float find_string);
    (MFXCarrier, "Site.Cnt" ++ STX,
     create_flex_carrier_for_writing find_int find_float find_string) ].

(** The catalog of tip racks: each portrait rack with its landscape
    partner. *)
Definition orientation_pairs
  : list ((string -> TipRacks.Rack) * (string -> TipRacks.Rack)) :=
  [ (TipRacks.STF_P, TipRacks.STF_L);
    (TipRacks.ST_P, TipRacks.ST_L);
    (TipRacks.LTF_P, TipRacks.LTF_L);
    (TipRacks.LT_P, TipRacks.LT_L);
    (TipRacks.HTF_P, TipRacks.HTF_L);
    (TipRacks.HT_P, TipRacks.HT_L);
    (TipRacks.FourmlTF_P, TipRacks.FourmlTF_L);
    (TipRacks.FivemlT_P, TipRacks.FivemlT_L) ].

(** A rack turned by a quarter: x and y change places. *)
Definition transposed (r : TipRacks.Rack) : TipRacks.Rack :=
  let i := TipRacks.items r in
  TipRacks.mkRack (TipRacks.name r)
    (TipRacks.size_y r) (TipRacks.size_x r) (TipRacks.size_z r)
    (TipRacks.tip_type r)
    (TipRacks.mkSpots (TipRacks.num_items_y i) (TipRacks.num_items_x i)
       (TipRacks.dy i) (TipRacks.dx i) (TipRacks.dz i)
       (TipRacks.item_size_y i) (TipRacks.item_size_x i)).

(** The number of tip spots of a rack. *)
Definition capacity (r : TipRacks.Rack) : Z :=
  TipRacks.num_items_x (TipRacks.items r)
  * TipRacks.num_items_y (TipRacks.items r).

(** The large tips, of which a rack holds 24. *)
Definition large_tip (t : TipRacks.tip) : bool :=
  match t with
  | TipRacks.four_ml_tip_with_filter | TipRacks.five_ml_tip => true
  | _ => false
  end.

(** Further sample inputs: a carrier file that declares no site, a file
    system that holds it beside the sample plate, and the descriptors the
    parsers return for the sample files. *)
Module Sample.

Import Ex.

Definition no_site_car : string :=
  "Site.Cnt" ++ SOH ++ "0"
  ++ fld "Dim.Dx" "135.0" ++ fld "Dim.Dy" "497.0" ++ fld "Dim.Dz" "130.0"
  ++ fld "Description" "carrier".

Definition files : filesystem :=
  Demo.file_in
    [ ("labware/Demo_96.rck", Demo.plate_rck);
      ("labware/Demo_96.ctr", Demo.plate_ctr);
      ("labware/PLT_CAR_none.rck", no_site_car) ].

Definition plate : Plate :=
  mkPlate "Demo_96" 127 86 14 12 8
    (mkWellGrid 12 8 10.5 7.5 (Float 1) 9 9 7 7 15 V CIRCLE)
    10 "Demo_96".

Definition volume : string :=
  volume_text Ex.str_float [("2*h", 5%float); ("3.14*h*h", 10%float)]
    "Demo_96".

Definition rack : TipRack :=
  mkTipRack "FourmlTF" 122.5 82.5 7
    (mkTipSpotGrid 6 4 16 14 1.5 18 18 18 18 7 four_ml_tip_with_filter)
    "FourmlTF".

Definition lower_site : CarrierSite :=
  mkCarrierSite (mkCoordinate 4 10 1) 127 86.

Definition upper_site : CarrierSite :=
  mkCarrierSite (mkCoordinate 4 60 1) 127 86.

Definition plate_carrier : Carrier :=
  mkCarrier PlateCarrier "PLT_CAR_L5AC_A00" 135 497 130
    [lower_site; upper_site] "PLT_CAR_L5AC_A00".

Definition flex_carrier : Carrier :=
  mkCarrier MFXCarrier "MFX_CAR_L5_base" 135 497 130
    [lower_site] "MFX_CAR_L5_base".

End Sample.

(** * Properties *)

Section Properties.

Variable find_int : string -> string -> lookup Z.
Variable find_float : string -> string -> lookup float.
Variable find_string : string -> string -> lookup string.
Variable round : float -> Z -> float.
Variable str_float : float -> string.

Local Abbreviation get_resource_type := (get_resource_type find_int find_string).

(** *** The classifier *)

Lemma prefix_head (a : ascii) (p s : string) :
  prefix (String a p) s = true -> exists s', s = String a s'.
Proof.
  destruct s as [|b s']; simpl; [discriminate|].
  destruct (ascii_dec a b) as [->|]; [eauto | discriminate].
Qed.

Lemma prefix_other (a b : ascii) (p q s : string) :
  a <> b -> prefix (String a p) s = true -> prefix (String b q) s = false.
Proof.
  intros Hab H. destruct (prefix_head _ _ _ H) as [s' ->]. simpl.
  destruct (ascii_dec b a) as [->|]; [contradiction | reflexivity].
Qed.

Lemma not_carrier_prefixed (filename : string) :
  carrier_prefixed filename = false ->
  startswith filename "PLT_CAR_" = false
  /\ startswith filename "TIP_CAR_" = false
  /\ startswith filename "MFX_CAR_" = false
  /\ startswith filename "SMP_CAR_" = false.
Proof.
  unfold carrier_prefixed; intros H.
  repeat (apply orb_false_elim in H; destruct H as [H ?]); auto.
Qed.

(** C5: a file whose name starts with [PLT_CAR_], [TIP_CAR_] or [MFX_CAR_]
    is classified as PlateCarrier, TipCarrier or MFXCarrier whatever the
    file system holds (no file is opened), and a name starting with
    [SMP_CAR_] fails at once with the not-supported error. *)
Theorem C5_carrier_prefixes (fs : filesystem) (filepath : string) :
  (startswith (basename filepath) "PLT_CAR_" = true ->
   get_resource_type fs filepath = Ok "PlateCarrier")
  /\ (startswith (basename filepath) "TIP_CAR_" = true ->
      get_resource_type fs filepath = Ok "TipCarrier")
  /\ (startswith (basename filepath) "MFX_CAR_" = true ->
      get_resource_type fs filepath = Ok "MFXCarrier")
  /\ (startswith (basename filepath) "SMP_CAR_" = true ->
      get_resource_type fs filepath
      = Raise (ValueError "SMP_CAR_ not supported yet")).
Proof.
  unfold get_resource_type, startswith; cbv zeta.
  repeat split; intros H;
    repeat match goal with
      | |- context [prefix (String ?b ?q) (basename filepath)] =>
          lazymatch type of H with
          | prefix (String b q) _ = true => fail
          | prefix (String ?a ?p) _ = true =>
              rewrite (prefix_other a b p q _ ltac:(discriminate) H)
          end
      end;
    rewrite H; reflexivity.
Qed.

Lemma in_range_spec (v lo hi : Z) :
  in_range v lo hi = true <-> lo <= v <= hi - 1.
Proof. unfold in_range. rewrite andb_true_iff, Z.leb_le, Z.ltb_lt. lia. Qed.

(** What [get_resource_type] does once the carrier prefixes are ruled out. *)
Lemma get_resource_type_not_carrier (fs : filesystem) (filepath : string) :
  carrier_prefixed (basename filepath) = false ->
  get_resource_type fs filepath =
  match fs (canonical_path filepath) with
  | None => Ok "TipRack"
  | Some c =>
      let by_sidecar :=
        match find_string "Cntr.1.file" c with
        | Found _ => Ok "Plate"
        | Missing _ =>
            Raise (ValueError ("Unknown resource type for file "
                               ++ basename filepath))
        end in
      match find_int "Category.0.Id" c with
      | Found id =>
          if in_range id 170 180 then Ok "TipRack"
          else if in_range id 1000 1100 then Ok "Plate"
          else by_sidecar
      | Missing _ => by_sidecar
      end
  end.
Proof.
  intros Hp. destruct (not_carrier_prefixed _ Hp) as (H1 & H2 & H3 & H4).
  unfold get_resource_type, startswith in *. cbv zeta.
  rewrite H1, H2, H3, H4. unfold exists_, read_file.
  destruct (fs (canonical_path filepath)); reflexivity.
Qed.

(** C3: for a file name without a carrier prefix, a missing canonical file
    gives TipRack; otherwise the file is read and [Category.0.Id] in 170-179
    gives TipRack, in 1000-1099 gives Plate, else the presence of
    [Cntr.1.file] gives Plate, and otherwise the call fails with the
    unknown-resource-type error that names the file. *)
Theorem C3_classification_by_content (fs : filesystem) (filepath : string) :
  carrier_prefixed (basename filepath) = false ->
  (fs (canonical_path filepath) = None ->
   get_resource_type fs filepath = Ok "TipRack")
  /\ (forall c, fs (canonical_path filepath) = Some c ->
      (forall id, find_int "Category.0.Id" c = Found id ->
         170 <= id <= 179 -> get_resource_type fs filepath = Ok "TipRack")
      /\ (forall id, find_int "Category.0.Id" c = Found id ->
         1000 <= id <= 1099 -> get_resource_type fs filepath = Ok "Plate")
      /\ ((forall id, find_int "Category.0.Id" c = Found id ->
            ~ 170 <= id <= 179 /\ ~ 1000 <= id <= 1099) ->
          (forall v, find_string "Cntr.1.file" c = Found v ->
             get_resource_type fs filepath = Ok "Plate")
          /\ (forall msg, find_string "Cntr.1.file" c = Missing msg ->
             get_resource_type fs filepath
             = Raise (ValueError ("Unknown resource type for file "
                                  ++ basename filepath))))).
Proof.
  intros Hp. rewrite (get_resource_type_not_carrier fs filepath Hp).
  split; [intros ->; reflexivity|].
  intros c ->. cbv zeta. repeat split.
  - intros id -> Hr.
    assert (E : in_range id 170 180 = true) by (apply in_range_spec; lia).
    now rewrite E.
  - intros id -> Hr.
    assert (E1 : in_range id 170 180 = false).
    { destruct (in_range id 170 180) eqn:E; [|reflexivity].
      apply in_range_spec in E; lia. }
    assert (E2 : in_range id 1000 1100 = true) by (apply in_range_spec; lia).
    now rewrite E1, E2.
  - intros v ->.
    destruct (find_int "Category.0.Id" c) as [id|] eqn:E; [|reflexivity].
    destruct (H id eq_refl) as [N1 N2].
    destruct (in_range id 170 180) eqn:E1;
      [apply in_range_spec in E1; lia|].
    destruct (in_range id 1000 1100) eqn:E2;
      [apply in_range_spec in E2; lia|]. reflexivity.
  - intros msg ->.
    destruct (find_int "Category.0.Id" c) as [id|] eqn:E; [|reflexivity].
    destruct (H id eq_refl) as [N1 N2].
    destruct (in_range id 170 180) eqn:E1;
      [apply in_range_spec in E1; lia|].
    destruct (in_range id 1000 1100) eqn:E2;
      [apply in_range_spec in E2; lia|]. reflexivity.
Qed.

(** *** Results of a successful call *)

Lemma field_ok {A : Type} (l : lookup A) (a : A) :
  field l = Ok a -> l = Found a.
Proof. destruct l; simpl; congruence. Qed.

Lemma read_file_ok (fs : filesystem) (path c : string) :
  read_file fs path = Ok c -> fs path = Some c.
Proof. unfold read_file. destruct (fs path); congruence. Qed.

(** Peels the binds of a computation known to return: each step that could
    have raised is recorded as an equation. *)
Ltac bind_ok H :=
  repeat match type of H with
    | bind ?c _ = Ok _ =>
        let E := fresh "E" in
        destruct c eqn:E; cbn [bind] in H; [|discriminate H];
        try apply field_ok in E; try apply read_file_ok in E
    end.

Local Abbreviation create_plate_for_writing :=
  (create_plate_for_writing find_int find_float find_string round str_float).
Local Abbreviation volume_function :=
  (volume_function find_float find_string str_float).

Lemma create_plate_for_writing_ok (fs : filesystem) (filepath : string)
    (ctr_filepath : option string) (plate : Plate) (desc vol : string) :
  create_plate_for_writing fs filepath ctr_filepath = Ok (plate, desc, vol) ->
  exists c c2 size_x size_y size_z num_items_x num_items_y well_dx well_dy
         bndry_x bndry_y num_segments well_size_x well_size_y
         bottom_code cross_code well_size_z,
    fs filepath = Some c
    /\ fs (ctr_path filepath ctr_filepath) = Some c2
    /\ find_float "Dim.Dx" c = Found size_x
    /\ find_float "Dim.Dy" c = Found size_y
    /\ find_float "Dim.Dz" c = Found size_z
    /\ find_int "Columns" c = Found num_items_x
    /\ find_int "Rows" c = Found num_items_y
    /\ find_float "Dx" c = Found well_dx
    /\ find_float "Dy" c = Found well_dy
    /\ find_float "BndryX" c = Found bndry_x
    /\ find_float "BndryY" c = Found bndry_y
    /\ find_int "Segments" c2 = Found num_segments
    /\ volume_function c2 (stem filepath) num_segments = Ok vol
    /\ find_float "Dim.Dx" c2 = Found well_size_x
    /\ find_float "Dim.Dy" c2 = Found well_size_y
    /\ find_int (str_int num_segments ++ ".Shape") c2 = Found bottom_code
    /\ find_int "1.Shape" c2 = Found cross_code
    /\ find_float "Depth" c2 = Found well_size_z
    /\ desc = stem filepath
    /\ plate =
       mkPlate (stem filepath) size_x size_y size_z num_items_x num_items_y
         (mkWellGrid num_items_x num_items_y
            (round (bndry_x - well_dx / 2) 4 + (well_dx - well_size_x) / 2)
            (round (bndry_y - well_dy / 2) 4
             + (placement_pitch_y (stem filepath) well_dy - well_size_y) / 2)
            match find_float "BaseMM" c2 with
            | Found v => Float v
            | Missing _ => Int 0
            end
            well_dx (placement_pitch_y (stem filepath) well_dy)
            well_size_x well_size_y well_size_z
            (well_bottom_type_of bottom_code)
            (cross_section_type_of cross_code))
         10 (stem filepath).
Proof.
  unfold create_plate_for_writing. intros H.
  change (match ctr_filepath with
          | Some (String a p) => String a p
          | _ => rck2ctr filepath
          end) with (ctr_path filepath ctr_filepath) in H.
  bind_ok H. cbv zeta in H. bind_ok H. cbv zeta in H. bind_ok H.
  injection H as <- <- <-.
  do 17 eexists. unfold placement_pitch_y.
  repeat (split; [eassumption || reflexivity|]). reflexivity.
Qed.

(** *** Plates: corner coordinates and the row-pitch correction *)

(** C4 (as amended): for every successfully parsed plate file, the corner
    coordinate of the well grid on each axis is the boundary ([BndryX],
    [BndryY]) less half the cell pitch ([Dx], [Dy] of the [.rck] file),
    rounded to four places, plus half the difference between the pitch used
    for placement and the item size ([Dim.Dx], [Dim.Dy] of the [.ctr]
    file). *)
Theorem C4_corner_coordinates (fs : filesystem) (filepath : string)
    (ctr_filepath : option string) (plate : Plate) (desc vol : string) :
  create_plate_for_writing fs filepath ctr_filepath = Ok (plate, desc, vol) ->
  exists c c2 bndry_x bndry_y pitch_x pitch_y item_x item_y,
    fs filepath = Some c
    /\ fs (ctr_path filepath ctr_filepath) = Some c2
    /\ find_float "BndryX" c = Found bndry_x
    /\ find_float "BndryY" c = Found bndry_y
    /\ find_float "Dx" c = Found pitch_x
    /\ find_float "Dy" c = Found pitch_y
    /\ find_float "Dim.Dx" c2 = Found item_x
    /\ find_float "Dim.Dy" c2 = Found item_y
    /\ wells_dx (plate_items plate)
       = corner_by_cell_pitch round bndry_x pitch_x pitch_x item_x
    /\ wells_dy (plate_items plate)
       = corner_by_cell_pitch round bndry_y pitch_y
           (wells_item_dy (plate_items plate)) item_y
    /\ wells_item_dx (plate_items plate) = pitch_x
    /\ wells_item_dy (plate_items plate)
       = placement_pitch_y (stem filepath) pitch_y.
Proof.
  intros H. apply create_plate_for_writing_ok in H.
  destruct H as (c & c2 & sx & sy & sz & nx & ny & wdx & wdy & bx & by_ & ns
                 & wsx & wsy & bc & cc & wsz & H).
  decompose [and] H; clear H. subst plate.
  exists c, c2, bx, by_, wdx, wdy, wsx, wsy. simpl.
  unfold corner_by_cell_pitch. repeat (split; [assumption|]).
  repeat split.
Qed.

(** C8: the row-pitch correction is one named case.  For a plate file whose
    stem is [Cos_96_ProtCryst] and whose [Dy] equals 4.5 the row pitch used
    for placement is 9.0; for every other plate file it is [Dy] as read.
    The column pitch is always [Dx] as read. *)
Theorem C8_row_pitch_correction (fs : filesystem) (filepath : string)
    (ctr_filepath : option string) (plate : Plate) (desc vol : string) :
  create_plate_for_writing fs filepath ctr_filepath = Ok (plate, desc, vol) ->
  exists c well_dx well_dy,
    fs filepath = Some c
    /\ find_float "Dx" c = Found well_dx
    /\ find_float "Dy" c = Found well_dy
    /\ (stem filepath = "Cos_96_ProtCryst" ->
        PrimFloat.eqb well_dy 4.5 = true ->
        wells_item_dy (plate_items plate) = 9.0%float)
    /\ (stem filepath <> "Cos_96_ProtCryst"
        \/ PrimFloat.eqb well_dy 4.5 = false ->
        wells_item_dy (plate_items plate) = well_dy)
    /\ wells_item_dx (plate_items plate) = well_dx.
Proof.
  intros H. apply create_plate_for_writing_ok in H.
  destruct H as (c & c2 & sx & sy & sz & nx & ny & wdx & wdy & bx & by_ & ns
                 & wsx & wsy & bc & cc & wsz & H).
  decompose [and] H; clear H. subst plate.
  exists c, wdx, wdy. simpl. unfold placement_pitch_y.
  repeat (split; [assumption|]). repeat split.
  - intros -> ->. reflexivity.
  - intros [Hn | ->].
    + apply String.eqb_neq in Hn. now rewrite Hn.
    + now rewrite andb_false_r.
Qed.

(** *** Tip racks: the tip type *)

Local Abbreviation create_tip_rack_for_writing :=
  (create_tip_rack_for_writing find_int find_float find_string round).

Lemma tip_table_recognized (tip_type : string) :
  (exists creator, tip_table tip_type = Some creator)
  <-> In tip_type tip_type_names.
Proof.
  unfold tip_table, tip_type_names. split.
  - intros [creator H].
    repeat match type of H with
      | (if String.eqb ?a ?b then _ else _) = _ =>
          destruct (String.eqb_spec a b) as [->|_]; [simpl; tauto|]
      end.
    discriminate.
  - simpl. intros H.
    repeat (destruct H as [<-|H]; [simpl; eauto|]). contradiction.
Qed.

(** C7: the tip type of a tip rack is read from [PropertyValue.6] and, only
    when that lookup fails as not found, from [PropertyValue.4]; a tip type
    that is not one of the nine catalog identifiers makes the call fail (with
    the [KeyError] of the table once the dimensions have been read), so no
    descriptor is returned. *)
Theorem C7_tip_type_fallback (fs : filesystem) (filepath : string) :
  (forall rack desc,
     create_tip_rack_for_writing fs filepath = Ok (rack, desc) ->
     exists c tip_type,
       fs filepath = Some c
       /\ (find_string "PropertyValue.6" c = Found tip_type
           \/ ((exists msg, find_string "PropertyValue.6" c = Missing msg)
               /\ find_string "PropertyValue.4" c = Found tip_type))
       /\ In tip_type tip_type_names
       /\ tip_table tip_type = Some (spots_make_tip (rack_items rack)))
  /\ (forall c tip_type,
        fs filepath = Some c ->
        find_string "PropertyValue.6" c = Found tip_type
        \/ ((exists msg, find_string "PropertyValue.6" c = Missing msg)
            /\ find_string "PropertyValue.4" c = Found tip_type) ->
        ~ In tip_type tip_type_names ->
        (exists e, create_tip_rack_for_writing fs filepath = Raise e)
        /\ (forall size_x size_y size_z,
              find_float "Dim.Dx" c = Found size_x ->
              find_float "Dim.Dy" c = Found size_y ->
              find_float "Dim.Dz" c = Found size_z ->
              create_tip_rack_for_writing fs filepath
              = Raise (KeyError tip_type))).
Proof.
  split.
  - intros rack desc H. unfold create_tip_rack_for_writing in H.
    bind_ok H. cbv zeta in H. bind_ok H. cbv zeta in H. bind_ok H.
    injection H as <- <-. simpl.
    match goal with
    | E : read_tip_type _ _ = Ok ?t |- _ => exists a, t; rename E into Et
    end.
    split; [assumption|].
    match goal with
    | E : match tip_table ?t with _ => _ end = Ok ?cr |- _ =>
        assert (Ht : tip_table t = Some cr)
          by (destruct (tip_table t); congruence)
    end.
    split; [|split; [apply tip_table_recognized; eauto | exact Ht]].
    unfold read_tip_type in Et.
    destruct (find_string "PropertyValue.6" a) as [t6|msg] eqn:Epv6.
    + left. congruence.
    + right. split; [eauto|]. now apply field_ok.
  - intros c tip_type Hc Ht Hn.
    assert (Hr : read_tip_type find_string c = Ok tip_type).
    { unfold read_tip_type. destruct Ht as [-> | [[msg ->] ->]]; reflexivity. }
    assert (Hk : tip_table tip_type = None).
    { destruct (tip_table tip_type) eqn:E; [|reflexivity].
      exfalso. apply Hn, tip_table_recognized. eauto. }
    unfold create_tip_rack_for_writing, read_file. rewrite Hc. cbn [bind].
    split.
    + destruct (find_float "Dim.Dx" c); cbn [field bind]; [|eauto].
      destruct (find_float "Dim.Dy" c); cbn [field bind]; [|eauto].
      destruct (find_float "Dim.Dz" c); cbn [field bind]; [|eauto].
      rewrite Hr. cbn [bind]. rewrite Hk. cbn [bind]. eauto.
    + intros sx sy sz -> -> ->. cbn [field bind].
      rewrite Hr. cbn [bind]. rewrite Hk. reflexivity.
Qed.

(** *** The public entry points *)

Local Abbreviation create_plate_carrier_for_writing :=
  (create_plate_carrier_for_writing find_float find_string).
Local Abbreviation create_tip_carrier_for_writing :=
  (create_tip_carrier_for_writing find_float find_string).
Local Abbreviation create_flex_carrier_for_writing :=
  (create_flex_carrier_for_writing find_int find_float find_string).
Local Abbreviation create_plate :=
  (create_plate find_int find_float find_string round str_float).
Local Abbreviation create_tip_rack :=
  (create_tip_rack find_int find_float find_string round).
Local Abbreviation create_plate_carrier :=
  (create_plate_carrier find_float find_string).
Local Abbreviation create_tip_carrier :=
  (create_tip_carrier find_float find_string).
Local Abbreviation create_flex_carrier :=
  (create_flex_carrier find_int find_float find_string).

(** C9: each public entry point returns the descriptor of its for-writing
    form with the name replaced by the caller's and every other field,
    the model included, unchanged; the description and the volume function
    text are dropped; an exception of the for-writing form is passed on. *)
Theorem C9_public_entry_points (fs : filesystem) (filepath name : string)
    (ctr_filepath : option string) :
  ((forall plate desc vol,
      create_plate_for_writing fs filepath ctr_filepath
      = Ok (plate, desc, vol) ->
      exists plate', create_plate fs filepath name ctr_filepath = Ok plate'
                     /\ plate_renamed plate plate' name)
   /\ (forall e, create_plate_for_writing fs filepath ctr_filepath = Raise e ->
       create_plate fs filepath name ctr_filepath = Raise e))
  /\ ((forall rack desc,
         create_tip_rack_for_writing fs filepath = Ok (rack, desc) ->
         exists rack', create_tip_rack fs filepath name = Ok rack'
                       /\ rack_renamed rack rack' name)
      /\ (forall e, create_tip_rack_for_writing fs filepath = Raise e ->
          create_tip_rack fs filepath name = Raise e))
  /\ ((forall carrier desc,
         create_plate_carrier_for_writing fs filepath = Ok (carrier, desc) ->
         exists carrier', create_plate_carrier fs filepath name = Ok carrier'
                          /\ carrier_renamed carrier carrier' name)
      /\ (forall e, create_plate_carrier_for_writing fs filepath = Raise e ->
          create_plate_carrier fs filepath name = Raise e))
  /\ ((forall carrier desc,
         create_tip_carrier_for_writing fs filepath = Ok (carrier, desc) ->
         exists carrier', create_tip_carrier fs filepath name = Ok carrier'
                          /\ carrier_renamed carrier carrier' name)
      /\ (forall e, create_tip_carrier_for_writing fs filepath = Raise e ->
          create_tip_carrier fs filepath name = Raise e))
  /\ ((forall carrier desc,
         create_flex_carrier_for_writing fs filepath = Ok (carrier, desc) ->
         exists carrier', create_flex_carrier fs filepath name = Ok carrier'
                          /\ carrier_renamed carrier carrier' name)
      /\ (forall e, create_flex_carrier_for_writing fs filepath = Raise e ->
          create_flex_carrier fs filepath name = Raise e)).
Proof.
  unfold create_plate, create_tip_rack, create_plate_carrier,
    create_tip_carrier, create_flex_carrier.
  repeat split;
    try (intros e H; rewrite H; reflexivity);
    intros d1 d2; intros; 
    match goal with H : _ = Ok _ |- _ => rewrite H end;
    cbn [bind]; eexists; (split; [reflexivity|]);
    unfold plate_renamed, rack_renamed, carrier_renamed; simpl; repeat split.
Qed.

(** *** Plates: the volume function text *)

Lemma append_assoc (a b c : string) : (a ++ b) ++ c = a ++ (b ++ c).
Proof. induction a as [|ch a IH]; simpl; [reflexivity | now rewrite IH]. Qed.

Lemma append_empty_r (a : string) : a ++ EmptyString = a.
Proof. induction a as [|ch a IH]; simpl; [reflexivity | now rewrite IH]. Qed.

Lemma heights_sum_snoc (maxes : list float) (mx : float) :
  heights_sum (maxes ++ [mx]) = Float (num_add (heights_sum maxes) mx).
Proof. unfold heights_sum. now rewrite fold_left_app. Qed.

Local Abbreviation segment_step := (segment_step find_float find_string str_float).
Local Abbreviation segment_at := (segment_at find_float find_string).

(** The loop over the segments, started above the segments [below] with
    their heights summed, writes the terms of the remaining segments. *)
Lemma segment_loop (c2 : string) (num_segments : Z) (rest : list segment) :
  forall (below : list segment) (text : string) (m : nat),
    Forall2 (segment_at c2) (count_down m) rest ->
    (List.length below + m)%nat = Z.to_nat num_segments ->
    for_each (count_down m) (text, heights_sum (map snd below))
             (segment_step c2 num_segments)
    = Ok (text ++ terms_text str_float below rest,
          heights_sum (map snd (below ++ rest))).
Proof.
  induction rest as [|[eqn mx] rest IH]; intros below text m HP Hlen.
  - inversion HP as [Hm|]. simpl. now rewrite append_empty_r, app_nil_r.
  - destruct m as [|m']; [inversion HP|].
    cbn [count_down] in HP. apply Forall2_cons_iff in HP.
    destruct HP as [[He Hm] HP'].
    cbn [fst snd] in He, Hm. cbn [count_down for_each].
    unfold segment_step at 1. rewrite He, Hm. cbn [field bind].
    specialize (IH (below ++ [(eqn, mx)])%list
                   (text ++ term_text str_float below (eqn, mx)) m' HP').
    assert (Hs : heights_sum (map snd (below ++ [(eqn, mx)])%list)
                 = Float (num_add (heights_sum (map snd below)) mx))
      by (rewrite map_app; apply heights_sum_snoc).
    rewrite Hs in IH.
    match goal with
    | |- for_each _ (?t, _) _ = _ =>
        assert (Et : t = text ++ term_text str_float below (eqn, mx))
    end.
    { destruct below as [|b below']; simpl in Hlen.
      - replace (Z.of_nat (S m') =? num_segments) with true
          by (symmetry; apply Z.eqb_eq; lia).
        reflexivity.
      - replace (Z.of_nat (S m') =? num_segments) with false
          by (symmetry; apply Z.eqb_neq; lia).
        cbn [term_text]. now rewrite !append_assoc. }
    rewrite Et, IH by (rewrite length_app; simpl; lia).
    cbn [terms_text]. now rewrite append_assoc, <- app_assoc.
Qed.

(** A loop that ends without an exception has found every segment. *)
Lemma segment_loop_ok (c2 : string) (num_segments : Z) (m : nat) :
  forall st st',
    for_each (count_down m) st (segment_step c2 num_segments) = Ok st' ->
    exists rest, Forall2 (segment_at c2) (count_down m) rest.
Proof.
  induction m as [|m' IH]; intros st st' H.
  - exists []. constructor.
  - cbn [count_down for_each] in H.
    destruct (segment_step c2 num_segments st (Z.of_nat (S m'))) as [st1|e]
      eqn:Es; cbn [bind] in H; [|discriminate].
    destruct (IH _ _ H) as [rest HP].
    unfold segment_step in Es. destruct st as [text h].
    bind_ok Es.
    match goal with
    | E1 : find_string _ c2 = Found ?eqn, E2 : find_float _ c2 = Found ?mx
      |- _ => exists ((eqn, mx) :: rest); constructor; [split|]; assumption
    end.
Qed.

Lemma volume_function_text (c2 cname : string) (num_segments : Z)
    (segs : list segment) :
  Forall2 (segment_at c2) (range_down num_segments) segs ->
  volume_function c2 cname num_segments
  = Ok (volume_text str_float segs cname).
Proof.
  intros HP. unfold volume_function, range_down in *.
  change (Int 0) with (heights_sum (map snd (@nil segment))).
  rewrite (segment_loop c2 num_segments segs [] EmptyString _ HP)
    by (simpl; lia).
  cbn [bind app]. unfold volume_text, guard_text.
  now rewrite !append_assoc.
Qed.

(** C1: the volume function text of a plate is written from the segments
    taken from index N down to 1: the bottom segment gives the base term
    with [h] replaced by [min(h, max_N)]; every higher segment gives a
    conditional on [h <= max_i] that adds its equation with [h] replaced by
    [(h-S)], [S] being the sum of the maximum heights of the segments below
    it; the text ends with the guard that raises the out-of-range error,
    naming the resource and the height, when [h] exceeds the total height. *)
Theorem C1_volume_function_text (fs : filesystem) (filepath : string)
    (ctr_filepath : option string) :
  (forall c2 cname num_segments segs,
     Forall2 (segment_at c2) (range_down num_segments) segs ->
     volume_function c2 cname num_segments
     = Ok (volume_text str_float segs cname))
  /\ (forall plate desc vol,
        create_plate_for_writing fs filepath ctr_filepath
        = Ok (plate, desc, vol) ->
        exists c2 num_segments segs,
          fs (ctr_path filepath ctr_filepath) = Some c2
          /\ find_int "Segments" c2 = Found num_segments
          /\ Forall2 (segment_at c2) (range_down num_segments) segs
          /\ vol = volume_text str_float segs (stem filepath)).
Proof.
  split; [apply volume_function_text|].
  intros plate desc vol H. apply create_plate_for_writing_ok in H.
  destruct H as (c & c2 & sx & sy & sz & nx & ny & wdx & wdy & bx & by_ & ns
                 & wsx & wsy & bc & cc & wsz & H).
  decompose [and] H; clear H.
  match goal with Hv : volume_function _ _ _ = Ok _ |- _ =>
    pose proof Hv as Hv'; unfold volume_function in Hv' end.
  destruct (for_each (range_down ns) (EmptyString, Int 0)
                     (segment_step c2 ns)) as [st|e] eqn:El;
    [|discriminate].
  destruct (segment_loop_ok _ _ _ _ _ El) as [segs HP].
  exists c2, ns, segs. repeat (split; [assumption|]).
  match goal with Hv : volume_function _ _ _ = Ok _ |- _ =>
    rewrite (volume_function_text _ _ _ _ HP) in Hv; congruence end.
Qed.

(** *** Carriers: the size of the sites *)

Local Abbreviation site_step := (site_step find_float).
Local Abbreviation read_sites := (read_sites find_float).
Local Abbreviation assemble_carrier := (assemble_carrier find_float find_string).
Local Abbreviation visible_sites := (visible_sites find_int).
Local Abbreviation same_but_lower_site_sizes :=
  (same_but_lower_site_sizes find_int find_float find_string).

Lemma for_each_app {A S : Type} (xs ys : list A) (st : S)
    (body : S -> A -> result S) :
  for_each (xs ++ ys) st body
  = (st' <- for_each xs st body ;; for_each ys st' body)%py.
Proof.
  revert st. induction xs as [|a xs IH]; intros st; simpl; [reflexivity|].
  destruct (body st a); simpl; [apply IH | reflexivity].
Qed.

Lemma range_up_last (n : Z) :
  1 <= n -> range_up n = (range_up (n - 1) ++ [n])%list.
Proof.
  intros Hn. unfold range_up.
  replace (Z.to_nat n) with (S (Z.to_nat (n - 1))) by lia.
  rewrite seq_S, map_app. simpl. do 2 f_equal. lia.
Qed.

Lemma in_range_up (n i : Z) : In i (range_up n) -> 1 <= i <= n.
Proof.
  unfold range_up. rewrite in_map_iff. intros [k [<- Hk]].
  apply in_seq in Hk. lia.
Qed.

Lemma range_up_none (n : Z) : n < 1 -> range_up n = [].
Proof.
  intros Hn. unfold range_up. now replace (Z.to_nat n) with O by lia.
Qed.

(** After a loop over at least one site, [site_width] and [site_height]
    hold what was read for the last site. *)
Lemma read_sites_ok (c : string) (n : Z) (st : site_loop) :
  read_sites c n = Ok st ->
  (n < 1 /\ loop_site_width st = None /\ loop_site_height st = None)
  \/ (1 <= n
      /\ exists w h,
          find_float ("Site." ++ str_int n ++ ".Dx") c = Found w
          /\ find_float ("Site." ++ str_int n ++ ".Dy") c = Found h
          /\ loop_site_width st = Some w
          /\ loop_site_height st = Some h).
Proof.
  unfold read_sites. intros H. destruct (Z.lt_ge_cases n 1) as [Hn|Hn].
  - left. rewrite (range_up_none n Hn) in H. injection H as <-. auto.
  - right. split; [assumption|].
    rewrite (range_up_last n Hn), for_each_app in H.
    bind_ok H. cbn [for_each] in H. bind_ok H.
    injection H as <-. unfold site_step in E0. bind_ok E0.
    injection E0 as <-.
    match goal with
    | E1 : find_float (_ ++ _ ++ ".Dx") c = Found ?w,
      E2 : find_float (_ ++ _ ++ ".Dy") c = Found ?h |- _ =>
        exists w, h; repeat split; first [assumption | reflexivity]
    end.
Qed.

Lemma assemble_carrier_ok (klass : carrier_class) (c filepath : string)
    (sites : list Coordinate) (st : site_loop) (carrier : Carrier)
    (desc : string) :
  assemble_carrier klass c filepath sites st = Ok (carrier, desc) ->
  exists w h,
    loop_site_width st = Some w
    /\ loop_site_height st = Some h
    /\ carrier_sites carrier = create_homogeneous_carrier_sites sites w h.
Proof.
  unfold assemble_carrier. intros H. bind_ok H. cbv zeta in H. bind_ok H.
  injection H as <- <-.
  destruct (loop_site_width st) as [w|]; [|discriminate].
  destruct (loop_site_height st) as [h|]; [|discriminate].
  simpl in *. exists w, h. repeat split. congruence.
Qed.

Lemma homogeneous_sites_sized (sites : list Coordinate) (w h : float) :
  all_sites_sized w h (create_homogeneous_carrier_sites sites w h).
Proof.
  unfold all_sites_sized, create_homogeneous_carrier_sites.
  apply Forall_forall. intros s Hs. apply in_map_iff in Hs.
  destruct Hs as [l [<- _]]. split; reflexivity.
Qed.

(** The sites of an assembled carrier have the size of the last site read. *)
Lemma carrier_site_sizes (klass : carrier_class) (c filepath : string)
    (n : Z) (sites : list Coordinate) (st : site_loop) (carrier : Carrier)
    (desc : string) :
  read_sites c n = Ok st ->
  assemble_carrier klass c filepath sites st = Ok (carrier, desc) ->
  1 <= n
  /\ exists w h,
      find_float ("Site." ++ str_int n ++ ".Dx") c = Found w
      /\ find_float ("Site." ++ str_int n ++ ".Dy") c = Found h
      /\ (exists locations,
            carrier_sites carrier
            = create_homogeneous_carrier_sites locations w h)
      /\ all_sites_sized w h (carrier_sites carrier).
Proof.
  intros Hr Ha. apply assemble_carrier_ok in Ha.
  destruct Ha as (w & h & Hw & Hh & ->).
  destruct (read_sites_ok _ _ _ Hr) as [(_ & Hn & _) | (Hn & w' & h' & H)].
  - congruence.
  - split; [assumption|]. exists w, h.
    destruct H as (Ex & Ey & Hw' & Hh').
    rewrite Hw in Hw'. rewrite Hh in Hh'.
    injection Hw' as <-. injection Hh' as <-.
    split; [assumption|]. split; [assumption|].
    split; [eexists; reflexivity | apply homogeneous_sites_sized].
Qed.

Lemma insert_by_y_length (s : Coordinate) (l : list Coordinate) :
  List.length (insert_by_y s l) = S (List.length l).
Proof.
  induction l as [|t l IH]; simpl; [reflexivity|].
  destruct (PrimFloat.ltb (y t) (y s)); simpl; [now rewrite IH | reflexivity].
Qed.

Lemma sorted_by_y_length (l : list Coordinate) :
  List.length (sorted_by_y l) = List.length l.
Proof.
  induction l as [|s l IH]; simpl; [reflexivity|].
  now rewrite insert_by_y_length, IH.
Qed.

Lemma site_loop_length (c : string) (indices : list Z) :
  forall st0 st,
    for_each indices st0 (site_step c) = Ok st ->
    List.length (loop_sites st)
    = (List.length (loop_sites st0) + List.length indices)%nat.
Proof.
  induction indices as [|i indices IH]; intros st0 st H.
  - injection H as <-. simpl. lia.
  - cbn [for_each] in H. bind_ok H. apply IH in H. rewrite H.
    unfold site_step in E. bind_ok E. injection E as <-.
    cbn [loop_sites List.length]. rewrite length_app. simpl. lia.
Qed.

Lemma read_sites_length (c : string) (n : Z) (st : site_loop) :
  read_sites c n = Ok st -> List.length (loop_sites st) = Z.to_nat n.
Proof.
  unfold read_sites. intros H. apply site_loop_length in H. rewrite H.
  unfold range_up. now rewrite length_map, length_seq.
Qed.

Section TwoFiles.

Variables c1 c2 : string.
Variable n : Z.
Hypothesis Hsame : same_but_lower_site_sizes c1 c2 n.

Lemma lower_sites_agree (indices : list Z) :
  (forall i, In i indices -> 1 <= i < n) ->
  forall st1 st2,
    loop_sites st1 = loop_sites st2 ->
    same_sites_read (for_each indices st1 (site_step c1))
                    (for_each indices st2 (site_step c2)).
Proof.
  destruct Hsame as (Hxyz & Hr1 & Hr2 & _).
  induction indices as [|i indices IH]; intros Hin st1 st2 Hst.
  - exact Hst.
  - assert (Hi : 1 <= i < n) by (apply Hin; now left).
    destruct (Hxyz i ltac:(lia)) as (Ex & Ey & Ez).
    destruct (Hr1 i Hi) as [[w1 Ew1] [h1 Eh1]].
    destruct (Hr2 i Hi) as [[w2 Ew2] [h2 Eh2]].
    cbn [for_each]. unfold site_step at 1 3.
    rewrite Ex, Ey, Ez, Ew1, Eh1, Ew2, Eh2.
    destruct (find_float ("Site." ++ str_int i ++ ".X") c2);
      cbn [field bind]; [|reflexivity].
    destruct (find_float ("Site." ++ str_int i ++ ".Y") c2);
      cbn [field bind]; [|reflexivity].
    destruct (find_float ("Site." ++ str_int i ++ ".Z") c2);
      cbn [field bind]; [|reflexivity].
    apply IH; [intros j Hj; apply Hin; now right|].
    cbn [loop_sites]. now rewrite Hst.
Qed.

Lemma last_site_agrees (st1 st2 : site_loop) :
  1 <= n ->
  loop_sites st1 = loop_sites st2 ->
  site_step c1 st1 n = site_step c2 st2 n.
Proof.
  destruct Hsame as (Hxyz & _ & _ & Ew & Eh & _). intros Hn Hst.
  destruct (Hxyz n ltac:(lia)) as (Ex & Ey & Ez).
  unfold site_step. now rewrite Ex, Ey, Ez, Ew, Eh, Hst.
Qed.

Lemma read_sites_agree : 1 <= n -> read_sites c1 n = read_sites c2 n.
Proof.
  intros Hn. unfold read_sites.
  rewrite (range_up_last n Hn), !for_each_app.
  pose proof (lower_sites_agree (range_up (n - 1))) as H.
  specialize (H ltac:(intros i Hi; apply in_range_up in Hi; lia)
                (mkSiteLoop [] None None) (mkSiteLoop [] None None) eq_refl).
  destruct (for_each (range_up (n - 1)) _ (site_step c1)) as [st1|e1];
    destruct (for_each (range_up (n - 1)) _ (site_step c2)) as [st2|e2];
    simpl in H; try contradiction.
  - cbn [bind for_each]. now rewrite (last_site_agrees st1 st2 Hn H).
  - now subst.
Qed.

Lemma assemble_carrier_agree (klass : carrier_class) (filepath : string)
    (sites : list Coordinate) (st : site_loop) :
  assemble_carrier klass c1 filepath sites st
  = assemble_carrier klass c2 filepath sites st.
Proof.
  destruct Hsame as (_ & _ & _ & _ & _ & _ & Ex & Ey & Ez & Ed).
  unfold assemble_carrier. now rewrite Ex, Ey, Ez, Ed.
Qed.

Lemma visible_sites_agree (sites : list Coordinate) :
  forall i, 0 <= i -> i + Z.of_nat (List.length sites) <= n ->
            visible_sites c1 i sites = visible_sites c2 i sites.
Proof.
  destruct Hsame as (_ & _ & _ & _ & _ & Hv & _).
  induction sites as [|s sites IH]; intros i Hi Hlen; [reflexivity|].
  cbn [List.length] in Hlen.
  pose proof (Hv i ltac:(lia)) as Ei.
  specialize (IH (i + 1) ltac:(lia) ltac:(lia)).
  simpl in *. now rewrite Ei, IH.
Qed.

End TwoFiles.


(** *** Replacement and file names *)

Lemma replace_from_skip (old new u t : string) :
  replace_from old new (String.length u) (u ++ t) = replace_from old new O t.
Proof. induction u as [|a u IH]; simpl; [reflexivity | exact IH]. Qed.

Section Replace.

Variables old new : string.


Lemma prefix_split (p s : string) :
  prefix p s = true -> exists t, s = p ++ t.
Proof.
  revert s. induction p as [|a p IH]; intros s H.
  - exists s. reflexivity.
  - destruct (prefix_head _ _ _ H) as [s' ->]. simpl in H.
    destruct (ascii_dec a a) as [_|N]; [|contradiction].
    destruct (IH _ H) as [t ->]. exists t. reflexivity.
Qed.

Lemma length_append (u t : string) :
  String.length (u ++ t) = (String.length u + String.length t)%nat.
Proof. induction u as [|a u IH]; simpl; [reflexivity | now rewrite IH]. Qed.

(** At an occurrence of [old] the replacement is written and the scan goes
    on after the occurrence. *)
Lemma replace_at_occurrence (s : string) :
  old <> EmptyString ->
  prefix old s = true ->
  exists t, s = old ++ t
            /\ (String.length t < String.length s)%nat
            /\ replace old new s = new ++ replace old new t.
Proof.
  intros Hne H. destruct (prefix_split _ _ H) as [t ->]. exists t.
  destruct old as [|b old'] eqn:Eo; [contradiction|].
  split; [reflexivity|]. split.
  - simpl. rewrite length_append. lia.
  - unfold replace. cbn [append replace_from].
    change (String b (old' ++ t)) with (String b old' ++ t). rewrite H.
    replace (String.length (String b old') - 1)%nat
      with (String.length old') by (simpl; lia).
    now rewrite replace_from_skip.
Qed.

Lemma replace_no_occurrence (a : ascii) (s : string) :
  prefix old (String a s) = false ->
  replace old new (String a s) = String a (replace old new s).
Proof. intros H. unfold replace. cbn [replace_from]. now rewrite H. Qed.

Lemma has_slash_app (u t : string) :
  has_slash (u ++ t) = has_slash u || has_slash t.
Proof.
  induction u as [|a u IH]; simpl; [reflexivity|].
  now rewrite IH, orb_assoc.
Qed.

Lemma basename_no_slash (t : string) : has_slash t = false -> basename t = t.
Proof.
  destruct t as [|b t]; [reflexivity|]. simpl. intros E.
  apply orb_false_elim in E. destruct E as [E1 E2]. now rewrite E2, E1.
Qed.

Lemma basename_app (u t : string) :
  has_slash u = false ->
  basename (u ++ t) = if has_slash t then basename t else u ++ t.
Proof.
  induction u as [|a u IH]; intros H.
  - cbn [append]. destruct (has_slash t) eqn:E; [reflexivity|].
    now apply basename_no_slash.
  - simpl in H |- *. apply orb_false_elim in H. destruct H as [Ha Hu].
    rewrite has_slash_app, Hu. simpl.
    destruct (has_slash t); [now apply IH|]. now rewrite Ha.
Qed.

Hypothesis old_not_empty : old <> EmptyString.
Hypothesis old_no_slash : has_slash old = false.
Hypothesis new_no_slash : has_slash new = false.

Lemma has_slash_replace (n : nat) :
  forall s, (String.length s <= n)%nat ->
            has_slash (replace old new s) = has_slash s.
Proof.
  induction n as [|n IH]; intros s Hs.
  - destruct s; [reflexivity | simpl in Hs; lia].
  - destruct s as [|a s']; [reflexivity|].
    destruct (prefix old (String a s')) eqn:E.
    + destruct (replace_at_occurrence _ old_not_empty E) as (t & Et & Hl & ->).
      rewrite Et, !has_slash_app, old_no_slash, new_no_slash.
      apply IH. simpl in *. lia.
    + rewrite (replace_no_occurrence _ _ E). simpl.
      f_equal. apply IH. simpl in Hs. lia.
Qed.

(** Replacing inside a path replaces inside its file name. *)
Lemma basename_replace (n : nat) :
  forall s, (String.length s <= n)%nat ->
            basename (replace old new s) = replace old new (basename s).
Proof.
  induction n as [|n IH]; intros s Hs.
  - destruct s; [reflexivity | simpl in Hs; lia].
  - destruct s as [|a s']; [reflexivity|].
    destruct (prefix old (String a s')) eqn:E.
    + destruct (replace_at_occurrence _ old_not_empty E) as (t & Et & Hl & Er).
      rewrite Er, Et, !basename_app by assumption.
      rewrite (has_slash_replace (String.length t) t (le_n _)).
      destruct (has_slash t).
      * apply IH. simpl in *. lia.
      * rewrite <- Et. now rewrite Er.
    + rewrite (replace_no_occurrence _ _ E).
      cbn [basename].
      rewrite (has_slash_replace (String.length s') s' (le_n _)).
      destruct (has_slash s').
      * apply IH. simpl in Hs. lia.
      * destruct (Ascii.eqb a "/"); [reflexivity|].
        now rewrite (replace_no_occurrence _ _ E).
Qed.

(** A prefix that avoids the first character of [new] is a prefix of the
    replaced text only if it was one of the text. *)
Lemma prefix_replace (d : ascii) (new' : string) (p : string) :
  new = String d new' ->
  has_char d p = false ->
  forall s, prefix p (replace old new s) = true -> prefix p s = true.
Proof.
  intros En. induction p as [|c p IH]; intros Hd s H.
  - destruct s; reflexivity.
  - simpl in Hd. apply orb_false_elim in Hd. destruct Hd as [Hc Hp].
    destruct s as [|a s']; [discriminate H|].
    destruct (prefix old (String a s')) eqn:E.
    + destruct (replace_at_occurrence _ old_not_empty E) as (t & _ & _ & Er).
      rewrite Er, En in H. simpl in H.
      destruct (ascii_dec c d) as [->|]; [|discriminate].
      now rewrite Ascii.eqb_refl in Hc.
    + rewrite (replace_no_occurrence _ _ E) in H. simpl in H |- *.
      destruct (ascii_dec c a); [|discriminate]. now apply IH.
Qed.

(** When [old] occurs at the end only, the end alone is replaced. *)
Lemma replace_suffix_only (stem : string) :
  occurs_only_at_end old (stem ++ old) ->
  replace old new (stem ++ old) = stem ++ new.
Proof.
  induction stem as [|a stem IH]; intros H.
  - cbn [append]. destruct old as [|b old'] eqn:Eo; [contradiction|].
    assert (Hp : prefix (String b old') (String b old') = true).
    { apply prefix_correct. clear.
      generalize (String b old'). intros t. induction t as [|c t IHt];
        simpl; [reflexivity | now rewrite IHt]. }
    unfold replace. cbn [replace_from]. rewrite Hp.
    replace (String.length (String b old') - 1)%nat
      with (String.length old') by (simpl; lia).
    pose proof (replace_from_skip (String b old') new old' EmptyString) as Hk.
    rewrite append_empty_r in Hk. rewrite Hk.
    cbn [replace_from]. apply append_empty_r.
  - cbn [append]. destruct (prefix old (String a (stem ++ old))) eqn:E.
    + exfalso. destruct (prefix_split _ _ E) as [t Et].
      assert (Ht : t = EmptyString).
      { apply (H EmptyString t). exact Et. }
      subst t. rewrite append_empty_r in Et.
      apply (f_equal String.length) in Et.
      cbn [String.length append] in Et. rewrite length_append in Et. lia.
    + rewrite (replace_no_occurrence _ _ E). f_equal. apply IH.
      intros u v Huv. apply (H (String a u) v). cbn [append]. now f_equal.
Qed.

End Replace.

Lemma substring_whole (t : string) : substring 0 (String.length t) t = t.
Proof. induction t as [|a t IH]; simpl; [reflexivity | now rewrite IH]. Qed.

Lemma substring_app_r (u t : string) :
  substring (String.length u) (String.length t) (u ++ t) = t.
Proof. induction u as [|a u IH]; simpl; [apply substring_whole | exact IH]. Qed.

Lemma substring_app_l (t v : string) :
  substring 0 (String.length t) (t ++ v) = t.
Proof. induction t as [|a t IH]; simpl; [now destruct v | now rewrite IH]. Qed.

Lemma substring_app_mid (u t v : string) :
  substring (String.length u) (String.length t) (u ++ t ++ v) = t.
Proof. induction u as [|a u IH]; simpl; [apply substring_app_l | exact IH]. Qed.

(** A test by computation: the first occurrence of [old] in [s] is the one
    at the end. *)
Lemma occurs_only_at_end_index (old s : string) :
  index 0 old s = Some (String.length s - String.length old)%nat ->
  occurs_only_at_end old s.
Proof.
  intros Hi u v E.
  assert (Hsub : substring (String.length u) (String.length old) s = old)
    by (rewrite E; apply substring_app_mid).
  assert (Hlen : String.length s
                 = (String.length u + (String.length old + String.length v))%nat)
    by (rewrite E, !length_append; reflexivity).
  destruct (Nat.lt_ge_cases (String.length u)
              (String.length s - String.length old)) as [Hlt|Hge].
  - exfalso.
    apply (index_correct2 _ _ _ _ Hi (String.length u)); [lia | exact Hlt|].
    exact Hsub.
  - destruct v; [reflexivity | simpl in Hlen; lia].
Qed.

Lemma endswith_app (u t t' : string) :
  String.length t' = String.length t ->
  endswith (u ++ t) t' = String.eqb t t'.
Proof.
  intros Hl. unfold endswith. rewrite length_append, Hl.
  replace (String.length t <=? String.length u + String.length t)%nat
    with true by (symmetry; apply Nat.leb_le; lia).
  replace (String.length u + String.length t - String.length t)%nat
    with (String.length u) by lia.
  now rewrite substring_app_r.
Qed.

Lemma basename_app_r (u t : string) :
  has_slash t = false -> basename (u ++ t) = basename u ++ t.
Proof.
  intros Ht. induction u as [|a u IH].
  - cbn [append basename]. now apply basename_no_slash.
  - cbn [append basename]. rewrite has_slash_app, Ht, orb_false_r.
    destruct (has_slash u); [exact IH|].
    destruct (Ascii.eqb a "/"); reflexivity.
Qed.

(** The canonical path of a name that carries an orientation suffix, at
    its end only, is the name with the suffix stripped. *)
Lemma canonical_path_unsuffixed (stem suffix : string) :
  suffix = "_L.rck" \/ suffix = "_P.rck" ->
  occurs_only_at_end suffix (stem ++ suffix) ->
  canonical_path (stem ++ suffix) = stem ++ ".rck".
Proof.
  intros Hs Honly. unfold canonical_path.
  rewrite basename_app_r by (destruct Hs as [-> | ->]; reflexivity).
  rewrite !endswith_app by (destruct Hs as [-> | ->]; reflexivity).
  destruct Hs as [-> | ->]; cbn [String.eqb Ascii.eqb Bool.eqb andb];
    apply replace_suffix_only; first [discriminate | assumption | reflexivity].
Qed.

(** *** Carriers: the order of the sites *)

Local Abbreviation coordinate_at := (coordinate_at find_float).

Lemma insert_by_y_permutation (s : Coordinate) (l : list Coordinate) :
  Permutation (insert_by_y s l) (s :: l).
Proof.
  induction l as [|t l IH]; simpl; [apply Permutation_refl|].
  destruct (PrimFloat.ltb (y t) (y s)); [|apply Permutation_refl].
  eapply perm_trans; [apply perm_skip, IH | apply perm_swap].
Qed.

(** The sorted sites are the sites read, in another order. *)
Lemma sorted_by_y_permutation (l : list Coordinate) :
  Permutation (sorted_by_y l) l.
Proof.
  induction l as [|s l IH]; simpl; [constructor|].
  eapply perm_trans; [apply insert_by_y_permutation | now constructor].
Qed.

Lemma SFcompare_antisym (f1 f2 : spec_float) :
  SFcompare f2 f1 = option_map CompOpp (SFcompare f1 f2).
Proof.
  destruct f1 as [s1|s1| |s1 m1 e1], f2 as [s2|s2| |s2 m2 e2]; simpl;
    try reflexivity;
    try (destruct s1; reflexivity); try (destruct s2; reflexivity);
    try (destruct s1, s2; reflexivity).
  assert (Hm : Pos.compare_cont Eq m2 m1
               = CompOpp (Pos.compare_cont Eq m1 m2))
    by (symmetry; apply (Pos.compare_cont_antisym m1 m2 Eq)).
  rewrite (Z.compare_antisym e1 e2), Hm.
  destruct s1, s2; try reflexivity;
    destruct (e1 ?= e2); simpl; try reflexivity;
    destruct (Pos.compare_cont Eq m1 m2); reflexivity.
Qed.

Lemma SFcompare_nan (f1 f2 : spec_float) :
  SFcompare f1 f2 = None -> SFcompare f1 f1 = None \/ SFcompare f2 f2 = None.
Proof.
  destruct f1 as [s1|s1| |s1 m1 e1], f2 as [s2|s2| |s2 m2 e2]; simpl;
    intros H; try discriminate; auto.
Qed.

Lemma is_nan_compare (a : float) :
  PrimFloat.is_nan a = false -> SFcompare (Prim2SF a) (Prim2SF a) <> None.
Proof.
  unfold PrimFloat.is_nan. rewrite eqb_spec. unfold SFeqb. intros H E.
  now rewrite E in H.
Qed.

Lemma ltb_leb (a b : float) :
  PrimFloat.ltb a b = true -> PrimFloat.leb a b = true.
Proof.
  rewrite ltb_spec, leb_spec. unfold SFltb, SFleb.
  destruct (SFcompare (Prim2SF a) (Prim2SF b)) as [[]|]; congruence.
Qed.

Lemma not_ltb_leb (a b : float) :
  PrimFloat.is_nan a = false -> PrimFloat.is_nan b = false ->
  PrimFloat.ltb a b = false -> PrimFloat.leb b a = true.
Proof.
  intros Ha Hb. rewrite ltb_spec, leb_spec. unfold SFltb, SFleb.
  rewrite (SFcompare_antisym (Prim2SF a) (Prim2SF b)).
  destruct (SFcompare (Prim2SF a) (Prim2SF b)) as [[]|] eqn:E; simpl;
    try congruence.
  destruct (SFcompare_nan _ _ E) as [N|N];
    [now apply is_nan_compare in Ha | now apply is_nan_compare in Hb].
Qed.

Lemma insert_by_y_sorted (s : Coordinate) (l : list Coordinate) :
  PrimFloat.is_nan (y s) = false -> no_nan_y l ->
  Sorted not_above l -> Sorted not_above (insert_by_y s l).
Proof.
  intros Hs Hl Hsorted. induction l as [|t l IH]; simpl.
  - repeat constructor.
  - apply Forall_cons_iff in Hl. destruct Hl as [Ht Hl].
    apply Sorted_inv in Hsorted. destruct Hsorted as [Hsl Hhd].
    destruct (PrimFloat.ltb (y t) (y s)) eqn:E.
    + constructor; [now apply IH|].
      destruct l as [|u l]; simpl.
      * constructor. now apply ltb_leb.
      * destruct (PrimFloat.ltb (y u) (y s)); constructor;
          [now inversion Hhd | now apply ltb_leb].
    + constructor; [now constructor|]. constructor.
      now apply not_ltb_leb.
Qed.

(** Without nan among the y-coordinates, the sorted sites are in
    non-decreasing order of y. *)
Lemma sorted_by_y_sorted (l : list Coordinate) :
  no_nan_y l -> Sorted not_above (sorted_by_y l).
Proof.
  induction l as [|s l IH]; simpl; intros H; [constructor|].
  apply Forall_cons_iff in H. destruct H as [Hs Hl].
  apply insert_by_y_sorted; [assumption | | now apply IH].
  unfold no_nan_y in *. rewrite Forall_forall in *. intros t Ht.
  apply Hl. eapply Permutation_in; [apply sorted_by_y_permutation | exact Ht].
Qed.

(** The loop over the sites collects their coordinates in index order. *)
Lemma site_loop_coordinates (c : string) (indices : list Z) :
  forall st0 st,
    for_each indices st0 (site_step c) = Ok st ->
    exists coords,
      loop_sites st = (loop_sites st0 ++ coords)%list
      /\ Forall2 (coordinate_at c) indices coords.
Proof.
  induction indices as [|i indices IH]; intros st0 st H.
  - injection H as <-. exists []. split; [now rewrite app_nil_r | constructor].
  - cbn [for_each] in H. bind_ok H. apply IH in H.
    destruct H as (coords & Hl & HP).
    unfold site_step in E. bind_ok E. injection E as <-.
    cbn [loop_sites] in Hl. rewrite <- app_assoc in Hl.
    eexists. split; [exact Hl|]. constructor; [|exact HP].
    repeat split; assumption.
Qed.

(** The sites handed to the assembler of a plate or tip carrier are the
    sites of the file sorted by y; those of a multiflex carrier are what the
    visibility filter leaves of them. *)
Lemma carrier_sites_order (fs : filesystem) (filepath : string)
    (carrier : Carrier) (desc : string) :
  (create_plate_carrier_for_writing fs filepath = Ok (carrier, desc)
   \/ create_tip_carrier_for_writing fs filepath = Ok (carrier, desc) ->
   exists c n coords,
     fs filepath = Some c
     /\ site_count_of ("Site.Cnt" ++ SOH) c = Ok n
     /\ Forall2 (coordinate_at c) (range_up n) coords
     /\ map site_location (carrier_sites carrier) = sorted_by_y coords)
  /\ (create_flex_carrier_for_writing fs filepath = Ok (carrier, desc) ->
      exists c n coords kept,
        fs filepath = Some c
        /\ site_count_of ("Site.Cnt" ++ STX) c = Ok n
        /\ Forall2 (coordinate_at c) (range_up n) coords
        /\ visible_sites c 0 (sorted_by_y coords) = Ok kept
        /\ map site_location (carrier_sites carrier) = kept).
Proof.
  assert (Hmap : forall sites w h,
            map site_location (create_homogeneous_carrier_sites sites w h)
            = sites).
  { intros sites w h. unfold create_homogeneous_carrier_sites.
    rewrite map_map. simpl. apply map_id. }
  split.
  - intros [H|H];
      [unfold create_plate_carrier_for_writing in H
      |unfold create_tip_carrier_for_writing in H];
      bind_ok H; cbv zeta in H;
      match goal with Hr : read_sites _ _ = Ok _ |- _ =>
        destruct (site_loop_coordinates _ _ _ _ Hr) as (coords & Hl & HP) end;
      cbn [loop_sites app] in Hl; rewrite Hl in H;
      apply assemble_carrier_ok in H; destruct H as (w & h & _ & _ & Hs);
      do 3 eexists; repeat (split; [eassumption|]);
      now rewrite Hs, Hmap.
  - intros H. unfold create_flex_carrier_for_writing in H.
    bind_ok H. cbv zeta in H. bind_ok H.
    match goal with Hr : read_sites _ _ = Ok _ |- _ =>
      destruct (site_loop_coordinates _ _ _ _ Hr) as (coords & Hl & HP) end.
    cbn [loop_sites app] in Hl.
    apply assemble_carrier_ok in H. destruct H as (w & h & _ & _ & Hs).
    do 4 eexists. repeat (split; [eassumption|]).
    split; [rewrite <- Hl; eassumption|]. now rewrite Hs, Hmap.
Qed.

(** The visibility filter keeps a site when the flag found under its
    position in the list it is given (the sorted list, counted from [i]) is
    1; the index the site has in the file plays no part. *)
Lemma visible_sites_by_position (c : string) (sites : list Coordinate) :
  forall i kept,
    visible_sites c i sites = Ok kept ->
    exists flags,
      List.length flags = List.length sites
      /\ (forall k v, nth_error flags k = Some v ->
            find_int ("Site." ++ str_int (i + Z.of_nat k) ++ ".Visible") c
            = Found v)
      /\ kept = map fst (filter (fun p => snd p =? 1) (combine sites flags)).
Proof.
  induction sites as [|s sites IH]; intros i kept H.
  - injection H as <-. exists []. repeat split. intros [|k] v Hk; discriminate.
  - simpl in H. bind_ok H. injection H as <-.
    match goal with Hr : visible_sites _ _ _ = Ok _ |- _ =>
      destruct (IH _ _ Hr) as (flags & Hlen & Hflags & ->) end.
    match goal with Hv : find_int _ c = Found ?v |- _ =>
      exists (v :: flags); rename Hv into Hhead end.
    split; [simpl; now rewrite Hlen|]. split.
    + intros [|k] w Hk; simpl in Hk.
      * injection Hk as <-. now rewrite Z.add_0_r.
      * replace (i + Z.of_nat (S k)) with (i + 1 + Z.of_nat k) by lia.
        now apply Hflags.
    + cbn [combine filter snd]. now destruct (_ =? 1).
Qed.

(** *** The classifier and orientation suffixes *)

Lemma startswith_unsuffixed (suffix b p : string) :
  suffix = "_L.rck" \/ suffix = "_P.rck" ->
  has_char "." p = false ->
  startswith b p = false ->
  startswith (replace suffix ".rck" b) p = false.
Proof.
  intros Hs Hp Hb. unfold startswith in *.
  destruct (prefix p (replace suffix ".rck" b)) eqn:E; [|reflexivity].
  rewrite <- Hb. symmetry.
  apply (prefix_replace suffix ".rck") with (d := "."%char) (new' := "rck");
    try assumption; try reflexivity.
  destruct Hs as [-> | ->]; discriminate.
Qed.

Lemma carrier_prefixed_unsuffixed (suffix s : string) :
  suffix = "_L.rck" \/ suffix = "_P.rck" ->
  carrier_prefixed (basename s) = false ->
  carrier_prefixed (basename (replace suffix ".rck" s)) = false.
Proof.
  intros Hs H.
  assert (E : basename (replace suffix ".rck" s)
              = replace suffix ".rck" (basename s)).
  { apply (basename_replace suffix ".rck") with (n := String.length s).
    - destruct Hs as [-> | ->]; discriminate.
    - destruct Hs as [-> | ->]; reflexivity.
    - reflexivity.
    - apply le_n. }
  rewrite E.
  destruct (not_carrier_prefixed _ H) as (H1 & H2 & H3 & H4).
  unfold carrier_prefixed.
  rewrite !(startswith_unsuffixed suffix) by (assumption || reflexivity).
  reflexivity.
Qed.

(** The canonical path of a file without a carrier prefix has none either. *)
Lemma carrier_prefixed_canonical (filepath : string) :
  carrier_prefixed (basename filepath) = false ->
  carrier_prefixed (basename (canonical_path filepath)) = false.
Proof.
  intros H. unfold canonical_path.
  destruct (endswith (basename filepath) "_P.rck");
    destruct (endswith filepath "_L.rck");
    repeat apply carrier_prefixed_unsuffixed; auto.
Qed.

Lemma canonical_path_fixed (filepath : string) :
  orientation_suffixed filepath = false ->
  canonical_path filepath = filepath.
Proof.
  unfold orientation_suffixed, canonical_path. intros H.
  apply orb_false_elim in H. destruct H as [-> ->]. reflexivity.
Qed.

(** Classifying a path and classifying its canonical path give the same
    kind, or both fail, when the canonical path carries no orientation
    suffix of its own. *)
Lemma classification_of_canonical (fs : filesystem) (filepath : string) :
  carrier_prefixed (basename filepath) = false ->
  orientation_suffixed (canonical_path filepath) = false ->
  classification (get_resource_type fs filepath)
  = classification (get_resource_type fs (canonical_path filepath)).
Proof.
  intros Hp Hs.
  rewrite (get_resource_type_not_carrier fs filepath Hp).
  rewrite (get_resource_type_not_carrier fs (canonical_path filepath)
             (carrier_prefixed_canonical _ Hp)).
  rewrite (canonical_path_fixed _ Hs).
  destruct (fs (canonical_path filepath)) as [c|]; [|reflexivity].
  cbv zeta.
  destruct (find_int "Category.0.Id" c) as [id|];
    [destruct (in_range id 170 180); [reflexivity|];
     destruct (in_range id 1000 1100); [reflexivity|] |];
    destruct (find_string "Cntr.1.file" c); reflexivity.
Qed.

(** C6 (as amended): for a path without a carrier prefix that ends in
    [_L.rck] or [_P.rck], in which that suffix text occurs at the end only
    and whose un-suffixed name carries no orientation suffix of its own,
    classifying the path and classifying the un-suffixed name give the same
    kind, or both fail: the suffix is taken off before the file is looked
    for and read. *)
Theorem C6_orientation_suffix (fs : filesystem) (stem suffix : string) :
  suffix = "_L.rck" \/ suffix = "_P.rck" ->
  carrier_prefixed (basename (stem ++ suffix)) = false ->
  occurs_only_at_end suffix (stem ++ suffix) ->
  orientation_suffixed (stem ++ ".rck") = false ->
  canonical_path (stem ++ suffix) = stem ++ ".rck"
  /\ classification (get_resource_type fs (stem ++ suffix))
     = classification (get_resource_type fs (stem ++ ".rck")).
Proof.
  intros Hs Hp Honly Hun.
  pose proof (canonical_path_unsuffixed stem suffix Hs Honly) as Ec.
  split; [exact Ec|]. rewrite <- Ec.
  apply classification_of_canonical; [exact Hp | now rewrite Ec].
Qed.

End Properties.

(** * The parsers at work on the demonstration files *)

(** The four prefixes, each on a file name of the demonstration set. *)
Lemma C5_witness :
  Run.get_resource_type Demo.files "labware/PLT_CAR_L5AC_A00.rck"
  = Ok "PlateCarrier"
  /\ Run.get_resource_type Demo.files "labware/TIP_CAR_480_A00.rck"
     = Ok "TipCarrier"
  /\ Run.get_resource_type Demo.files "labware/MFX_CAR_L5_base.rck"
     = Ok "MFXCarrier"
  /\ Run.get_resource_type Demo.files "labware/SMP_CAR_32_A00.rck"
     = Raise (ValueError "SMP_CAR_ not supported yet").
Proof.
  pose proof (C5_carrier_prefixes Ex.find_int Ex.find_string Demo.files) as H.
  split; [|split; [|split]].
  - apply (proj1 (H _)). reflexivity.
  - apply (proj1 (proj2 (H _))). reflexivity.
  - apply (proj1 (proj2 (proj2 (H _)))). reflexivity.
  - apply (proj2 (proj2 (proj2 (H _)))). reflexivity.
Defined.

(** A missing canonical file, a category in the plate range, and a file
    that matches no rule. *)
Lemma C3_witness :
  Run.get_resource_type Demo.files "labware/MyTips_L.rck" = Ok "TipRack"
  /\ Run.get_resource_type Demo.files "labware/Demo_96_L.rck" = Ok "Plate"
  /\ Run.get_resource_type Demo.files "labware/OddTips.rck"
     = Raise (ValueError "Unknown resource type for file OddTips.rck").
Proof.
  pose proof (C3_classification_by_content Ex.find_int Ex.find_string
                Demo.files) as H.
  split; [|split].
  - apply (H "labware/MyTips_L.rck"); reflexivity.
  - destruct (H "labware/Demo_96_L.rck" eq_refl) as [_ Hc].
    destruct (Hc Demo.plate_rck eq_refl) as (_ & Hplate & _).
    apply (Hplate 1005); [reflexivity | lia].
  - destruct (H "labware/OddTips.rck" eq_refl) as [_ Hc].
    destruct (Hc Demo.odd_tips_rck eq_refl) as (_ & _ & Hno).
    destruct Hno as [_ Hunknown]; [intros id Hid; discriminate Hid|].
    apply (Hunknown (Ex.not_found "Cntr.1.file")). reflexivity.
Defined.

(** The demonstration plate: two segments, [3.14*h*h] up to 10.0 on top of
    [2*h] up to 5.0. *)
Lemma C1_witness :
  Run.create_plate_for_writing Demo.files "labware/Demo_96.rck" None
  = Ok (mkPlate "Demo_96" 127 86 14 12 8
          (mkWellGrid 12 8 10.5 7.5 (Float 1) 9 9 7 7 15 V CIRCLE)
          10 "Demo_96",
        "Demo_96",
        "volume = 2*min(h, 5.0)" ++ nl
        ++ "if h <= 10.0:" ++ nl
        ++ "  volume += 3.14*(h-5.0)*(h-5.0)" ++ nl
        ++ "if h > 15.0:" ++ nl
        ++ "  raise ValueError(f" ++ dquote
        ++ "Height {h} is too large for Demo_96" ++ dquote ++ ")" ++ nl
        ++ "return volume")
  /\ Forall2 (segment_at Ex.find_float Ex.find_string Demo.plate_ctr)
       (range_down 2) [("2*h", 5%float); ("3.14*h*h", 10%float)]
  /\ volume_function Ex.find_float Ex.find_string Ex.str_float
       Demo.plate_ctr "Demo_96" 2
     = Ok (volume_text Ex.str_float
             [("2*h", 5%float); ("3.14*h*h", 10%float)] "Demo_96").
Proof.
  assert (HP : Forall2
                 (segment_at Ex.find_float Ex.find_string Demo.plate_ctr)
                 (range_down 2) [("2*h", 5%float); ("3.14*h*h", 10%float)])
    by (repeat constructor).
  split; [vm_compute; reflexivity|]. split; [exact HP|].
  exact (proj1 (C1_volume_function_text Ex.find_int Ex.find_float
                  Ex.find_string Ex.round Ex.str_float
                  Demo.files "labware/Demo_96.rck" None)
           Demo.plate_ctr "Demo_96" 2 _ HP).
Defined.

(** The corner coordinates of the plate whose row pitch is corrected. *)
Lemma C4_witness :
  exists c c2 bndry_x bndry_y pitch_x pitch_y item_x item_y,
    Demo.files "labware/Cos_96_ProtCryst.rck" = Some c
    /\ Demo.files "labware/Cos_96_Post.ctr" = Some c2
    /\ Ex.find_float "BndryX" c = Found bndry_x
    /\ Ex.find_float "BndryY" c = Found bndry_y
    /\ Ex.find_float "Dx" c = Found pitch_x
    /\ Ex.find_float "Dy" c = Found pitch_y
    /\ Ex.find_float "Dim.Dx" c2 = Found item_x
    /\ Ex.find_float "Dim.Dy" c2 = Found item_y
    /\ 10.5%float = corner_by_cell_pitch Ex.round bndry_x pitch_x pitch_x item_x
    /\ 9.75%float = corner_by_cell_pitch Ex.round bndry_y pitch_y 9 item_y
    /\ 9%float = pitch_x
    /\ 9%float = placement_pitch_y "Cos_96_ProtCryst" pitch_y.
Proof.
  exact (C4_corner_coordinates Ex.find_int Ex.find_float Ex.find_string
           Ex.round Ex.str_float Demo.files "labware/Cos_96_ProtCryst.rck" None
           (mkPlate "Cos_96_ProtCryst" 127 86 14 12 8
              (mkWellGrid 12 8 10.5 9.75 (Float 1) 9 9 7 7 15 V CIRCLE)
              10 "Cos_96_ProtCryst")
           "Cos_96_ProtCryst"
           (volume_text Ex.str_float
              [("2*h", 5%float); ("3.14*h*h", 10%float)] "Cos_96_ProtCryst")
           eq_refl).
Defined.

(** C4 as the specification words it fails on the demonstration plate: the
    boundary is 14.0, the cell pitch 9.0 and the item size 7.0; the parser
    places the grid at 10.5, the formula with half the item size gives
    11.5. *)
Lemma C4_counterexample :
  exists plate desc vol,
    Run.create_plate_for_writing Demo.files "labware/Demo_96.rck" None
    = Ok (plate, desc, vol)
    /\ Ex.find_float "BndryX" Demo.plate_rck = Found 14%float
    /\ Ex.find_float "Dx" Demo.plate_rck = Found 9%float
    /\ Ex.find_float "Dim.Dx" Demo.plate_ctr = Found 7%float
    /\ wells_dx (plate_items plate) = 10.5%float
    /\ corner_by_item_size Ex.round 14 9 7 = 11.5%float
    /\ wells_dx (plate_items plate) <> corner_by_item_size Ex.round 14 9 7.
Proof.
  do 3 eexists. split; [vm_compute; reflexivity|].
  repeat (split; [reflexivity|]).
  intros E. apply (f_equal Prim2SF) in E. vm_compute in E. discriminate E.
Qed.

(** The corrected row pitch of [Cos_96_ProtCryst]. *)
Lemma C8_witness :
  exists c well_dx well_dy,
    Demo.files "labware/Cos_96_ProtCryst.rck" = Some c
    /\ Ex.find_float "Dx" c = Found well_dx
    /\ Ex.find_float "Dy" c = Found well_dy
    /\ ("Cos_96_ProtCryst" = "Cos_96_ProtCryst" ->
        PrimFloat.eqb well_dy 4.5 = true -> 9%float = 9%float)
    /\ ("Cos_96_ProtCryst" <> "Cos_96_ProtCryst"
        \/ PrimFloat.eqb well_dy 4.5 = false -> 9%float = well_dy)
    /\ 9%float = well_dx.
Proof.
  exact (C8_row_pitch_correction Ex.find_int Ex.find_float Ex.find_string
           Ex.round Ex.str_float Demo.files "labware/Cos_96_ProtCryst.rck" None
           (mkPlate "Cos_96_ProtCryst" 127 86 14 12 8
              (mkWellGrid 12 8 10.5 9.75 (Float 1) 9 9 7 7 15 V CIRCLE)
              10 "Cos_96_ProtCryst")
           "Cos_96_ProtCryst"
           (volume_text Ex.str_float
              [("2*h", 5%float); ("3.14*h*h", 10%float)] "Cos_96_ProtCryst")
           eq_refl).
Defined.

(** A rack whose tip type is found under [PropertyValue.4], and a rack
    whose tip type is not in the catalog. *)
Lemma C7_witness :
  (exists c tip_type,
     Demo.files "labware/4mlTF.rck" = Some c
     /\ (Ex.find_string "PropertyValue.6" c = Found tip_type
         \/ ((exists msg, Ex.find_string "PropertyValue.6" c = Missing msg)
             /\ Ex.find_string "PropertyValue.4" c = Found tip_type))
     /\ In tip_type tip_type_names
     /\ tip_table tip_type = Some four_ml_tip_with_filter)
  /\ Run.create_tip_rack_for_writing Demo.files "labware/OddTips.rck"
     = Raise (KeyError "MlStar50ulTip").
Proof.
  split.
  - exact (proj1 (C7_tip_type_fallback Ex.find_int Ex.find_float
                    Ex.find_string Ex.round Demo.files "labware/4mlTF.rck")
             (mkTipRack "FourmlTF" 122.5 82.5 7
                (mkTipSpotGrid 6 4 16 14 1.5 18 18 18 18 7
                   four_ml_tip_with_filter)
                "FourmlTF")
             "tips" eq_refl).
  - refine (proj2 (proj2 (C7_tip_type_fallback Ex.find_int Ex.find_float
                            Ex.find_string Ex.round Demo.files
                            "labware/OddTips.rck")
                     Demo.odd_tips_rck "MlStar50ulTip" eq_refl
                     (or_introl eq_refl) _)
              122.5%float 82.5%float 7%float eq_refl eq_refl eq_refl).
    simpl. intros H.
    repeat (destruct H as [H|H]; [discriminate H|]). exact H.
Defined.

(** A renamed plate, and an exception passed on. *)
Lemma C9_witness :
  (exists plate',
     create_plate Ex.find_int Ex.find_float Ex.find_string Ex.round
       Ex.str_float Demo.files "labware/Demo_96.rck" "plate_01" None
     = Ok plate'
     /\ plate_renamed
          (mkPlate "Demo_96" 127 86 14 12 8
             (mkWellGrid 12 8 10.5 7.5 (Float 1) 9 9 7 7 15 V CIRCLE)
             10 "Demo_96")
          plate' "plate_01")
  /\ create_tip_rack Ex.find_int Ex.find_float Ex.find_string Ex.round
       Demo.files "labware/OddTips.rck" "tips_01"
     = Raise (KeyError "MlStar50ulTip").
Proof.
  pose proof (C9_public_entry_points Ex.find_int Ex.find_float Ex.find_string
                Ex.round Ex.str_float Demo.files) as H.
  split.
  - destruct (H "labware/Demo_96.rck" "plate_01" None) as [[Hok _] _].
    exact (Hok _ "Demo_96"
             (volume_text Ex.str_float
                [("2*h", 5%float); ("3.14*h*h", 10%float)] "Demo_96")
             eq_refl).
  - destruct (H "labware/OddTips.rck" "tips_01" None) as (_ & [_ Hraise] & _).
    exact (Hraise _ eq_refl).
Defined.

(** The two demonstration carriers differ in the width of site 1 only. *)
Lemma demo_carriers_same (c1 c2 : string) :
  (c1 = Demo.plt_car /\ c2 = Demo.plt_car')
  \/ (c1 = Demo.mfx_car /\ c2 = Demo.mfx_car') ->
  same_but_lower_site_sizes Ex.find_int Ex.find_float Ex.find_string c1 c2 2.
Proof.
  intros H.
  assert (Hi : forall i P, (1 <= i <= 2 -> P 1 -> P 2 -> P i)).
  { intros i P Hr P1 P2.
    destruct (Z.eq_dec i 1) as [->|]; [exact P1|].
    replace i with 2 by lia. exact P2. }
  unfold same_but_lower_site_sizes, same_site_coordinates,
    lower_site_sizes_readable.
  destruct H as [[-> ->] | [-> ->]].
  all: split; [intros i Hr; pattern i; apply (Hi i); [exact Hr | | ];
               vm_compute; repeat split|].
  all: split; [intros i Hr; replace i with 1 by lia;
               split; eexists; vm_compute; reflexivity|].
  all: split; [intros i Hr; replace i with 1 by lia;
               split; eexists; vm_compute; reflexivity|].
  all: split; [reflexivity|]. 
  all: split; [reflexivity|].
  all: split; [intros i Hr;
               destruct (Z.eq_dec i 0) as [->|]; [reflexivity|];
               replace i with 1 by lia; reflexivity|].
  all: repeat split.
Defined.


(** A portrait file name and its un-suffixed name. *)
Lemma C6_witness :
  canonical_path ("labware/Demo_96" ++ "_P.rck") = "labware/Demo_96" ++ ".rck"
  /\ classification
       (Run.get_resource_type Demo.files ("labware/Demo_96" ++ "_P.rck"))
     = classification
         (Run.get_resource_type Demo.files ("labware/Demo_96" ++ ".rck")).
Proof.
  apply (C6_orientation_suffix Ex.find_int Ex.find_string Demo.files
           "labware/Demo_96" "_P.rck").
  - right. reflexivity.
  - reflexivity.
  - apply occurs_only_at_end_index. reflexivity.
  - reflexivity.
Defined.

(** C6 as the specification words it fails on a name with two orientation
    suffixes: [x_L_L.rck] is classified by the contents of [x_L.rck], a
    plate, while [x_L.rck], its name with the suffix stripped, is classified
    by the absence of [x.rck] as a tip rack. *)
Lemma C6_counterexample :
  carrier_prefixed (basename "labware/x_L_L.rck") = false
  /\ endswith "labware/x_L_L.rck" "_L.rck" = true
  /\ strip_orientation "labware/x_L_L.rck" = "labware/x_L.rck"
  /\ Run.get_resource_type Demo.files "labware/x_L_L.rck" = Ok "Plate"
  /\ Run.get_resource_type Demo.files (strip_orientation "labware/x_L_L.rck")
     = Ok "TipRack".
Proof. repeat split. Qed.

(** C2: on the multiflex demonstration file, site 1 (at y = 10.0) is not
    visible and site 2 (at y = 60.0) is visible, yet the parser keeps site 1
    and drops site 2: the flag is looked up under the position the site has
    in the sorted list, counted from 0, not under the index of the site.
    Without a visibility record numbered 0 the lookup for the first position
    fails and no carrier is returned. *)
Theorem C2_flex_visibility_by_position :
  Ex.find_float "Site.1.Y" Demo.mfx_car = Found 10%float
  /\ Ex.find_float "Site.2.Y" Demo.mfx_car = Found 60%float
  /\ Ex.find_int "Site.1.Visible" Demo.mfx_car = Found 0
  /\ Ex.find_int "Site.2.Visible" Demo.mfx_car = Found 1
  /\ Run.create_flex_carrier_for_writing Demo.files
       "labware/MFX_CAR_L5_base.rck"
     = Ok (mkCarrier MFXCarrier "MFX_CAR_L5_base" 135 497 130
             [ mkCarrierSite (mkCoordinate 4 10 1) 127 86 ]
             "MFX_CAR_L5_base",
           "carrier")
  /\ Run.create_flex_carrier_for_writing Demo.files
       "labware/MFX_CAR_L4_base.rck"
     = Raise (ValueError "Could not find Site.0.Visible").
Proof. repeat split. Qed.

(** * Further properties of the parsers *)

Section FurtherProperties.

Variable find_int : string -> string -> lookup Z.
Variable find_float : string -> string -> lookup float.
Variable find_string : string -> string -> lookup string.
Variable round : float -> Z -> float.
Variable str_float : float -> string.

Local Abbreviation get_resource_type := (get_resource_type find_int find_string).
Local Abbreviation create_plate_for_writing :=
  (create_plate_for_writing find_int find_float find_string round str_float).
Local Abbreviation volume_function :=
  (volume_function find_float find_string str_float).
Local Abbreviation create_tip_rack_for_writing :=
  (create_tip_rack_for_writing find_int find_float find_string round).
Local Abbreviation create_plate_carrier_for_writing :=
  (create_plate_carrier_for_writing find_float find_string).
Local Abbreviation create_tip_carrier_for_writing :=
  (create_tip_carrier_for_writing find_float find_string).
Local Abbreviation create_flex_carrier_for_writing :=
  (create_flex_carrier_for_writing find_int find_float find_string).
Local Abbreviation read_sites := (read_sites find_float).
Local Abbreviation assemble_carrier := (assemble_carrier find_float find_string).
Local Abbreviation visible_sites := (visible_sites find_int).
Local Abbreviation coordinate_at := (coordinate_at find_float).

(** *** The classifier *)


(** *** Plates *)

Lemma first_piece_no_separator (d : ascii) (s : string) :
  has_char d (fst (split_from (String d EmptyString) O s)) = false.
Proof.
  induction s as [|a s IH]; [reflexivity|].
  cbn [split_from prefix].
  destruct (ascii_dec d a) as [->|N].
  - destruct s; reflexivity.
  - destruct (split_from (String d EmptyString) O s) as [p ps].
    cbn [fst has_char] in *. rewrite IH, orb_false_r.
    apply Ascii.eqb_neq. congruence.
Qed.

Lemma first_piece_no_slash (d : ascii) (s : string) :
  has_slash s = false ->
  has_slash (fst (split_from (String d EmptyString) O s)) = false.
Proof.
  induction s as [|a s IH]; [reflexivity|].
  cbn [has_slash]. intros H. apply orb_false_elim in H. destruct H as [Ha Hs].
  cbn [split_from prefix].
  destruct (ascii_dec d a) as [->|N].
  - destruct s; reflexivity.
  - destruct (split_from (String d EmptyString) O s) as [p ps].
    cbn [fst has_slash] in *. now rewrite Ha, (IH Hs).
Qed.

Lemma basename_has_no_slash (p : string) : has_slash (basename p) = false.
Proof.
  induction p as [|a p IH]; [reflexivity|]. cbn [basename].
  destruct (has_slash p) eqn:Hs; [exact IH|].
  destruct (Ascii.eqb a "/") eqn:Ha; [exact Hs|].
  cbn [has_slash]. now rewrite Ha, Hs.
Qed.

(** The stem of a path has neither a dot nor a slash in it. *)
Lemma stem_is_clean (filepath : string) :
  has_char "." (stem filepath) = false /\ has_slash (stem filepath) = false.
Proof.
  unfold stem, split.
  pose proof (first_piece_no_separator "." (basename filepath)) as Hd.
  pose proof (first_piece_no_slash "." (basename filepath)
                (basename_has_no_slash filepath)) as Hs.
  destruct (split_from "." O (basename filepath)) as [p ps].
  split; assumption.
Qed.

(** The plate is named after its file: name, model and description are the
    stem of the [.rck] path, which holds no dot and no slash; the lid is 10
    high and the grid has the columns and rows of the plate. *)
Theorem plate_named_after_file (fs : filesystem) (filepath : string)
    (ctr_filepath : option string) (plate : Plate) (desc vol : string) :
  create_plate_for_writing fs filepath ctr_filepath = Ok (plate, desc, vol) ->
  plate_name plate = stem filepath
  /\ plate_model plate = stem filepath
  /\ desc = stem filepath
  /\ has_char "." (plate_name plate) = false
  /\ has_slash (plate_name plate) = false
  /\ plate_lid_height plate = 10
  /\ (exists c,
        fs filepath = Some c
        /\ find_int "Columns" c = Found (plate_num_items_x plate)
        /\ find_int "Rows" c = Found (plate_num_items_y plate))
  /\ wells_num_items_x (plate_items plate) = plate_num_items_x plate
  /\ wells_num_items_y (plate_items plate) = plate_num_items_y plate.
Proof.
  intros H. apply create_plate_for_writing_ok in H.
  destruct H as (c & c2 & sx & sy & sz & nx & ny & wdx & wdy & bx & by_ & ns
                 & wsx & wsy & bc & cc & wsz & H).
  decompose [and] H; clear H. subst plate desc. cbn.
  destruct (stem_is_clean filepath) as [Hd Hs].
  repeat (split; [first [reflexivity | assumption]|]).
  split; [exists c; repeat split; assumption|]. split; reflexivity.
Qed.

(** The outline of the plate is read from the [.rck] file and the size of a
    well from the [.ctr] file, both under the keys [Dim.Dx] and [Dim.Dy];
    the depth of a well is [Depth], and its base height is [BaseMM] when the
    [.ctr] file has it and the integer 0 when it has not. *)
Theorem plate_and_well_sizes (fs : filesystem) (filepath : string)
    (ctr_filepath : option string) (plate : Plate) (desc vol : string) :
  create_plate_for_writing fs filepath ctr_filepath = Ok (plate, desc, vol) ->
  exists c c2,
    fs filepath = Some c
    /\ fs (ctr_path filepath ctr_filepath) = Some c2
    /\ find_float "Dim.Dx" c = Found (plate_size_x plate)
    /\ find_float "Dim.Dy" c = Found (plate_size_y plate)
    /\ find_float "Dim.Dz" c = Found (plate_size_z plate)
    /\ find_float "Dim.Dx" c2 = Found (wells_size_x (plate_items plate))
    /\ find_float "Dim.Dy" c2 = Found (wells_size_y (plate_items plate))
    /\ find_float "Depth" c2 = Found (wells_size_z (plate_items plate))
    /\ (forall v, find_float "BaseMM" c2 = Found v ->
                  wells_dz (plate_items plate) = Float v)
    /\ (forall msg, find_float "BaseMM" c2 = Missing msg ->
                    wells_dz (plate_items plate) = Int 0).
Proof.
  intros H. apply create_plate_for_writing_ok in H.
  destruct H as (c & c2 & sx & sy & sz & nx & ny & wdx & wdy & bx & by_ & ns
                 & wsx & wsy & bc & cc & wsz & H).
  decompose [and] H; clear H. subst plate desc. cbn.
  exists c, c2. repeat (split; [assumption|]).
  split; intros ? E; now rewrite E.
Qed.

(** The bottom of a well is classified by the shape code of the last
    segment and its cross-section by the shape code of the first one: codes
    0 and 1 give a flat bottom, 3 and 5 a V, 4 a U, every other code the
    unknown bottom; code 1 gives a rectangular cross-section and every
    other code a circle.  No shape code makes the parser fail. *)
Theorem well_shape_codes (fs : filesystem) (filepath : string)
    (ctr_filepath : option string) (plate : Plate) (desc vol : string) :
  create_plate_for_writing fs filepath ctr_filepath = Ok (plate, desc, vol) ->
  exists c2 num_segments bottom_code cross_code,
    fs (ctr_path filepath ctr_filepath) = Some c2
    /\ find_int "Segments" c2 = Found num_segments
    /\ find_int (str_int num_segments ++ ".Shape") c2 = Found bottom_code
    /\ find_int "1.Shape" c2 = Found cross_code
    /\ (wells_bottom_type (plate_items plate) = FLAT
        <-> bottom_code = 0 \/ bottom_code = 1)
    /\ (wells_bottom_type (plate_items plate) = V
        <-> bottom_code = 3 \/ bottom_code = 5)
    /\ (wells_bottom_type (plate_items plate) = U <-> bottom_code = 4)
    /\ (wells_bottom_type (plate_items plate) = UNKNOWN
        <-> ~ In bottom_code [0; 1; 3; 4; 5])
    /\ (wells_cross_section_type (plate_items plate) = RECTANGLE
        <-> cross_code = 1)
    /\ (wells_cross_section_type (plate_items plate) = CIRCLE
        <-> cross_code <> 1).
Proof.
  intros H. apply create_plate_for_writing_ok in H.
  destruct H as (c & c2 & sx & sy & sz & nx & ny & wdx & wdy & bx & by_ & ns
                 & wsx & wsy & bc & cc & wsz & H).
  decompose [and] H; clear H. subst plate desc. cbn.
  exists c2, ns, bc, cc. repeat (split; [assumption|]).
  unfold well_bottom_type_of, cross_section_type_of. cbn [In].
  assert (Hb : bc = 0 \/ bc = 1 \/ bc = 3 \/ bc = 4 \/ bc = 5
               \/ (bc <> 0 /\ bc <> 1 /\ bc <> 3 /\ bc <> 4 /\ bc <> 5)) by lia.
  assert (Hc : cc = 0 \/ cc = 1 \/ (cc <> 0 /\ cc <> 1)) by lia.
  repeat split; intros;
    repeat match goal with
      | H : _ \/ _ |- _ => destruct H
      | H : _ /\ _ |- _ => destruct H
      end;
    subst; cbn in *;
    repeat match goal with
      | H : ?a <> ?b |- context [?a =? ?b] =>
          rewrite (proj2 (Z.eqb_neq a b) H) in *
      | H : ?a <> ?b, H' : context [?a =? ?b] |- _ =>
          rewrite (proj2 (Z.eqb_neq a b) H) in H'
      end;
    try discriminate; try reflexivity; try lia; try tauto;
    try (intros [E|[E|[E|[E|[E|[]]]]]]; lia).
Qed.

Lemma field_raise {A : Type} (l : lookup A) (e : exn) :
  field l = Raise e -> exists msg, e = ValueError msg.
Proof. destruct l; simpl; intros H; [discriminate|]. injection H as <-. eauto. Qed.

Lemma read_file_raise (fs : filesystem) (path : string) (e : exn) :
  read_file fs path = Raise e -> e = FileNotFoundError path.
Proof. unfold read_file. destruct (fs path); congruence. Qed.

(** Peels the binds of a computation known to return, as in the first
    part. *)
Ltac steps_ok H :=
  repeat match type of H with
    | bind ?c _ = Ok _ =>
        let E := fresh "E" in
        destruct c eqn:E; cbn [bind] in H; [|discriminate H];
        try apply field_ok in E; try apply read_file_ok in E
    end.

(** Peels the binds of a computation known to raise: the step that raised
    is left as an equation [E], the steps before it are dropped. *)
Ltac bind_raise H :=
  repeat match type of H with
    | bind ?c _ = Raise _ =>
        let E := fresh "E" in
        destruct c eqn:E; cbn [bind] in H;
        [clear E | injection H as <-; try apply field_raise in E]
    | (let _ := _ in _) = Raise _ => cbv zeta in H
    end.

Lemma segment_loop_raise (c2 : string) (num_segments : Z) (indices : list Z) :
  forall st e,
    for_each indices st
      (segment_step find_float find_string str_float c2 num_segments)
    = Raise e ->
    exists msg, e = ValueError msg.
Proof.
  induction indices as [|i indices IH]; intros st e H; [discriminate|].
  cbn [for_each] in H.
  destruct (segment_step find_float find_string str_float c2 num_segments st i)
    as [st'|e'] eqn:Es; cbn [bind] in H.
  - now apply IH in H.
  - injection H as <-. unfold segment_step in Es. destruct st as [text h].
    bind_raise Es; try assumption. discriminate Es.
Qed.

Lemma volume_function_raise (c2 cname : string) (num_segments : Z) (e : exn) :
  volume_function c2 cname num_segments = Raise e ->
  exists msg, e = ValueError msg.
Proof.
  unfold volume_function. intros H.
  destruct (for_each (range_down num_segments) (EmptyString, Int 0)
              (segment_step find_float find_string str_float c2 num_segments))
    as [[text h]|e'] eqn:El; cbn [bind] in H; [discriminate|].
  injection H as <-. now apply segment_loop_raise in El.
Qed.


(** *** The path of the well definition *)

Lemma has_char_app (d : ascii) (a b : string) :
  has_char d (a ++ b) = has_char d a || has_char d b.
Proof.
  induction a as [|c a IH]; simpl; [reflexivity|]. now rewrite IH, orb_assoc.
Qed.

Lemma has_char_split (d : ascii) (u : string) :
  has_char d u = true ->
  exists u1 u2, u = u1 ++ String d u2 /\ has_char d u1 = false.
Proof.
  induction u as [|c u IH]; simpl; [discriminate|].
  destruct (Ascii.eqb c d) eqn:Ec; simpl; intros H.
  - apply Ascii.eqb_eq in Ec. subst c. exists EmptyString, u. now split.
  - destruct (IH H) as (u1 & u2 & -> & H1).
    exists (String c u1), u2. split; [reflexivity|]. simpl. now rewrite Ec.
Qed.

(** A text is cut at its first [d] in one way only. *)
Lemma first_char_unique (d : ascii) (a : string) :
  forall a' b b',
    has_char d a = false -> has_char d a' = false ->
    a ++ String d b = a' ++ String d b' -> a = a' /\ b = b'.
Proof.
  induction a as [|c a IH]; intros a' b b' Ha Ha' E.
  - destruct a' as [|c' a']; simpl in E.
    + injection E as E. now split.
    + injection E as E1 E2. subst c'. simpl in Ha'.
      now rewrite Ascii.eqb_refl in Ha'.
  - simpl in Ha. apply orb_false_elim in Ha. destruct Ha as [Hc Ha].
    destruct a' as [|c' a']; simpl in E.
    + injection E as E1 E2. subst c. now rewrite Ascii.eqb_refl in Hc.
    + injection E as E1 E2. subst c'. simpl in Ha'.
      apply orb_false_elim in Ha'. destruct Ha' as [_ Ha'].
      destruct (IH _ _ _ Ha Ha' E2) as [-> ->]. now split.
Qed.

Lemma append_inj_tail (u : string) :
  forall s a b,
    String.length a = String.length b -> u ++ a = s ++ b -> u = s /\ a = b.
Proof.
  induction u as [|c u IH]; intros s a b Hl E.
  - destruct s as [|c' s]; [now split|]. simpl in E.
    apply (f_equal String.length) in E. simpl in E.
    rewrite length_append in E. lia.
  - destruct s as [|c' s]; simpl in E.
    + apply (f_equal String.length) in E. simpl in E.
      rewrite length_append in E. lia.
    + injection E as -> E. destruct (IH _ _ _ Hl E) as [-> ->]. now split.
Qed.

(** In a text with one dot, a dotted text can only occur around that dot. *)
Lemma occurrence_at_dot (stem t1 t2 u o1 o2 v : string) :
  has_char "." stem = false -> has_char "." t1 = false ->
  has_char "." t2 = false -> has_char "." o1 = false ->
  stem ++ t1 ++ String "." t2 = u ++ (o1 ++ String "." o2) ++ v ->
  stem ++ t1 = u ++ o1 /\ t2 = o2 ++ v.
Proof.
  intros Hs H1 H2 Ho E.
  assert (Hl : has_char "." (stem ++ t1) = false)
    by now rewrite has_char_app, Hs, H1.
  rewrite <- append_assoc in E.
  destruct (has_char "." u) eqn:Hu.
  - exfalso. destruct (has_char_split _ _ Hu) as (u1 & u2 & -> & Hu1).
    rewrite !append_assoc in E. cbn [append] in E.
    rewrite <- (append_assoc stem t1) in E.
    destruct (first_char_unique _ _ _ _ _ Hl Hu1 E) as [_ E2].
    rewrite E2, !has_char_app in H2. cbn [has_char] in H2.
    rewrite Ascii.eqb_refl in H2. cbn in H2.
    now rewrite !orb_true_r in H2.
  - assert (Hr : u ++ (o1 ++ String "." o2) ++ v
                 = (u ++ o1) ++ String "." (o2 ++ v))
      by (rewrite !append_assoc; reflexivity).
    rewrite Hr in E.
    apply (first_char_unique "."%char); try assumption.
    now rewrite has_char_app, Hu, Ho.
Qed.

Lemma no_occurrence_replace (old new s : string) :
  no_occurrence old s -> replace old new s = s.
Proof.
  induction s as [|a s IH]; intros H; [reflexivity|].
  destruct (prefix old (String a s)) eqn:E.
  - exfalso. destruct (prefix_split _ _ E) as [t Et].
    apply (H EmptyString t). exact Et.
  - rewrite (replace_no_occurrence old new a s E). f_equal. apply IH.
    intros u v Huv. apply (H (String a u) v). cbn [append]. now f_equal.
Qed.

Section DotlessStem.

Variable stem : string.
Hypothesis stem_dotless : has_char "." stem = false.

Lemma no_other_suffix (t1 o1 t2 o2 : string) :
  has_char "." t1 = false -> has_char "." o1 = false ->
  has_char "." t2 = false ->
  (forall u, stem ++ t1 = u ++ o1 -> forall v, t2 = o2 ++ v -> False) ->
  no_occurrence (o1 ++ String "." o2) (stem ++ t1 ++ String "." t2).
Proof.
  intros H1 Ho H2 Hno u v E.
  destruct (occurrence_at_dot stem t1 t2 u o1 o2 v stem_dotless H1 H2 Ho E)
    as [Eu Ev].
  exact (Hno u Eu v Ev).
Qed.

Lemma only_suffix (t1 t2 : string) :
  has_char "." t1 = false -> has_char "." t2 = false ->
  occurs_only_at_end (t1 ++ String "." t2) (stem ++ t1 ++ String "." t2).
Proof.
  intros H1 H2 u v E.
  destruct (occurrence_at_dot stem t1 t2 u t1 t2 v stem_dotless H1 H2 H1 E)
    as [_ Ev].
  apply (f_equal String.length) in Ev. rewrite length_append in Ev.
  destruct v; [reflexivity | simpl in Ev; lia].
Qed.

Lemma stem_ctr_has_no_rck (o1 : string) :
  has_char "." o1 = false ->
  no_occurrence (o1 ++ ".rck") (stem ++ ".ctr").
Proof.
  intros Ho.
  apply (no_other_suffix EmptyString o1 "ctr" "rck"); try reflexivity;
    try assumption.
  intros u _ v Ev. destruct v; discriminate Ev.
Qed.

(** The [.rck] files of the two orientations lead to one [.ctr] file;
    so does the file without orientation suffix. *)
Lemma rck2ctr_landscape :
  rck2ctr (stem ++ "_L.rck") = replace "ProtCryst" "Post" (stem ++ ".ctr").
Proof.
  unfold rck2ctr.
  rewrite (no_occurrence_replace "_P.rck" ".ctr" (stem ++ "_L.rck")).
  - rewrite (replace_suffix_only "_L.rck" ".ctr");
      [|discriminate | reflexivity
       |apply (only_suffix "_L" "rck"); reflexivity].
    now rewrite (no_occurrence_replace ".rck" ".ctr" (stem ++ ".ctr"))
      by (apply (stem_ctr_has_no_rck EmptyString); reflexivity).
  - apply (no_other_suffix "_L" "_P" "rck" "rck"); try reflexivity.
    intros u Eu v _.
    destruct (append_inj_tail stem u "_L" "_P" eq_refl Eu) as [_ E].
    discriminate E.
Qed.

Lemma rck2ctr_portrait :
  rck2ctr (stem ++ "_P.rck") = replace "ProtCryst" "Post" (stem ++ ".ctr").
Proof.
  unfold rck2ctr.
  rewrite (replace_suffix_only "_P.rck" ".ctr");
    [|discriminate | reflexivity
     |apply (only_suffix "_P" "rck"); reflexivity].
  rewrite (no_occurrence_replace "_L.rck" ".ctr" (stem ++ ".ctr"))
    by (apply (stem_ctr_has_no_rck "_L"); reflexivity).
  now rewrite (no_occurrence_replace ".rck" ".ctr" (stem ++ ".ctr"))
    by (apply (stem_ctr_has_no_rck EmptyString); reflexivity).
Qed.

Lemma rck2ctr_plain :
  endswith stem "_L" = false -> endswith stem "_P" = false ->
  rck2ctr (stem ++ ".rck") = replace "ProtCryst" "Post" (stem ++ ".ctr").
Proof.
  intros HL HP. unfold rck2ctr.
  assert (Hno : forall o1, (o1 = "_L" \/ o1 = "_P") ->
                           no_occurrence (o1 ++ ".rck") (stem ++ ".rck")).
  { intros o1 Ho.
    apply (no_other_suffix EmptyString o1 "rck" "rck"); try reflexivity;
      [destruct Ho as [-> | ->]; reflexivity|].
    intros u Eu v _. cbn [append] in Eu. rewrite append_empty_r in Eu.
    destruct Ho as [-> | ->]; rewrite Eu in *;
      [rewrite (endswith_app u "_L" "_L" eq_refl) in HL; discriminate HL
      |rewrite (endswith_app u "_P" "_P" eq_refl) in HP; discriminate HP]. }
  rewrite (no_occurrence_replace "_P.rck" ".ctr" (stem ++ ".rck"))
    by (apply (Hno "_P"); auto).
  rewrite (no_occurrence_replace "_L.rck" ".ctr" (stem ++ ".rck"))
    by (apply (Hno "_L"); auto).
  now rewrite (replace_suffix_only ".rck" ".ctr");
    [|discriminate | reflexivity
     |apply (only_suffix EmptyString "rck"); reflexivity].
Qed.

End DotlessStem.

(** The two orientations of a plate share their well definition: when the
    path has no dot before its suffix, the [.ctr] path derived from the
    [_L.rck] file and from the [_P.rck] file is the same path, the stem
    followed by [.ctr] with [ProtCryst] rewritten to [Post]; the file
    without orientation suffix leads there too, unless its stem ends in
    [_L] or [_P]. *)
Theorem orientations_share_well_definition (stem : string) :
  has_char "." stem = false ->
  rck2ctr (stem ++ "_L.rck") = replace "ProtCryst" "Post" (stem ++ ".ctr")
  /\ rck2ctr (stem ++ "_P.rck") = rck2ctr (stem ++ "_L.rck")
  /\ (endswith stem "_L" = false -> endswith stem "_P" = false ->
      rck2ctr (stem ++ ".rck") = rck2ctr (stem ++ "_L.rck")).
Proof.
  intros H. rewrite (rck2ctr_landscape stem H), (rck2ctr_portrait stem H).
  split; [reflexivity|]. split; [reflexivity|].
  intros HL HP. exact (rck2ctr_plain stem H HL HP).
Qed.

(** The plate parser reads two files and no other: the [.rck] file and the
    [.ctr] file, which is the one given when a non-empty path is given and
    the derived one otherwise.  File systems that agree on these two paths
    give the same result. *)
Theorem plate_parser_reads_two_files (fs1 fs2 : filesystem)
    (filepath : string) (ctr_filepath : option string) :
  fs1 filepath = fs2 filepath ->
  fs1 (ctr_path filepath ctr_filepath) = fs2 (ctr_path filepath ctr_filepath) ->
  create_plate_for_writing fs1 filepath ctr_filepath
  = create_plate_for_writing fs2 filepath ctr_filepath
  /\ (forall a p, ctr_filepath = Some (String a p) ->
                  ctr_path filepath ctr_filepath = String a p)
  /\ (ctr_filepath = None \/ ctr_filepath = Some EmptyString ->
      ctr_path filepath ctr_filepath = rck2ctr filepath).
Proof.
  intros H1 H2. split; [|split].
  - unfold create_plate_for_writing.
    change (match ctr_filepath with
            | Some (String a p) => String a p
            | _ => rck2ctr filepath
            end) with (ctr_path filepath ctr_filepath).
    unfold read_file. now rewrite H1, H2.
  - intros a p ->. reflexivity.
  - intros [-> | ->]; reflexivity.
Qed.

(** A well definition that declares no segment gives a volume function
    made of the guard alone, for a total height of the integer 0. *)
Theorem volume_function_without_segments (c2 cname : string)
    (num_segments : Z) :
  num_segments < 1 ->
  volume_function c2 cname num_segments
  = Ok ("if h > 0:" ++ nl
        ++ "  raise ValueError(f" ++ dquote ++ "Height {h} is too large for "
        ++ cname ++ dquote ++ ")" ++ nl
        ++ "return volume").
Proof.
  intros H. unfold volume_function, range_down.
  replace (Z.to_nat num_segments) with O by lia.
  cbn [count_down for_each bind]. cbv zeta.
  cbn [append str_num]. unfold str_int. cbn.
  now rewrite !append_assoc.
Qed.

(** *** Tip racks *)

(** A tip rack is named after its file, with a leading 4 or 5 of the stem
    spelled out as [Four] or [Five]: the name never starts with either
    digit, the model is the name, and an empty stem gives no rack.  The
    description is the [Description] field of the file. *)
Theorem tip_rack_named_after_file (fs : filesystem) (filepath : string)
    (rack : TipRack) (desc : string) :
  create_tip_rack_for_writing fs filepath = Ok (rack, desc) ->
  rack_model rack = rack_name rack
  /\ stem filepath <> EmptyString
  /\ (forall rest, stem filepath = String "4" rest ->
                   rack_name rack = "Four" ++ rest)
  /\ (forall rest, stem filepath = String "5" rest ->
                   rack_name rack = "Five" ++ rest)
  /\ (forall a rest, stem filepath = String a rest ->
                     a <> "4"%char -> a <> "5"%char ->
                     rack_name rack = stem filepath)
  /\ startswith (rack_name rack) "4" = false
  /\ startswith (rack_name rack) "5" = false
  /\ (exists c, fs filepath = Some c
                /\ find_string "Description" c = Found desc).
Proof.
  unfold create_tip_rack_for_writing. intros H. steps_ok H. cbv zeta in H.
  steps_ok H. injection H as <- <-. cbn [rack_model rack_name].
  match goal with Hn : match head_char _ with _ => _ end = Ok _ |- _ =>
    rename Hn into Hname end.
  destruct (stem filepath) as [|ch rest] eqn:Es; [discriminate Hname|].
  cbn [head_char tail] in Hname.
  split; [reflexivity|]. split; [discriminate|].
  destruct (Ascii.eqb ch "4") eqn:Efour.
  - apply Ascii.eqb_eq in Efour. subst ch. injection Hname as <-.
    split; [intros r Hr; now injection Hr as <-|].
    split; [intros r Hr; discriminate Hr|].
    split; [intros b r Hr Hb; injection Hr as <- <-; now elim Hb|].
    split; [reflexivity|]. split; [reflexivity|]. eauto.
  - destruct (Ascii.eqb ch "5") eqn:Efive.
    + apply Ascii.eqb_eq in Efive. subst ch. injection Hname as <-.
      split; [intros r Hr; discriminate Hr|].
      split; [intros r Hr; now injection Hr as <-|].
      split; [intros b r Hr _ Hb; injection Hr as <- <-; now elim Hb|].
      split; [reflexivity|]. split; [reflexivity|]. eauto.
    + injection Hname as <-.
      split; [intros r Hr; injection Hr as -> _;
              rewrite Ascii.eqb_refl in Efour; discriminate Efour|].
      split; [intros r Hr; injection Hr as -> _;
              rewrite Ascii.eqb_refl in Efive; discriminate Efive|].
      split; [reflexivity|].
      unfold startswith. cbn [prefix].
      split; [|split].
      * destruct (ascii_dec "4" ch) as [<-|Hne]; [|reflexivity].
        rewrite Ascii.eqb_refl in Efour; discriminate Efour.
      * destruct (ascii_dec "5" ch) as [<-|Hne]; [|reflexivity].
        rewrite Ascii.eqb_refl in Efive; discriminate Efive.
      * eauto.
Qed.

(** The geometry of a tip rack: the outline is [Dim.Dx], [Dim.Dy],
    [Dim.Dz]; a tip spot is as wide and deep as the pitch [Dx], [Dy] and
    as high as the rack; the corner of the grid is the boundary minus half
    the pitch, rounded to 4 places, with no further correction; the grid
    has [Columns] by [Rows] spots at height [Cntr.1.base]. *)
Theorem tip_rack_geometry (fs : filesystem) (filepath : string)
    (rack : TipRack) (desc : string) :
  create_tip_rack_for_writing fs filepath = Ok (rack, desc) ->
  exists c tx ty bx by_,
    fs filepath = Some c
    /\ find_float "Dim.Dx" c = Found (rack_size_x rack)
    /\ find_float "Dim.Dy" c = Found (rack_size_y rack)
    /\ find_float "Dim.Dz" c = Found (rack_size_z rack)
    /\ find_float "Dx" c = Found tx
    /\ find_float "Dy" c = Found ty
    /\ find_float "BndryX" c = Found bx
    /\ find_float "BndryY" c = Found by_
    /\ spots_item_dx (rack_items rack) = tx
    /\ spots_item_dy (rack_items rack) = ty
    /\ spots_size_x (rack_items rack) = tx
    /\ spots_size_y (rack_items rack) = ty
    /\ spots_size_z (rack_items rack) = rack_size_z rack
    /\ spots_dx (rack_items rack) = round (bx - tx / 2)%float 4
    /\ spots_dy (rack_items rack) = round (by_ - ty / 2)%float 4
    /\ find_float "Cntr.1.base" c = Found (spots_dz (rack_items rack))
    /\ find_int "Columns" c = Found (spots_num_items_x (rack_items rack))
    /\ find_int "Rows" c = Found (spots_num_items_y (rack_items rack)).
Proof.
  unfold create_tip_rack_for_writing. intros H. steps_ok H. cbv zeta in H.
  steps_ok H. cbv zeta in H. steps_ok H. injection H as <- <-.
  cbn [rack_size_x rack_size_y rack_size_z rack_items spots_item_dx
       spots_item_dy spots_size_x spots_size_y spots_size_z spots_dx spots_dy
       spots_dz spots_num_items_x spots_num_items_y].
  do 5 eexists.
  repeat (split; [first [eassumption | reflexivity]|]); eassumption.
Qed.


(** *** Carriers *)

Lemma visible_sites_cons (c : string) (i : Z) (s : Coordinate)
    (sites : list Coordinate) :
  visible_sites c i (s :: sites)
  = (visible <- field (find_int ("Site." ++ str_int i ++ ".Visible") c) ;;
     rest <- visible_sites c (i + 1) sites ;;
     Ok (if visible =? 1 then s :: rest else rest)).
Proof. reflexivity. Qed.

Lemma carrier_parser_cases
    (klass : carrier_class) (marker : string)
    (parse : filesystem -> string -> result (Carrier * string))
    (P : carrier_class -> string
         -> (filesystem -> string -> result (Carrier * string)) -> Prop) :
  P PlateCarrier ("Site.Cnt" ++ SOH) create_plate_carrier_for_writing ->
  P TipCarrier ("Site.Cnt" ++ SOH) create_tip_carrier_for_writing ->
  P MFXCarrier ("Site.Cnt" ++ STX) create_flex_carrier_for_writing ->
  In (klass, marker, parse) (carrier_parsers find_int find_float find_string) ->
  P klass marker parse.
Proof.
  intros H1 H2 H3 [H|[H|[H|[]]]]; injection H as <- <- <-; assumption.
Qed.

(** What every carrier parser does, read off its three definitions: the
    file, the count, the loop over the sites, a selection among the sorted
    sites, and the assembly. *)
Lemma carrier_parser_steps
    (klass : carrier_class) (marker : string)
    (parse : filesystem -> string -> result (Carrier * string)) :
  In (klass, marker, parse) (carrier_parsers find_int find_float find_string) ->
  exists select : string -> list Coordinate -> result (list Coordinate),
    (forall c, select c [] = Ok [])
    /\ (forall c l e, select c l = Raise e -> exists msg, e = ValueError msg)
    /\ (forall c l kept, select c l = Ok kept -> incl kept l)
    /\ forall fs filepath,
        parse fs filepath
        = (c <- read_file fs filepath ;;
           site_count <- site_count_of marker c ;;
           st <- read_sites c site_count ;;
           sites <- select c (sorted_by_y (loop_sites st)) ;;
           assemble_carrier klass c filepath sites st).
Proof.
  apply (carrier_parser_cases klass marker parse
           (fun klass marker parse => exists select, _)).
  - exists (fun _ l => Ok l). split; [reflexivity|].
    split; [discriminate|]. split; [intros c l kept [= <-]; apply incl_refl|].
    reflexivity.
  - exists (fun _ l => Ok l). split; [reflexivity|].
    split; [discriminate|]. split; [intros c l kept [= <-]; apply incl_refl|].
    reflexivity.
  - exists (fun c l => visible_sites c 0 l). split; [reflexivity|]. split.
    + intros c l. generalize 0. induction l as [|s l IH]; intros i e H;
        [discriminate|].
      rewrite visible_sites_cons in H.
      destruct (field (find_int ("Site." ++ str_int i ++ ".Visible") c))
        eqn:E; cbn [bind] in H;
        [|injection H as <-; exact (field_raise _ _ E)].
      destruct (visible_sites c (i + 1) l) eqn:Er; cbn [bind] in H;
        [discriminate|]. injection H as <-. exact (IH _ _ Er).
    + split; [|reflexivity].
      intros c l. generalize 0. induction l as [|s l IH]; intros i kept H.
      * injection H as <-. apply incl_refl.
      * rewrite visible_sites_cons in H. steps_ok H. injection H as <-.
        match goal with Hr : visible_sites _ _ _ = Ok _ |- _ =>
          apply IH in Hr; rename Hr into Hincl end.
        destruct (_ =? 1).
        -- intros t [<-|Ht]; [now left | right; now apply Hincl].
        -- intros t Ht. right. now apply Hincl.
Qed.

(** Every carrier is named after its file and carries the class of its
    parser; its outline and description are the fields [Dim.Dx], [Dim.Dy],
    [Dim.Dz] and [Description] of the file. *)
Theorem carrier_named_after_file
    (klass : carrier_class) (marker : string)
    (parse : filesystem -> string -> result (Carrier * string))
    (fs : filesystem) (filepath : string) (carrier : Carrier)
    (desc : string) :
  In (klass, marker, parse) (carrier_parsers find_int find_float find_string) ->
  parse fs filepath = Ok (carrier, desc) ->
  carrier_klass carrier = klass
  /\ carrier_name carrier = stem filepath
  /\ carrier_model carrier = stem filepath
  /\ has_char "." (carrier_name carrier) = false
  /\ has_slash (carrier_name carrier) = false
  /\ exists c,
      fs filepath = Some c
      /\ find_float "Dim.Dx" c = Found (carrier_size_x carrier)
      /\ find_float "Dim.Dy" c = Found (carrier_size_y carrier)
      /\ find_float "Dim.Dz" c = Found (carrier_size_z carrier)
      /\ find_string "Description" c = Found desc.
Proof.
  intros Hin H.
  destruct (carrier_parser_steps _ _ _ Hin) as (select & _ & _ & _ & Hsteps).
  rewrite Hsteps in H. steps_ok H. unfold assemble_carrier in H.
  steps_ok H. cbv zeta in H. steps_ok H. injection H as <- <-.
  cbn [carrier_klass carrier_name carrier_model carrier_size_x carrier_size_y
       carrier_size_z].
  destruct (stem_is_clean filepath) as [Hd Hs].
  repeat (split; [first [reflexivity | assumption]|]).
  eexists. repeat (split; [eassumption|]). assumption.
Qed.

Lemma prefix_app (p t : string) : prefix p (p ++ t) = true.
Proof.
  induction p as [|a p IH]; [now destruct t|].
  cbn [append prefix]. now destruct (ascii_dec a a).
Qed.

Lemma split_no_occurrence (sep s : string) :
  no_occurrence sep s -> split sep s = [s].
Proof.
  unfold split. induction s as [|a s IH]; intros H; [reflexivity|].
  cbn [split_from]. destruct (prefix sep (String a s)) eqn:E.
  - exfalso. destruct (prefix_split _ _ E) as [t Et].
    apply (H EmptyString t). exact Et.
  - assert (Hs : no_occurrence sep s).
    { intros u v Huv. apply (H (String a u) v). cbn [append]. now f_equal. }
    specialize (IH Hs). destruct (split_from sep 0 s) as [p ps].
    now injection IH as -> ->.
Qed.

Lemma split_occurrence (sep u v : string) :
  sep <> EmptyString ->
  snd (split_from sep 0 (u ++ sep ++ v)) <> [].
Proof.
  intros Hsep. induction u as [|a u IH].
  - cbn [append]. destruct sep as [|b sep]; [contradiction|].
    cbn [append split_from].
    change (String b (sep ++ v)) with (String b sep ++ v).
    rewrite prefix_app.
    destruct (split_from (String b sep) (String.length (String b sep) - 1)
                (sep ++ v)).
    discriminate.
  - cbn [append split_from].
    destruct (prefix sep (String a (u ++ sep ++ v))).
    + destruct (split_from sep (String.length sep - 1) (u ++ sep ++ v)).
      discriminate.
    + destruct (split_from sep 0 (u ++ sep ++ v)). exact IH.
Qed.

(** The count of sites cannot be located exactly when the marker does not
    occur in the file. *)
Lemma site_count_without_marker (marker c : string) :
  marker <> EmptyString ->
  (no_occurrence marker c
   <-> site_count_of marker c = Raise (IndexError "list index out of range")).
Proof.
  intros Hm. unfold site_count_of. split.
  - intros H. now rewrite (split_no_occurrence _ _ H).
  - intros H u v ->. pose proof (split_occurrence marker u v Hm) as Hs.
    unfold split in H.
    destruct (split_from marker 0 (u ++ marker ++ v)) as [p [|q ps]];
      [now apply Hs|].
    cbn [nth_error] in H. destruct (int_of_str _); discriminate H.
Qed.

Lemma read_sites_raise (c : string) (indices : list Z) :
  forall st e,
    for_each indices st (site_step find_float c) = Raise e ->
    exists msg, e = ValueError msg.
Proof.
  induction indices as [|i indices IH]; intros st e H; [discriminate|].
  cbn [for_each] in H.
  destruct (site_step find_float c st i) as [st'|e'] eqn:Es; cbn [bind] in H.
  - now apply IH in H.
  - injection H as <-. unfold site_step in Es.
    bind_raise Es; try assumption. discriminate Es.
Qed.



(** The sites of a plate carrier or a tip carrier are all the sites of the
    file, 1 to the count, which is at least 1; they come in another order,
    that of non-decreasing y when no y is a nan. *)
Theorem plate_and_tip_carrier_sites (fs : filesystem) (filepath : string)
    (carrier : Carrier) (desc : string) :
  create_plate_carrier_for_writing fs filepath = Ok (carrier, desc)
  \/ create_tip_carrier_for_writing fs filepath = Ok (carrier, desc) ->
  exists c n coords,
    fs filepath = Some c
    /\ site_count_of ("Site.Cnt" ++ SOH) c = Ok n
    /\ 1 <= n
    /\ Forall2 (coordinate_at c) (range_up n) coords
    /\ Permutation (map site_location (carrier_sites carrier)) coords
    /\ List.length (carrier_sites carrier) = Z.to_nat n
    /\ (no_nan_y coords ->
        Sorted not_above (map site_location (carrier_sites carrier))).
Proof.
  intros H.
  destruct (carrier_sites_order find_int find_float find_string
              fs filepath carrier desc) as [Hpt _].
  destruct (Hpt H) as (c & n & coords & Hf & Hc & Hcoords & Hsites).
  exists c, n, coords.
  assert (Hlen : List.length (carrier_sites carrier) = Z.to_nat n).
  { rewrite <- (length_map site_location), Hsites, sorted_by_y_length.
    rewrite <- (Forall2_length Hcoords). unfold range_up.
    now rewrite length_map, length_seq. }
  assert (Hn : 1 <= n).
  { destruct (Z.lt_ge_cases n 1) as [Hlt|Hge]; [exfalso|exact Hge].
    assert (Hin : In (PlateCarrier, "Site.Cnt" ++ SOH,
                      create_plate_carrier_for_writing)
                     (carrier_parsers find_int find_float find_string)
                  /\ In (TipCarrier, "Site.Cnt" ++ SOH,
                         create_tip_carrier_for_writing)
                        (carrier_parsers find_int find_float find_string)).
    { split; [left; reflexivity | right; left; reflexivity]. }
    destruct Hin as [Hp Ht].
    destruct H as [H|H];
      [destruct (carrier_parser_steps _ _ _ Hp) as (sel & Hnil & _ & _ & Hsteps)
      |destruct (carrier_parser_steps _ _ _ Ht) as (sel & Hnil & _ & _ & Hsteps)];
      rewrite Hsteps in H; unfold read_file in H; rewrite Hf in H;
      cbn [bind] in H; rewrite Hc in H; cbn [bind] in H;
      unfold read_sites in H; rewrite (range_up_none n Hlt) in H;
      cbn [for_each bind loop_sites sorted_by_y] in H; rewrite Hnil in H;
      cbn [bind] in H; unfold assemble_carrier in H;
      cbn [loop_site_width loop_site_height local] in H;
      steps_ok H; discriminate H. }
  repeat (split; [assumption|]).
  split; [rewrite Hsites; apply sorted_by_y_permutation|].
  split; [exact Hlen|].
  intros Hnan. rewrite Hsites. now apply sorted_by_y_sorted.
Qed.

(** The sites of a multiflex carrier are sites of the file, at most the
    count of them; a flag [Site.k.Visible] is read for each position k from
    0 in the sorted list, so [Site.0.Visible] has to be there; when all
    these flags are 1 the carrier has all the sites of the file. *)
Theorem flex_carrier_sites (fs : filesystem) (filepath : string)
    (carrier : Carrier) (desc : string) :
  create_flex_carrier_for_writing fs filepath = Ok (carrier, desc) ->
  exists c n coords flags,
    fs filepath = Some c
    /\ site_count_of ("Site.Cnt" ++ STX) c = Ok n
    /\ 1 <= n
    /\ Forall2 (coordinate_at c) (range_up n) coords
    /\ List.length flags = Z.to_nat n
    /\ (forall k v, nth_error flags k = Some v ->
          find_int ("Site." ++ str_int (Z.of_nat k) ++ ".Visible") c = Found v)
    /\ (exists v, find_int "Site.0.Visible" c = Found v)
    /\ incl (map site_location (carrier_sites carrier)) coords
    /\ (List.length (carrier_sites carrier) <= Z.to_nat n)%nat
    /\ (Forall (fun v => v = 1) flags ->
        Permutation (map site_location (carrier_sites carrier)) coords).
Proof.
  intros H.
  destruct (carrier_sites_order find_int find_float find_string
              fs filepath carrier desc) as [_ Hflex].
  destruct (Hflex H) as (c & n & coords & kept & Hf & Hc & Hcoords & Hv & Hsites).
  destruct (visible_sites_by_position find_int _ _ _ _ Hv)
    as (flags & Hlen & Hflags & Hkept).
  assert (Hcount : List.length coords = Z.to_nat n).
  { rewrite <- (Forall2_length Hcoords). unfold range_up.
    now rewrite length_map, length_seq. }
  rewrite sorted_by_y_length, Hcount in Hlen.
  assert (Hn : 1 <= n).
  { destruct (Z.lt_ge_cases n 1) as [Hlt|Hge]; [exfalso|exact Hge].
    assert (Hin : In (MFXCarrier, "Site.Cnt" ++ STX,
                      create_flex_carrier_for_writing)
                     (carrier_parsers find_int find_float find_string)).
    { right; right; left; reflexivity. }
    destruct (carrier_parser_steps _ _ _ Hin) as (sel & Hnil & _ & _ & Hsteps).
    rewrite Hsteps in H. unfold read_file in H. rewrite Hf in H.
    cbn [bind] in H. rewrite Hc in H. cbn [bind] in H.
    unfold read_sites in H. rewrite (range_up_none n Hlt) in H.
    cbn [for_each bind loop_sites sorted_by_y] in H. rewrite Hnil in H.
    cbn [bind] in H. unfold assemble_carrier in H.
    cbn [loop_site_width loop_site_height local] in H.
    steps_ok H. discriminate H. }
  exists c, n, coords, flags.
  split; [exact Hf|]. split; [exact Hc|]. split; [exact Hn|].
  split; [exact Hcoords|]. split; [exact Hlen|]. split; [exact Hflags|].
  assert (Hsub : forall (l : list Coordinate) (fl : list Z),
            incl (map fst (filter (fun p : Coordinate * Z => (snd p =? 1)%Z)
                             (combine l fl))) l
            /\ (List.length (map fst (filter (fun p : Coordinate * Z => (snd p =? 1)%Z)
                                        (combine l fl)))
                <= List.length l)%nat).
  { induction l as [|s l IH]; intros fl.
    - split; [apply incl_refl | simpl; lia].
    - destruct fl as [|v fl]; [split; [intros t []| simpl; lia]|].
      destruct (IH fl) as [Hi Hl]. cbn [combine filter snd].
      destruct (v =? 1); cbn [map fst List.length].
      + split; [|lia]. intros t [<-|Ht]; [now left | right; now apply Hi].
      + split; [|lia]. intros t Ht. right. now apply Hi. }
  assert (Hall : forall (l : list Coordinate) (fl : list Z),
            List.length fl = List.length l ->
            Forall (fun v => v = 1) fl ->
            map fst (filter (fun p : Coordinate * Z => (snd p =? 1)%Z)
                       (combine l fl)) = l).
  { induction l as [|s l IH]; intros fl Hl Hone; [reflexivity|].
    destruct fl as [|v fl]; [discriminate Hl|].
    apply Forall_cons_iff in Hone. destruct Hone as [-> Hone].
    cbn [combine filter snd Z.eqb Pos.eqb map fst]. f_equal.
    apply IH; [now injection Hl | exact Hone]. }
  split.
  { destruct flags as [|v flags]; [simpl in Hlen; lia|].
    exists v. apply (Hflags O v). reflexivity. }
  rewrite <- (length_map site_location (carrier_sites carrier)).
  rewrite Hsites, Hkept.
  split.
  { intros t Ht. apply (proj1 (Hsub _ _)) in Ht.
    eapply Permutation_in; [apply sorted_by_y_permutation | exact Ht]. }
  split.
  { rewrite <- Hcount, <- (sorted_by_y_length coords).
    apply (proj2 (Hsub _ _)). }
  intros Hone. rewrite Hall; [apply sorted_by_y_permutation | | exact Hone].
  now rewrite sorted_by_y_length, Hcount.
Qed.

(** *** The catalog of tip racks *)

(** Each landscape rack of the catalog is its portrait partner turned by a
    quarter; both carry the name they are given and the same tips; a rack
    holds 24 of the large tips and 96 of the others. *)
Theorem catalog_orientations (portrait landscape : string -> TipRacks.Rack)
    (name : string) :
  In (portrait, landscape) orientation_pairs ->
  landscape name = transposed (portrait name)
  /\ TipRacks.name (portrait name) = name
  /\ TipRacks.name (landscape name) = name
  /\ TipRacks.size_x (portrait name) = TipRacks.size_y (landscape name)
  /\ capacity (landscape name) = capacity (portrait name)
  /\ capacity (portrait name)
     = (if large_tip (TipRacks.tip_type (portrait name)) then 24 else 96).
Proof.
  intros H. unfold orientation_pairs in H. cbn [In] in H.
  repeat (destruct H as [H|H]; [injection H as <- <-; repeat split|]).
  destruct H.
Qed.

End FurtherProperties.

(** The further properties on the sample files. *)

Lemma plate_named_after_file_witness :
  plate_name Sample.plate = stem "labware/Demo_96.rck"
  /\ plate_model Sample.plate = stem "labware/Demo_96.rck"
  /\ "Demo_96" = stem "labware/Demo_96.rck"
  /\ has_char "." (plate_name Sample.plate) = false
  /\ has_slash (plate_name Sample.plate) = false
  /\ plate_lid_height Sample.plate = 10
  /\ (exists c,
        Demo.files "labware/Demo_96.rck" = Some c
        /\ Ex.find_int "Columns" c = Found (plate_num_items_x Sample.plate)
        /\ Ex.find_int "Rows" c = Found (plate_num_items_y Sample.plate))
  /\ wells_num_items_x (plate_items Sample.plate)
     = plate_num_items_x Sample.plate
  /\ wells_num_items_y (plate_items Sample.plate)
     = plate_num_items_y Sample.plate.
Proof.
  exact (plate_named_after_file Ex.find_int Ex.find_float Ex.find_string
           Ex.round Ex.str_float Demo.files "labware/Demo_96.rck" None
           Sample.plate "Demo_96" Sample.volume eq_refl).
Defined.

Lemma plate_and_well_sizes_witness :
  exists c c2,
    Demo.files "labware/Demo_96.rck" = Some c
    /\ Demo.files (ctr_path "labware/Demo_96.rck" None) = Some c2
    /\ Ex.find_float "Dim.Dx" c = Found (plate_size_x Sample.plate)
    /\ Ex.find_float "Dim.Dy" c = Found (plate_size_y Sample.plate)
    /\ Ex.find_float "Dim.Dz" c = Found (plate_size_z Sample.plate)
    /\ Ex.find_float "Dim.Dx" c2
       = Found (wells_size_x (plate_items Sample.plate))
    /\ Ex.find_float "Dim.Dy" c2
       = Found (wells_size_y (plate_items Sample.plate))
    /\ Ex.find_float "Depth" c2
       = Found (wells_size_z (plate_items Sample.plate))
    /\ (forall v, Ex.find_float "BaseMM" c2 = Found v ->
                  wells_dz (plate_items Sample.plate) = Float v)
    /\ (forall msg, Ex.find_float "BaseMM" c2 = Missing msg ->
                    wells_dz (plate_items Sample.plate) = Int 0).
Proof.
  exact (plate_and_well_sizes Ex.find_int Ex.find_float Ex.find_string
           Ex.round Ex.str_float Demo.files "labware/Demo_96.rck" None
           Sample.plate "Demo_96" Sample.volume eq_refl).
Defined.

Lemma well_shape_codes_witness :
  exists c2 num_segments bottom_code cross_code,
    Demo.files (ctr_path "labware/Demo_96.rck" None) = Some c2
    /\ Ex.find_int "Segments" c2 = Found num_segments
    /\ Ex.find_int (str_int num_segments ++ ".Shape") c2 = Found bottom_code
    /\ Ex.find_int "1.Shape" c2 = Found cross_code
    /\ (wells_bottom_type (plate_items Sample.plate) = FLAT
        <-> bottom_code = 0 \/ bottom_code = 1)
    /\ (wells_bottom_type (plate_items Sample.plate) = V
        <-> bottom_code = 3 \/ bottom_code = 5)
    /\ (wells_bottom_type (plate_items Sample.plate) = U <-> bottom_code = 4)
    /\ (wells_bottom_type (plate_items Sample.plate) = UNKNOWN
        <-> ~ In bottom_code [0; 1; 3; 4; 5])
    /\ (wells_cross_section_type (plate_items Sample.plate) = RECTANGLE
        <-> cross_code = 1)
    /\ (wells_cross_section_type (plate_items Sample.plate) = CIRCLE
        <-> cross_code <> 1).
Proof.
  exact (well_shape_codes Ex.find_int Ex.find_float Ex.find_string
           Ex.round Ex.str_float Demo.files "labware/Demo_96.rck" None
           Sample.plate "Demo_96" Sample.volume eq_refl).
Defined.


Lemma orientations_share_well_definition_witness :
  rck2ctr ("labware/Cos_96_ProtCryst" ++ "_L.rck")
  = replace "ProtCryst" "Post" ("labware/Cos_96_ProtCryst" ++ ".ctr")
  /\ rck2ctr ("labware/Cos_96_ProtCryst" ++ "_P.rck")
     = rck2ctr ("labware/Cos_96_ProtCryst" ++ "_L.rck")
  /\ (endswith "labware/Cos_96_ProtCryst" "_L" = false ->
      endswith "labware/Cos_96_ProtCryst" "_P" = false ->
      rck2ctr ("labware/Cos_96_ProtCryst" ++ ".rck")
      = rck2ctr ("labware/Cos_96_ProtCryst" ++ "_L.rck")).
Proof.
  exact (orientations_share_well_definition "labware/Cos_96_ProtCryst"
           eq_refl).
Defined.

Lemma plate_parser_reads_two_files_witness :
  Run.create_plate_for_writing Demo.files "labware/Demo_96.rck" None
  = Run.create_plate_for_writing Sample.files "labware/Demo_96.rck" None
  /\ (forall a p, @None string = Some (String a p) ->
                  ctr_path "labware/Demo_96.rck" None = String a p)
  /\ (@None string = None \/ @None string = Some EmptyString ->
      ctr_path "labware/Demo_96.rck" None = rck2ctr "labware/Demo_96.rck").
Proof.
  exact (plate_parser_reads_two_files Ex.find_int Ex.find_float
           Ex.find_string Ex.round Ex.str_float Demo.files Sample.files
           "labware/Demo_96.rck" None eq_refl eq_refl).
Defined.

Lemma volume_function_without_segments_witness :
  volume_function Ex.find_float Ex.find_string Ex.str_float
    Demo.plate_ctr "Demo_96" 0
  = Ok ("if h > 0:" ++ nl
        ++ "  raise ValueError(f" ++ dquote ++ "Height {h} is too large for "
        ++ "Demo_96" ++ dquote ++ ")" ++ nl
        ++ "return volume").
Proof.
  exact (volume_function_without_segments Ex.find_float Ex.find_string
           Ex.str_float Demo.plate_ctr "Demo_96" 0 eq_refl).
Defined.

Lemma tip_rack_named_after_file_witness :
  rack_model Sample.rack = rack_name Sample.rack
  /\ stem "labware/4mlTF.rck" <> EmptyString
  /\ (forall rest, stem "labware/4mlTF.rck" = String "4" rest ->
                   rack_name Sample.rack = "Four" ++ rest)
  /\ (forall rest, stem "labware/4mlTF.rck" = String "5" rest ->
                   rack_name Sample.rack = "Five" ++ rest)
  /\ (forall a rest, stem "labware/4mlTF.rck" = String a rest ->
                     a <> "4"%char -> a <> "5"%char ->
                     rack_name Sample.rack = stem "labware/4mlTF.rck")
  /\ startswith (rack_name Sample.rack) "4" = false
  /\ startswith (rack_name Sample.rack) "5" = false
  /\ (exists c, Demo.files "labware/4mlTF.rck" = Some c
                /\ Ex.find_string "Description" c = Found "tips").
Proof.
  exact (tip_rack_named_after_file Ex.find_int Ex.find_float Ex.find_string
           Ex.round Demo.files "labware/4mlTF.rck" Sample.rack "tips"
           eq_refl).
Defined.

Lemma tip_rack_geometry_witness :
  exists c tx ty bx by_,
    Demo.files "labware/4mlTF.rck" = Some c
    /\ Ex.find_float "Dim.Dx" c = Found (rack_size_x Sample.rack)
    /\ Ex.find_float "Dim.Dy" c = Found (rack_size_y Sample.rack)
    /\ Ex.find_float "Dim.Dz" c = Found (rack_size_z Sample.rack)
    /\ Ex.find_float "Dx" c = Found tx
    /\ Ex.find_float "Dy" c = Found ty
    /\ Ex.find_float "BndryX" c = Found bx
    /\ Ex.find_float "BndryY" c = Found by_
    /\ spots_item_dx (rack_items Sample.rack) = tx
    /\ spots_item_dy (rack_items Sample.rack) = ty
    /\ spots_size_x (rack_items Sample.rack) = tx
    /\ spots_size_y (rack_items Sample.rack) = ty
    /\ spots_size_z (rack_items Sample.rack) = rack_size_z Sample.rack
    /\ spots_dx (rack_items Sample.rack) = Ex.round (bx - tx / 2)%float 4
    /\ spots_dy (rack_items Sample.rack) = Ex.round (by_ - ty / 2)%float 4
    /\ Ex.find_float "Cntr.1.base" c
       = Found (spots_dz (rack_items Sample.rack))
    /\ Ex.find_int "Columns" c
       = Found (spots_num_items_x (rack_items Sample.rack))
    /\ Ex.find_int "Rows" c
       = Found (spots_num_items_y (rack_items Sample.rack)).
Proof.
  exact (tip_rack_geometry Ex.find_int Ex.find_float Ex.find_string
           Ex.round Demo.files "labware/4mlTF.rck" Sample.rack "tips"
           eq_refl).
Defined.


Lemma carrier_named_after_file_witness :
  carrier_klass Sample.plate_carrier = PlateCarrier
  /\ carrier_name Sample.plate_carrier = stem "labware/PLT_CAR_L5AC_A00.rck"
  /\ carrier_model Sample.plate_carrier = stem "labware/PLT_CAR_L5AC_A00.rck"
  /\ has_char "." (carrier_name Sample.plate_carrier) = false
  /\ has_slash (carrier_name Sample.plate_carrier) = false
  /\ exists c,
      Demo.files "labware/PLT_CAR_L5AC_A00.rck" = Some c
      /\ Ex.find_float "Dim.Dx" c
         = Found (carrier_size_x Sample.plate_carrier)
      /\ Ex.find_float "Dim.Dy" c
         = Found (carrier_size_y Sample.plate_carrier)
      /\ Ex.find_float "Dim.Dz" c
         = Found (carrier_size_z Sample.plate_carrier)
      /\ Ex.find_string "Description" c = Found "carrier".
Proof.
  exact (carrier_named_after_file Ex.find_int Ex.find_float Ex.find_string
           PlateCarrier ("Site.Cnt" ++ SOH)
           Run.create_plate_carrier_for_writing
           Demo.files "labware/PLT_CAR_L5AC_A00.rck" Sample.plate_carrier
           "carrier" (or_introl eq_refl) eq_refl).
Defined.



Lemma plate_and_tip_carrier_sites_witness :
  exists c n coords,
    Demo.files "labware/PLT_CAR_L5AC_A00.rck" = Some c
    /\ site_count_of ("Site.Cnt" ++ SOH) c = Ok n
    /\ 1 <= n
    /\ Forall2 (coordinate_at Ex.find_float c) (range_up n) coords
    /\ Permutation (map site_location (carrier_sites Sample.plate_carrier))
         coords
    /\ List.length (carrier_sites Sample.plate_carrier) = Z.to_nat n
    /\ (no_nan_y coords ->
        Sorted not_above
          (map site_location (carrier_sites Sample.plate_carrier))).
Proof.
  exact (plate_and_tip_carrier_sites Ex.find_int Ex.find_float Ex.find_string
           Demo.files "labware/PLT_CAR_L5AC_A00.rck" Sample.plate_carrier
           "carrier" (or_introl eq_refl)).
Defined.

Lemma flex_carrier_sites_witness :
  exists c n coords flags,
    Demo.files "labware/MFX_CAR_L5_base.rck" = Some c
    /\ site_count_of ("Site.Cnt" ++ STX) c = Ok n
    /\ 1 <= n
    /\ Forall2 (coordinate_at Ex.find_float c) (range_up n) coords
    /\ List.length flags = Z.to_nat n
    /\ (forall k v, nth_error flags k = Some v ->
          Ex.find_int ("Site." ++ str_int (Z.of_nat k) ++ ".Visible") c
          = Found v)
    /\ (exists v, Ex.find_int "Site.0.Visible" c = Found v)
    /\ incl (map site_location (carrier_sites Sample.flex_carrier)) coords
    /\ (List.length (carrier_sites Sample.flex_carrier) <= Z.to_nat n)%nat
    /\ (Forall (fun v => v = 1) flags ->
        Permutation (map site_location (carrier_sites Sample.flex_carrier))
          coords).
Proof.
  exact (flex_carrier_sites Ex.find_int Ex.find_float Ex.find_string
           Demo.files "labware/MFX_CAR_L5_base.rck" Sample.flex_carrier
           "carrier" eq_refl).
Defined.

Lemma catalog_orientations_witness :
  TipRacks.STF_L "rack" = transposed (TipRacks.STF_P "rack")
  /\ TipRacks.name (TipRacks.STF_P "rack") = "rack"
  /\ TipRacks.name (TipRacks.STF_L "rack") = "rack"
  /\ TipRacks.size_x (TipRacks.STF_P "rack")
     = TipRacks.size_y (TipRacks.STF_L "rack")
  /\ capacity (TipRacks.STF_L "rack") = capacity (TipRacks.STF_P "rack")
  /\ capacity (TipRacks.STF_P "rack")
     = (if large_tip (TipRacks.tip_type (TipRacks.STF_P "rack"))
        then 24 else 96).
Proof.
  exact (catalog_orientations TipRacks.STF_P TipRacks.STF_L "rack"
           (or_introl eq_refl)).
Defined.
